(** * The e-commerce data generator ([ecommerce_data_generator.py])

    A shallow embedding of [EcommerceDataGenerator]: the category table, the
    three generators, and [generate_all].  Amounts are Python floats, that is
    IEEE-754 binary64 numbers: they are the kernel's primitive floats here, so
    every sum, product and comparison below is the one CPython performs.  The
    random sources ([random], Faker, the NumPy generator behind
    [DataFrame.sample]), the wall clock and the file system are external to
    the repository: they are an interface ([Externals]) with the contracts
    their documentation gives, and a small implementation driven by tapes of
    raw draws, with a list of the paths the file system refuses, serves to
    run the generators on concrete inputs. *)

From Stdlib Require Import ZArith List Bool Lia String Ascii.
From Stdlib Require Import DecimalString.
From Stdlib Require DecimalPos DecimalN.
From Stdlib Require Import Floats Uint63.
Import ListNotations.

Set Warnings "-inexact-float".
Set Implicit Arguments.

(* ================================================================== *)
(** * Python floats *)
(* ================================================================== *)

Module PyFloat.

Local Open Scope uint63_scope.

(** [N / 2^n] rounded to the nearest integer, ties to the even one. *)
Definition rhe_lsr (N n : int) : int :=
  if 62 <=? n then 0 else
  let q := N >> n in
  let r := N - (q << n) in
  let h := 1 << (n - 1) in
  if r <? h then q
  else if h <? r then q + 1
  else if is_even q then q else q + 1.

(** The double nearest to [k / 100] ([k < 2^53]: the division is the
    correctly rounded one of two exact operands). *)
Definition of_cents (k : int) : float := (of_uint63 k / 100)%float.

(** The magnitude of [x] in hundredths, rounded half-even on the exact binary
    value.  [frshiftexp] gives [|x| = mi * 2^(se - 2154)] with
    [2^52 <= mi < 2^53]. *)
Definition cents_of (x : float) : int :=
  let (mf, se) := frshiftexp x in
  rhe_lsr (100 * normfr_mantissa mf) (2154 - se).

(** [round(x, 2)] on a float.  CPython converts [x] to the decimal string
    with two digits after the point, correctly rounded (half-even on the
    exact value of the double), and reads the string back as the nearest
    double.  A double of magnitude [2^46] or more is a multiple of [2^-6],
    coarser than a hundredth, and is its own nearest double; zeros,
    infinities and NaN are returned as they are. *)
Definition round2 (x : float) : float :=
  match classify x with
  | PNormal | PSubn =>
      let (_, se) := frshiftexp x in
      if 2148 <=? se then x else of_cents (cents_of x)
  | NNormal | NSubn =>
      let (_, se) := frshiftexp x in
      if 2148 <=? se then x else (- of_cents (cents_of x))%float
  | _ => x
  end.

(** [float(z)] for a Python int: the nearest double, ties to even. *)
Definition float_of_int (z : Z) : float :=
  SF2Prim (binary_normalize prec emax z 0 false).

End PyFloat.

Import PyFloat.

Example round2_2_675 : round2 2.675 = 2.67%float.
Proof. vm_compute. reflexivity. Qed.

Example round2_tie_down : round2 0.125 = 0.12%float.
Proof. vm_compute. reflexivity. Qed.

Example round2_tie_up : round2 0.375 = 0.38%float.
Proof. vm_compute. reflexivity. Qed.

Example round2_neg : round2 (-1.005) = (-1)%float.
Proof. vm_compute. reflexivity. Qed.

Example float_sum_below_50 :
  (8 + 26.63 + 15.37)%float = 0x1.8ffffffffffffp+5%float.
Proof. vm_compute. reflexivity. Qed.

(* ================================================================== *)
(** * Records and tables *)
(* ================================================================== *)

Local Open Scope string_scope.
Local Open Scope Z_scope.

(** Calendar dates are day numbers and datetimes are microsecond counts, both
    from 1970-01-01 (naive, as the generator's datetimes are). *)
Definition date := Z.
Definition datetime := Z.

Definition us_per_day : Z := 86400000000.

(** [datetime.combine(d, datetime.min.time())]: the start of day [d]. *)
Definition midnight (d : date) : datetime := d * us_per_day.

(** [timedelta(days=n)]. *)
Definition timedelta_days (n : Z) : Z := n * us_per_day.

(** [datetime(2023, 1, 1).date()]. *)
Definition platform_epoch : date := 19358.

Record Category := {
  cat_id : Z;
  cat_name : string;
  margin : float
}.

Record Customer := {
  customer_id : Z;
  email : string;
  first_name : string;
  last_name : string;
  phone : string;
  address : string;
  city : string;
  state : string;
  zip_code : string;
  country : string;
  segment : string;
  registration_date : date;
  customer_is_active : bool;
  customer_created_at : datetime;
  customer_updated_at : datetime
}.

Record Product := {
  product_id : Z;
  sku : string;
  name : string;
  description : string;
  category_id : Z;
  category_name : string;
  price : float;
  cost : float;
  stock_quantity : Z;
  is_active : bool;
  product_created_at : datetime;
  product_updated_at : datetime
}.

Record OrderItem := {
  order_item_id : Z;
  item_order_id : Z;
  item_product_id : Z;
  quantity : Z;
  unit_price : float;
  discount : float;
  line_total : float
}.

Record Order := {
  order_id : Z;
  order_customer_id : Z;
  order_date : datetime;
  status : string;
  subtotal : float;
  shipping : float;
  tax : float;
  total : float;
  payment_method : string;
  shipping_address : string;
  shipping_city : string;
  shipping_state : string;
  shipping_zip : string;
  order_created_at : datetime;
  order_updated_at : datetime
}.

(** A pandas [DataFrame] built from a list of records.  [pd.DataFrame([])]
    has no rows and no columns either, so that selecting a column of it
    raises [KeyError]; a frame with columns may still have no rows (a filter
    that keeps nothing). *)
Inductive DataFrame (A : Type) : Type :=
| NoColumns : DataFrame A
| Frame (records : list A) : DataFrame A.

Arguments NoColumns {A}.
Arguments Frame {A} records.

Definition pd_DataFrame {A} (records : list A) : DataFrame A :=
  match records with
  | [] => NoColumns
  | _ :: _ => Frame records
  end.

Definition rows {A} (df : DataFrame A) : list A :=
  match df with
  | NoColumns => []
  | Frame l => l
  end.

Definition len {A} (df : DataFrame A) : nat := List.length (rows df).

(** [df.iloc[idx]] for a list of positions (positions out of range do not
    occur: they come from [sample]). *)
Fixpoint take {A} (l : list A) (idx : list nat) : list A :=
  match idx with
  | [] => []
  | i :: idx' =>
      match nth_error l i with
      | Some a => a :: take l idx'
      | None => take l idx'
      end
  end.

(** The exceptions the generator can meet.  [OSError] stands for the class
    and its subclasses ([FileNotFoundError], [PermissionError], ...), which
    [os.makedirs] and [to_csv] raise. *)
Inductive exn : Type :=
| KeyError (key : string)
| ValueError (message : string)
| IndexError (message : string)
| OSError (message : string).

Inductive result (A : Type) : Type :=
| Ok (a : A)
| Raise (e : exn).

Arguments Ok {A} a.
Arguments Raise {A} e.

(** The five tables, as what [to_csv] is handed. *)
Inductive Table : Type :=
| CustomersTable (t : DataFrame Customer)
| ProductsTable (t : DataFrame Product)
| CategoriesTable (t : DataFrame Category)
| OrdersTable (t : DataFrame Order)
| OrderItemsTable (t : DataFrame OrderItem).

(* ================================================================== *)
(** * What the generator draws from *)
(* ================================================================== *)

(** The library calls of the module, by their documented contracts:
    - [rng] is the state of a Python [random.Random]; the module-level
      [random] functions and Faker's generator each own one, both seeded
      with 42 when the module is imported;
    - [nprng] is the state of NumPy's global generator, which
      [DataFrame.sample] draws from when no [random_state] is passed (the
      module never seeds it);
    - [clock] is the wall clock behind [datetime.now()] and Faker's
      ["now"] and ["today"];
    - [fs] is the file system the run meets: it may refuse to make a
      directory or to write a file. *)
Class Externals : Type := {
  rng : Type;
  nprng : Type;
  clock : Type;
  fs : Type;

  (** [random.random()], [random.uniform(a, b)], [random.randint(a, b)],
      [random.choice(seq)] on the non-empty [x :: xs], and
      [random.choices(population, weights)[0]]. *)
  random_random : rng -> float * rng;
  random_uniform : float -> float -> rng -> float * rng;
  random_randint : Z -> Z -> rng -> Z * rng;
  random_choice : forall A : Type, A -> list A -> rng -> A * rng;
  random_choices : forall A : Type, A -> list A -> list float -> rng -> A * rng;

  (** Faker providers returning text ([fake.email()], ...; [nb_words] is 0
      where the provider takes none), [fake.date_between] and
      [fake.date_time_between] with two relative bounds (resolved against the
      current time [now]), and [fake.date_time_between] between two
      timestamps. *)
  faker_text : string -> Z -> rng -> string * rng;
  faker_date_between : string -> string -> datetime -> rng -> date * rng;
  faker_date_time_between_rel :
    string -> string -> datetime -> rng -> datetime * rng;
  faker_date_time_between : datetime -> datetime -> rng -> datetime * rng;

  (** [numpy.random.choice(len(p), size=1, p=p/sum(p))], which returns a
      position of positive weight, and
      [numpy.random.choice(n, size=k, replace=False)]. *)
  np_choice_p : list Z -> nprng -> nat * nprng;
  np_choice_no_replace : nat -> nat -> nprng -> list nat * nprng;

  (** Reading the clock; [clock_floor] is a time the clock has passed. *)
  clock_now : clock -> datetime * clock;
  clock_floor : clock -> datetime;

  (** The message of the [OSError] that [os.makedirs(path, exist_ok=True)],
      or opening [path] for writing, raises on this file system; [None]
      when the call goes through. *)
  makedirs_error : fs -> string -> option string;
  write_error : fs -> string -> option string;

  random_uniform_range : forall a b g,
    (a <=? b)%float = true ->
    (a <=? fst (random_uniform a b g))%float = true /\
    (fst (random_uniform a b g) <=? b)%float = true;
  random_randint_range : forall a b g,
    a <= b -> a <= fst (random_randint a b g) <= b;
  random_choice_in : forall A (x : A) xs g,
    In (fst (random_choice x xs g)) (x :: xs);
  random_choices_in : forall A (x : A) xs ws g,
    In (fst (random_choices x xs ws g)) (x :: xs);
  faker_date_time_between_range : forall s e g,
    s <= e ->
    s <= fst (faker_date_time_between s e g) <= e;
  np_choice_p_positive : forall ws g,
    Exists (fun w => 0 < w) ws ->
    0 < nth (fst (np_choice_p ws g)) ws 0;
  np_choice_no_replace_spec : forall n k g,
    (k <= n)%nat ->
    NoDup (fst (np_choice_no_replace n k g)) /\
    List.length (fst (np_choice_no_replace n k g)) = k /\
    Forall (fun i => (i < n)%nat) (fst (np_choice_no_replace n k g));
  clock_now_floor : forall c, clock_floor c <= fst (clock_now c);
  clock_floor_mono : forall c, clock_floor c <= clock_floor (snd (clock_now c));
  (** [os.makedirs("")] raises [FileNotFoundError]. *)
  makedirs_empty : forall s, makedirs_error s "" <> None
}.

Arguments random_choice {Externals A} _ _ _.
Arguments random_choices {Externals A} _ _ _ _.

(* ================================================================== *)
(** * String helpers *)
(* ================================================================== *)

(** [f"{z:0{width}d}"] for a non-negative [z]. *)
Definition zero_padded (width : nat) (z : Z) : string :=
  let s := NilZero.string_of_uint (N.to_uint (Z.to_N z)) in
  String.concat "" (repeat "0" (width - String.length s)) ++ s.

Definition is_lower (c : ascii) : bool :=
  ((97 <=? nat_of_ascii c) && (nat_of_ascii c <=? 122))%nat.

Definition is_upper (c : ascii) : bool :=
  ((65 <=? nat_of_ascii c) && (nat_of_ascii c <=? 90))%nat.

Definition to_upper (c : ascii) : ascii :=
  if is_lower c then ascii_of_nat (nat_of_ascii c - 32) else c.

Definition to_lower (c : ascii) : ascii :=
  if is_upper c then ascii_of_nat (nat_of_ascii c + 32) else c.

(** [str.title()] on ASCII text: a letter that follows a letter is lowered,
    any other letter is raised. *)
Fixpoint title_from (after_letter : bool) (s : string) : string :=
  match s with
  | EmptyString => EmptyString
  | String c s' =>
      let letter := is_lower c || is_upper c in
      String (if after_letter then to_lower c else to_upper c)
             (title_from letter s')
  end.

Definition title (s : string) : string := title_from false s.

Example zero_padded_sku : zero_padded 2 3 ++ "-" ++ zero_padded 5 42 = "03-00042".
Proof. reflexivity. Qed.

Example title_word : title "smart watch" = "Smart Watch".
Proof. reflexivity. Qed.

(* ================================================================== *)
(** * The generator *)
(* ================================================================== *)

Section Generator.

Context {E : Externals}.

(** Everything a run reads and writes besides its arguments.  [w_files]
    lists the tables written in full, in the order they were written. *)
Record World : Type := {
  w_random : rng;
  w_faker : rng;
  w_numpy : nprng;
  w_clock : clock;
  w_fs : fs;
  w_dirs : list string;
  w_files : list (string * Table)
}.

(** A computation may raise; what it did to the world before stays done. *)
Definition M (A : Type) : Type := World -> result A * World.

Definition ret {A} (a : A) : M A := fun w => (Ok a, w).

Definition raise {A} (e : exn) : M A := fun w => (Raise e, w).

Definition bind {A B} (m : M A) (k : A -> M B) : M B :=
  fun w =>
    match m w with
    | (Ok a, w') => k a w'
    | (Raise e, w') => (Raise e, w')
    end.

Notation "x <- m ;; k" := (bind m (fun x => k))
  (at level 61, m at next level, right associativity).
Notation "m ;;; k" := (bind m (fun _ => k))
  (at level 61, right associativity).

Definition random {A} (f : rng -> A * rng) : M A :=
  fun w =>
    let (a, g) := f (w_random w) in
    (Ok a, {| w_random := g; w_faker := w_faker w; w_numpy := w_numpy w;
              w_clock := w_clock w; w_fs := w_fs w; w_dirs := w_dirs w;
              w_files := w_files w |}).

Definition fake {A} (f : rng -> A * rng) : M A :=
  fun w =>
    let (a, g) := f (w_faker w) in
    (Ok a, {| w_random := w_random w; w_faker := g; w_numpy := w_numpy w;
              w_clock := w_clock w; w_fs := w_fs w; w_dirs := w_dirs w;
              w_files := w_files w |}).

Definition numpy {A} (f : nprng -> A * nprng) : M A :=
  fun w =>
    let (a, g) := f (w_numpy w) in
    (Ok a, {| w_random := w_random w; w_faker := w_faker w; w_numpy := g;
              w_clock := w_clock w; w_fs := w_fs w; w_dirs := w_dirs w;
              w_files := w_files w |}).

(** [datetime.now()]. *)
Definition datetime_now : M datetime :=
  fun w =>
    let (t, c) := clock_now (w_clock w) in
    (Ok t, {| w_random := w_random w; w_faker := w_faker w;
              w_numpy := w_numpy w; w_clock := c; w_fs := w_fs w;
              w_dirs := w_dirs w; w_files := w_files w |}).

(** [os.makedirs(path, exist_ok=True)]: an [OSError] when the file system
    refuses, and nothing is made then. *)
Definition os_makedirs (path : string) : M unit :=
  fun w =>
    match makedirs_error (w_fs w) path with
    | Some message => (Raise (OSError message), w)
    | None =>
        (Ok tt, {| w_random := w_random w; w_faker := w_faker w;
                   w_numpy := w_numpy w; w_clock := w_clock w;
                   w_fs := w_fs w;
                   w_dirs := if in_dec string_dec path (w_dirs w)
                             then w_dirs w else (w_dirs w ++ [path])%list;
                   w_files := w_files w |})
    end.

(** [df.to_csv(path, index=False)]: an [OSError] when the file cannot be
    opened for writing, and no file is left then. *)
Definition to_csv (t : Table) (path : string) : M unit :=
  fun w =>
    match write_error (w_fs w) path with
    | Some message => (Raise (OSError message), w)
    | None =>
        (Ok tt, {| w_random := w_random w; w_faker := w_faker w;
                   w_numpy := w_numpy w; w_clock := w_clock w;
                   w_fs := w_fs w; w_dirs := w_dirs w;
                   w_files := (w_files w ++ [(path, t)])%list |})
    end.

(** [for i in range(start, start + count): s = body(i, s)]. *)
Fixpoint for_range {S} (count : nat) (i : Z) (body : Z -> S -> M S) (s : S)
  : M S :=
  match count with
  | O => ret s
  | Datatypes.S count' => s' <- body i s ;; for_range count' (i + 1) body s'
  end.

(** The number of turns of [range(1, n + 1)]. *)
Definition turns (n : Z) : nat := Z.to_nat n.

(** ** [__init__] *)

Definition categories : list Category := [
  {| cat_id := 1; cat_name := "Electronics"; margin := 0.15 |};
  {| cat_id := 2; cat_name := "Clothing"; margin := 0.40 |};
  {| cat_id := 3; cat_name := "Home & Garden"; margin := 0.35 |};
  {| cat_id := 4; cat_name := "Sports"; margin := 0.30 |};
  {| cat_id := 5; cat_name := "Books"; margin := 0.25 |};
  {| cat_id := 6; cat_name := "Toys"; margin := 0.45 |};
  {| cat_id := 7; cat_name := "Beauty"; margin := 0.50 |};
  {| cat_id := 8; cat_name := "Food & Grocery"; margin := 0.20 |}
].

Definition product_templates : list (string * list string) := [
  ("Electronics", ["Laptop"; "Smartphone"; "Tablet"; "Headphones";
                   "Smart Watch"; "Camera"; "Speaker"; "Monitor"]);
  ("Clothing", ["T-Shirt"; "Jeans"; "Dress"; "Jacket"; "Sneakers"; "Hoodie";
                "Shorts"; "Sweater"]);
  ("Home & Garden", ["Lamp"; "Rug"; "Plant Pot"; "Cushion"; "Blanket"; "Vase";
                     "Mirror"; "Clock"]);
  ("Sports", ["Yoga Mat"; "Dumbbells"; "Running Shoes"; "Basketball";
              "Tennis Racket"; "Bike Helmet"; "Gym Bag"; "Water Bottle"]);
  ("Books", ["Fiction Novel"; "Cookbook"; "Biography"; "Self-Help Book";
             "Science Book"; "History Book"; "Art Book"; "Travel Guide"]);
  ("Toys", ["Board Game"; "Puzzle"; "Action Figure"; "Doll";
            "Building Blocks"; "Remote Control Car"; "Stuffed Animal";
            "Card Game"]);
  ("Beauty", ["Moisturizer"; "Lipstick"; "Perfume"; "Shampoo"; "Face Mask";
              "Nail Polish"; "Sunscreen"; "Hair Dryer"]);
  ("Food & Grocery", ["Coffee Beans"; "Olive Oil"; "Chocolate Box";
                      "Spice Set"; "Tea Collection"; "Honey"; "Pasta Set";
                      "Snack Box"])
].

Definition order_statuses : list string :=
  ["completed"; "completed"; "completed"; "completed"; "shipped";
   "processing"; "cancelled"; "returned"].

(** [d[key]] on a dict given as an association list. *)
Fixpoint dict_get {V} (d : list (string * V)) (key : string) : M V :=
  match d with
  | [] => raise (KeyError key)
  | (k, v) :: d' => if String.eqb k key then ret v else dict_get d' key
  end.

(** [random.choice(seq)]: [IndexError] on an empty sequence. *)
Definition choice {A} (seq : list A) : M A :=
  match seq with
  | [] => raise (IndexError "Cannot choose from an empty sequence")
  | x :: xs => random (random_choice x xs)
  end.

(** [random.choices(population, weights)[0]]. *)
Definition choices {A} (population : list A) (weights : list float) : M A :=
  match population with
  | [] => raise (IndexError "list index out of range")
  | x :: xs => random (random_choices x xs weights)
  end.

(** [fake.date_between(start_date=s, end_date=e)] with relative bounds. *)
Definition fake_date_between (s e : string) : M date :=
  now <- datetime_now ;;
  fake (faker_date_between s e now).

(** ** [generate_customers] *)

Definition customer_record (i : Z) : M Customer :=
  segment <- choices ["premium"; "regular"; "occasional"; "new"]
                     [0.1; 0.4; 0.3; 0.2]%float ;;
  reg_date <- (if String.eqb segment "new"
               then fake_date_between "-3m" "today"
               else if String.eqb segment "premium"
               then fake_date_between "-3y" "-1y"
               else fake_date_between "-2y" "-1m") ;;
  email <- fake (faker_text "email" 0) ;;
  first_name <- fake (faker_text "first_name" 0) ;;
  last_name <- fake (faker_text "last_name" 0) ;;
  phone <- fake (faker_text "phone_number" 0) ;;
  address <- fake (faker_text "street_address" 0) ;;
  city <- fake (faker_text "city" 0) ;;
  state <- fake (faker_text "state_abbr" 0) ;;
  zip_code <- fake (faker_text "zipcode" 0) ;;
  is_active <- choices [true; false] [0.9; 0.1]%float ;;
  updated_at <- datetime_now ;;
  ret {| customer_id := i;
         email := email;
         first_name := first_name;
         last_name := last_name;
         phone := phone;
         address := address;
         city := city;
         state := state;
         zip_code := zip_code;
         country := "USA";
         segment := segment;
         registration_date := reg_date;
         customer_is_active := is_active;
         customer_created_at := midnight reg_date;
         customer_updated_at := updated_at |}.

Definition generate_customers (n : Z) : M (DataFrame Customer) :=
  customers <- for_range (turns n) 1
                 (fun i customers =>
                    customer <- customer_record i ;;
                    ret (customers ++ [customer])%list)
                 [] ;;
  ret (pd_DataFrame customers).

(** ** [generate_products] *)

Definition product_record (i : Z) : M Product :=
  category <- choice categories ;;
  let category_name := cat_name category in
  templates <- dict_get product_templates category_name ;;
  base_product <- choice templates ;;
  price <- (if String.eqb category_name "Electronics"
            then u <- random (random_uniform 50 1500) ;; ret (round2 u)
            else if String.eqb category_name "Books"
            then u <- random (random_uniform 10 50) ;; ret (round2 u)
            else u <- random (random_uniform 15 200) ;; ret (round2 u)) ;;
  let cost := round2 (price * (1 - margin category))%float in
  word <- fake (faker_text "word" 0) ;;
  description <- fake (faker_text "sentence" 10) ;;
  stock_quantity <- random (random_randint 0 500) ;;
  is_active <- choices [true; false] [0.85; 0.15]%float ;;
  created_at <- (now <- datetime_now ;;
                 fake (faker_date_time_between_rel "-2y" "-6m" now)) ;;
  updated_at <- datetime_now ;;
  ret {| product_id := i;
         sku := "SKU-" ++ zero_padded 2 (cat_id category) ++ "-"
                ++ zero_padded 5 i;
         name := title word ++ " " ++ base_product;
         description := description;
         category_id := cat_id category;
         category_name := category_name;
         price := price;
         cost := cost;
         stock_quantity := stock_quantity;
         is_active := is_active;
         product_created_at := created_at;
         product_updated_at := updated_at |}.

Definition generate_products (n : Z) : M (DataFrame Product) :=
  products <- for_range (turns n) 1
                (fun i products =>
                   product <- product_record i ;;
                   ret (products ++ [product])%list)
                [] ;;
  ret (pd_DataFrame products).

(** ** [generate_orders] *)

(** [customers_df["segment"].map({...})]: a segment outside the mapping gets
    NaN, which [sample] counts as weight 0. *)
Definition segment_weight (segment : string) : Z :=
  if String.eqb segment "premium" then 4
  else if String.eqb segment "regular" then 2
  else if String.eqb segment "occasional" then 1
  else if String.eqb segment "new" then 1
  else 0.

(** [customers_df.sample(weights=...).iloc[0]]. *)
Definition sample_customer (customers_df : DataFrame Customer) : M Customer :=
  match customers_df with
  | NoColumns => raise (KeyError "segment")
  | Frame records =>
      let weights := map (fun c => segment_weight (segment c)) records in
      if forallb (Z.eqb 0) weights
      then raise (ValueError "Invalid weights: weights sum to zero")
      else
        i <- numpy (np_choice_p weights) ;;
        match nth_error records i with
        | Some customer => ret customer
        | None => raise (IndexError "positional indexers are out-of-bounds")
        end
  end.

(** [products_df[products_df["is_active"] == True]]. *)
Definition select_active (products_df : DataFrame Product)
  : M (DataFrame Product) :=
  match products_df with
  | NoColumns => raise (KeyError "is_active")
  | Frame records => ret (Frame (filter is_active records))
  end.

(** [df.sample(n=n)], as the rows [iterrows] then yields. *)
Definition sample_n (df : DataFrame Product) (n : Z) : M (list Product) :=
  if n <? 0
  then raise (ValueError "A negative number of rows requested")
  else if Z.of_nat (len df) <? n
  then raise (ValueError "Cannot take a larger sample than population")
  else
    idx <- numpy (np_choice_no_replace (len df) (Z.to_nat n)) ;;
    ret (take (rows df) idx).

(** One turn of the loop over [order_products.iterrows()]; the state is
    [(subtotal, order_items, order_item_id)]. *)
Definition order_item_record (order_id : Z) (product : Product)
    (st : float * list OrderItem * Z) : M (float * list OrderItem * Z) :=
  let '(subtotal, order_items, order_item_id) := st in
  quantity <- random (random_randint 1 3) ;;
  let unit_price := price product in
  r <- random random_random ;;
  discount <- (if (r <? 0.2)%float
               then rate <- choice [0.1; 0.15; 0.2]%float ;;
                    ret (round2 (unit_price * rate))
               else ret 0%float) ;;
  let line_total :=
    round2 ((unit_price - discount) * float_of_int quantity) in
  let order_item :=
    {| order_item_id := order_item_id;
       item_order_id := order_id;
       item_product_id := product_id product;
       quantity := quantity;
       unit_price := unit_price;
       discount := discount;
       line_total := line_total |} in
  ret ((subtotal + line_total)%float, (order_items ++ [order_item])%list,
       order_item_id + 1).

Fixpoint order_items_loop (order_id : Z) (order_products : list Product)
    (st : float * list OrderItem * Z) : M (float * list OrderItem * Z) :=
  match order_products with
  | [] => ret st
  | product :: rest =>
      st' <- order_item_record order_id product st ;;
      order_items_loop order_id rest st'
  end.

(** One turn of the loop over [range(1, n_orders + 1)]; the state is
    [(orders, order_items, order_item_id)]. *)
Definition order_record (customers_df : DataFrame Customer)
    (active_products : DataFrame Product) (order_id : Z)
    (st : list Order * list OrderItem * Z)
  : M (list Order * list OrderItem * Z) :=
  let '(orders, order_items, order_item_id) := st in
  customer <- sample_customer customers_df ;;
  let min_date := Z.max (registration_date customer) platform_epoch in
  order_date <- (now <- datetime_now ;;
                 fake (faker_date_time_between (midnight min_date) now)) ;;
  status <- choice order_statuses ;;
  n_items <- (if String.eqb (segment customer) "premium"
              then random (random_randint 2 6)
              else random (random_randint 1 4)) ;;
  order_products <-
    sample_n active_products
             (Z.min n_items (Z.of_nat (len active_products))) ;;
  st' <- order_items_loop order_id order_products
           (0%float, order_items, order_item_id) ;;
  let '(subtotal, order_items, order_item_id) := st' in
  shipping <- (if (subtotal <? 50)%float
               then c <- choice [0; 5.99; 9.99; 14.99]%float ;;
                    ret (round2 c)
               else ret 0%float) ;;
  let tax := round2 (subtotal * 0.08) in
  let total := round2 (subtotal + shipping + tax) in
  payment_method <-
    choice ["credit_card"; "debit_card"; "paypal"; "apple_pay"] ;;
  days <- random (random_randint 0 5) ;;
  let order :=
    {| order_id := order_id;
       order_customer_id := customer_id customer;
       order_date := order_date;
       status := status;
       subtotal := round2 subtotal;
       shipping := shipping;
       tax := tax;
       total := total;
       payment_method := payment_method;
       shipping_address := address customer;
       shipping_city := city customer;
       shipping_state := state customer;
       shipping_zip := zip_code customer;
       order_created_at := order_date;
       order_updated_at := order_date + timedelta_days days |} in
  ret ((orders ++ [order])%list, order_items, order_item_id).

Definition generate_orders (customers_df : DataFrame Customer)
    (products_df : DataFrame Product) (n_orders : Z)
  : M (DataFrame Order * DataFrame OrderItem) :=
  active_products <- select_active products_df ;;
  st <- for_range (turns n_orders) 1
          (order_record customers_df active_products) ([], [], 1) ;;
  let '(orders, order_items, _) := st in
  ret (pd_DataFrame orders, pd_DataFrame order_items).

(** ** [generate_all] *)

Record Dataset : Type := {
  customers : DataFrame Customer;
  products : DataFrame Product;
  categories_table : DataFrame Category;
  orders : DataFrame Order;
  order_items : DataFrame OrderItem
}.

Definition generate_all (n_customers n_products n_orders : Z)
    (output_dir : string) : M Dataset :=
  os_makedirs output_dir ;;;
  customers_df <- generate_customers n_customers ;;
  to_csv (CustomersTable customers_df) (output_dir ++ "/customers.csv") ;;;
  products_df <- generate_products n_products ;;
  to_csv (ProductsTable products_df) (output_dir ++ "/products.csv") ;;;
  let categories_df := pd_DataFrame categories in
  to_csv (CategoriesTable categories_df) (output_dir ++ "/categories.csv") ;;;
  both <- generate_orders customers_df products_df n_orders ;;
  let '(orders_df, order_items_df) := both in
  to_csv (OrdersTable orders_df) (output_dir ++ "/orders.csv") ;;;
  to_csv (OrderItemsTable order_items_df)
         (output_dir ++ "/order_items.csv") ;;;
  ret {| customers := customers_df;
         products := products_df;
         categories_table := categories_df;
         orders := orders_df;
         order_items := order_items_df |}.

End Generator.

Arguments World : clear implicits.
Arguments M : clear implicits.

(* ================================================================== *)
(** * Float comparison facts *)
(* ================================================================== *)

Section Comparisons.

Local Open Scope Z_scope.

Lemma compare_cont_Eq_refl (p : positive) : Pos.compare_cont Eq p p = Eq.
Proof. induction p; simpl; auto. Qed.

Lemma SFcompare_refl (x : spec_float) :
  x <> S754_nan -> SFcompare x x = Some Eq.
Proof.
  destruct x as [s | s | | s m e]; simpl; intros H;
    try destruct s; try reflexivity; try congruence;
    rewrite Z.compare_refl, compare_cont_Eq_refl; reflexivity.
Qed.

Lemma SFcompare_antisym (x y : spec_float) :
  SFcompare y x = option_map CompOpp (SFcompare x y).
Proof.
  destruct x as [sx | sx | | sx mx ex], y as [sy | sy | | sy my ey]; simpl;
    try destruct sx; try destruct sy; try reflexivity.
  - rewrite (Z.compare_antisym ex ey).
    destruct (ex ?= ey) eqn:He; simpl; try reflexivity.
    change (Pos.compare_cont Eq my mx) with (Pos.compare my mx).
    change (Pos.compare_cont Eq mx my) with (Pos.compare mx my).
    rewrite (Pos.compare_antisym mx my). now rewrite CompOpp_involutive.
  - rewrite (Z.compare_antisym ex ey).
    destruct (ex ?= ey) eqn:He; simpl; try reflexivity.
    change (Pos.compare_cont Eq my mx) with (Pos.compare my mx).
    change (Pos.compare_cont Eq mx my) with (Pos.compare mx my).
    now rewrite (Pos.compare_antisym mx my).
Qed.

(** [not (y < x)] follows from [x <= y]. *)
Lemma leb_not_ltb (x y : float) :
  (x <=? y)%float = true -> (y <? x)%float = false.
Proof.
  rewrite FloatAxioms.leb_spec, FloatAxioms.ltb_spec. unfold SFleb, SFltb.
  rewrite (SFcompare_antisym (Prim2SF x) (Prim2SF y)).
  destruct (SFcompare (Prim2SF x) (Prim2SF y)) as [[ | | ] | ]; simpl;
    congruence.
Qed.

Lemma leb_refl_of_leb_l (x y : float) :
  (x <=? y)%float = true -> (x <=? x)%float = true.
Proof.
  rewrite !FloatAxioms.leb_spec. unfold SFleb. intros H.
  rewrite SFcompare_refl; auto.
  intros Hn. rewrite Hn in H. simpl in H. discriminate.
Qed.

End Comparisons.

(* ================================================================== *)
(** * What [round(x, 2)] returns on a bounded amount *)
(* ================================================================== *)

(** The float specification is stated with the core library's integer
    operations; the arithmetic tactics know the standard library's. *)
Ltac stdlib_Z :=
  change IntDef.Z.add with Z.add in *;
  change IntDef.Z.sub with Z.sub in *;
  change IntDef.Z.opp with Z.opp in *;
  change IntDef.Z.mul with Z.mul in *;
  change IntDef.Z.max with Z.max in *;
  change IntDef.Z.min with Z.min in *;
  change IntDef.Z.compare with Z.compare in *;
  change IntDef.Z.eqb with Z.eqb in *;
  change IntDef.Z.leb with Z.leb in *;
  change IntDef.Z.ltb with Z.ltb in *.

Section Rounding.

Local Open Scope Z_scope.

Lemma wB_val : wB = 9223372036854775808.
Proof. reflexivity. Qed.

Lemma pow2_lt_wB n : 0 <= n < 63 -> 2 ^ n < wB.
Proof.
  intros H. rewrite wB_val. change 9223372036854775808 with (2 ^ 63).
  apply Z.pow_lt_mono_r; lia.
Qed.

Lemma rhe_lsr_between (N n : int) (a b : Z) :
  1 <= to_Z n < 62 ->
  a * 2 ^ to_Z n <= to_Z N <= b * 2 ^ to_Z n ->
  a <= to_Z (rhe_lsr N n) <= b.
Proof.
  intros Hn [Ha Hb].
  pose proof (to_Z_bounded N) as HN.
  set (D := 2 ^ to_Z n) in *.
  assert (HD : 0 < D) by (apply Z.pow_pos_nonneg; lia).
  assert (Hq : to_Z (N >> n) = to_Z N / D) by apply lsr_spec.
  assert (Hqa : a <= to_Z N / D) by (apply Z.div_le_lower_bound; lia).
  assert (Hqb : to_Z N / D <= b) by (apply Z.div_le_upper_bound; lia).
  pose proof (Z.div_mod (to_Z N) D ltac:(lia)) as Hdm.
  pose proof (Z.mod_pos_bound (to_Z N) D HD) as Hr.
  assert (Hq0 : 0 <= to_Z N / D) by (apply Z.div_pos; lia).
  assert (Hsl : to_Z ((N >> n) << n) = to_Z N / D * D).
  { rewrite lsl_spec, Hq. fold D. apply Z.mod_small. nia. }
  assert (Hsub : to_Z (N - ((N >> n) << n)) = to_Z N mod D).
  { rewrite sub_spec, Hsl. rewrite Z.mod_small; nia. }
  assert (Hn1 : to_Z (n - 1) = to_Z n - 1).
  { rewrite sub_spec. change (to_Z 1) with 1. apply Z.mod_small.
    pose proof (to_Z_bounded n). rewrite wB_val. lia. }
  assert (Hh : to_Z (1 << (n - 1)) = 2 ^ (to_Z n - 1)).
  { rewrite lsl_spec, Hn1. change (to_Z 1) with 1. rewrite Z.mul_1_l.
    apply Z.mod_small. split; [apply Z.pow_nonneg; lia|].
    apply pow2_lt_wB; lia. }
  assert (Hhpos : 0 < 2 ^ (to_Z n - 1)) by (apply Z.pow_pos_nonneg; lia).
  assert (Hq1 : to_Z N mod D > 0 -> to_Z ((N >> n) + 1) = to_Z N / D + 1 /\ to_Z N / D + 1 <= b).
  { intros Hpos. assert (to_Z N / D < b) by nia.
    split; [|lia]. rewrite add_spec, Hq. change (to_Z 1) with 1.
    apply Z.mod_small. split; [lia|].
    assert (HD2 : 2 <= D).
    { unfold D. change 2 with (2 ^ 1) at 1. apply Z.pow_le_mono_r; lia. }
    rewrite wB_val in *. nia. }
  unfold rhe_lsr.
  destruct (62 <=? n)%uint63 eqn:H62.
  { apply leb_spec in H62. change (to_Z 62) with 62 in H62. lia. }
  cbv zeta.
  destruct (N - ((N >> n) << n) <? 1 << (n - 1))%uint63 eqn:H1.
  { rewrite Hq. lia. }
  assert (H1' : ~ to_Z (N - ((N >> n) << n)) < to_Z (1 << (n - 1))).
  { intros C. apply ltb_spec in C. congruence. }
  rewrite Hsub, Hh in H1'.
  destruct (1 << (n - 1) <? N - ((N >> n) << n))%uint63 eqn:H2.
  { destruct Hq1 as [E1 E2]; [lia|]. rewrite E1. lia. }
  destruct (is_even (N >> n)).
  { rewrite Hq. lia. }
  destruct Hq1 as [E1 E2]; [lia|]. rewrite E1. lia.
Qed.

Lemma digits2_bounds (m : positive) :
  2 ^ (Zpos (digits2_pos m) - 1) <= Zpos m < 2 ^ Zpos (digits2_pos m).
Proof.
  induction m as [p IH | p IH | ]; simpl digits2_pos.
  - rewrite Pos2Z.inj_succ.
    replace (Z.succ (Zpos (digits2_pos p)) - 1) with (Z.succ (Zpos (digits2_pos p) - 1)) by lia.
    rewrite !Z.pow_succ_r by lia. lia.
  - rewrite Pos2Z.inj_succ.
    replace (Z.succ (Zpos (digits2_pos p)) - 1) with (Z.succ (Zpos (digits2_pos p) - 1)) by lia.
    rewrite !Z.pow_succ_r by lia. lia.
  - simpl. lia.
Qed.

Lemma bounded_normal (m : positive) (e : Z) :
  bounded prec emax m e = true -> -1074 < e ->
  Zpos (digits2_pos m) = 53 /\ 2 ^ 52 <= Zpos m < 2 ^ 53.
Proof.
  unfold bounded, canonical_mantissa, fexp, SpecFloat.emin, prec, emax.
  intros H He. apply andb_prop in H. destruct H as [H _].
  stdlib_Z. apply Z.eqb_eq in H. 
  assert (Hd : Zpos (digits2_pos m) = 53) by lia.
  pose proof (digits2_bounds m) as Hb. rewrite Hd in Hb.
  split; [exact Hd | exact Hb].
Qed.

Lemma SFleb_finite_pos (ml m : positive) (el e : Z) :
  SFleb (S754_finite false ml el) (S754_finite false m e) = true ->
  el < e \/ (el = e /\ Zpos ml <= Zpos m).
Proof.
  unfold SFleb. simpl. stdlib_Z.
  destruct (el ?= e) eqn:Hc.
  - apply Z.compare_eq in Hc. intros H. right. split; [exact Hc|].
    change (PosDef.Pos.compare_cont Eq ml m) with (Pos.compare ml m) in H.
    destruct (Pos.compare_spec ml m) as [Hm | Hm | Hm]; try discriminate.
    + subst. lia.
    + lia.
  - intros _. left. apply Z.compare_lt_iff in Hc. exact Hc.
  - discriminate.
Qed.

(** A double between two whole numbers [lo <= hi] (at least 1, below
    [2^46]) rounds to a double of the form [k / 100] with
    [100 lo <= k <= 100 hi]. *)
Lemma round2_between (lo hi : Z) (L H u : float) (ml mh : positive)
    (el eh : Z) :
  Prim2SF L = S754_finite false ml el ->
  Prim2SF H = S754_finite false mh eh ->
  Zpos ml = lo * 2 ^ (- el) ->
  Zpos mh = hi * 2 ^ (- eh) ->
  -52 <= el -> eh < -6 ->
  (L <=? u)%float = true -> (u <=? H)%float = true ->
  exists k : int,
    100 * lo <= to_Z k <= 100 * hi /\ round2 u = of_cents k.
Proof.
  intros HL HH Hml Hmh Hel Heh HLu HuH.
  pose proof (Prim2SF_valid L) as VL. rewrite HL in VL. simpl in VL.
  pose proof (Prim2SF_valid H) as VH. rewrite HH in VH. simpl in VH.
  pose proof (Prim2SF_valid u) as Vu.
  rewrite FloatAxioms.leb_spec in HLu, HuH. rewrite HL in HLu. rewrite HH in HuH.
  destruct (Prim2SF u) as [s | s | | s m e] eqn:Hu.
  { destruct s; discriminate. }
  { destruct s; discriminate. }
  { discriminate. }
  destruct s; [discriminate|].
  simpl in Vu.
  apply SFleb_finite_pos in HLu, HuH.
  assert (Hele : el <= e <= eh) by lia.
  destruct (@bounded_normal _ _ Vu ltac:(lia)) as [Hdig Hm].
  destruct (@bounded_normal _ _ VL ltac:(lia)) as [_ Hml'].
  destruct (@bounded_normal _ _ VH ltac:(lia)) as [_ Hmh'].
  (* exact order, in units of [2^e] *)
  set (n := - e).
  assert (Hn : 7 <= n <= 52) by (unfold n; lia).
  assert (Hlo : lo * 2 ^ n <= Zpos m).
  { destruct HLu as [Hlt | [Heq Hle]].
    - assert (Hsplit : 2 ^ (- el) = 2 ^ n * 2 ^ (- el - n)).
      { rewrite <- Z.pow_add_r by lia. f_equal. lia. }
      assert (Hp : 2 <= 2 ^ (- el - n)).
      { change 2 with (2 ^ 1) at 1. apply Z.pow_le_mono_r; lia. }
      assert (Hpn : 0 < 2 ^ n) by (apply Z.pow_pos_nonneg; lia).
      rewrite Hsplit in Hml.
      change (2 ^ 53) with (2 * 2 ^ 52) in Hml'. nia.
    - subst el. fold n in Hml. lia. }
  assert (Hhi : Zpos m <= hi * 2 ^ n).
  { destruct HuH as [Hlt | [Heq Hle]].
    - assert (Hsplit : 2 ^ n = 2 ^ (- eh) * 2 ^ (n + eh)).
      { rewrite <- Z.pow_add_r by lia. f_equal. lia. }
      assert (Hp : 2 <= 2 ^ (n + eh)).
      { change 2 with (2 ^ 1) at 1. apply Z.pow_le_mono_r; lia. }
      assert (Hpn : 0 < 2 ^ (- eh)) by (apply Z.pow_pos_nonneg; lia).
      rewrite Hsplit.
      change (2 ^ 53) with (2 * 2 ^ 52) in Hm. nia.
    - unfold n. rewrite Heq. lia. }
  (* what the primitives return *)
  pose proof (classify_spec u) as Hcl. rewrite Hu in Hcl.
  unfold SF64classify, SFclassify in Hcl. rewrite Hdig in Hcl.
  change (53 =? prec) with true in Hcl.
  pose proof (frshiftexp_spec u) as Hfr. rewrite Hu in Hfr.
  unfold SFfrexp in Hfr. rewrite Hdig in Hfr.
  change (prec <=? 53) with true in Hfr.
  unfold round2, cents_of. rewrite Hcl.
  destruct (frshiftexp u) as [mf se].
  injection Hfr as Hmf Hse.
  pose proof (normfr_mantissa_spec mf) as Hnm. rewrite Hmf in Hnm.
  unfold SFnormfr_mantissa in Hnm. rewrite Z.eqb_refl in Hnm.
  change (Z.of_N (N.pos m)) with (Zpos m) in Hnm.
  unfold shift, prec in Hse.
  assert (Hse' : to_Z se = e + 2154) by lia.
  destruct (2148 <=? se)%uint63 eqn:Hbig.
  { apply leb_spec in Hbig. change (to_Z 2148) with 2148 in Hbig. lia. }
  eexists. split; [|reflexivity].
  assert (HN : to_Z (100 * normfr_mantissa mf) = 100 * Zpos m).
  { rewrite mul_spec, Hnm. change (to_Z 100) with 100.
    apply Z.mod_small. rewrite wB_val.
    change (2 ^ 53) with 9007199254740992 in Hm. lia. }
  assert (Hnn : to_Z (2154 - se) = n).
  { rewrite sub_spec, Hse'. change (to_Z 2154) with 2154.
    unfold n. rewrite Z.mod_small; [lia|]. rewrite wB_val. lia. }
  apply rhe_lsr_between; rewrite Hnn, ?HN; [lia|].
  assert (0 < 2 ^ n) by (apply Z.pow_pos_nonneg; lia). nia.
Qed.

End Rounding.

(* ================================================================== *)
(** * Checking every amount of a price range *)
(* ================================================================== *)

(** [p k && p (k+1) && ...], [n] terms. *)
Fixpoint forall_from (n : nat) (k : int) (p : int -> bool) : bool :=
  match n with
  | O => true
  | S n' => p k && forall_from n' (k + 1)%uint63 p
  end.

(** [p] holds of every number of hundredths from [lo] to [hi]. *)
Definition all_cents (lo hi : Z) (p : int -> bool) : bool :=
  forall_from (Z.to_nat (hi - lo + 1)) (of_Z lo) p.

Section Enumeration.

Local Open Scope Z_scope.

Lemma forall_from_spec (n : nat) : forall (k0 : int) (p : int -> bool),
  forall_from n k0 p = true ->
  to_Z k0 + Z.of_nat n <= wB ->
  forall k, to_Z k0 <= to_Z k < to_Z k0 + Z.of_nat n -> p k = true.
Proof.
  induction n as [ | n IH]; intros k0 p Hall Hfit k Hk.
  - simpl in Hk. lia.
  - simpl in Hall. apply andb_prop in Hall. destruct Hall as [H0 Hrest].
    destruct (Z.eq_dec (to_Z k0) (to_Z k)) as [Heq | Hne].
    + apply to_Z_inj in Heq. subst. exact H0.
    + assert (Hs : to_Z (k0 + 1)%uint63 = to_Z k0 + 1).
      { rewrite add_spec. change (to_Z 1) with 1. apply Z.mod_small.
        pose proof (to_Z_bounded k0). lia. }
      apply (IH (k0 + 1)%uint63 p Hrest); rewrite Hs; lia.
Qed.

Lemma all_cents_spec (lo hi : Z) (p : int -> bool) :
  0 <= lo -> hi < 2 ^ 53 ->
  all_cents lo hi p = true ->
  forall k, lo <= to_Z k <= hi -> p k = true.
Proof.
  intros Hlo Hhi Hall k Hk. unfold all_cents in Hall.
  assert (Hw : 2 ^ 53 < wB) by (rewrite wB_val; reflexivity).
  assert (Hof : to_Z (of_Z lo) = lo).
  { rewrite of_Z_spec. apply Z.mod_small. lia. }
  apply (forall_from_spec _ _ _ Hall); rewrite Hof; lia.
Qed.

End Enumeration.

(** The range [random.uniform] is asked for, by category name, and the same
    in hundredths. *)
Definition price_bounds (category_name : string) : float * float :=
  if String.eqb category_name "Electronics" then (50, 1500)%float
  else if String.eqb category_name "Books" then (10, 50)%float
  else (15, 200)%float.

Definition cents_bounds (category_name : string) : Z * Z :=
  if String.eqb category_name "Electronics" then (5000, 150000)%Z
  else if String.eqb category_name "Books" then (1000, 5000)%Z
  else (1500, 20000)%Z.

(** What [generate_products] computes from a price of [k] hundredths in
    category [c], and what is to hold of it. *)
Definition cost_below_price (c : Category) (k : int) : bool :=
  let price := of_cents k in
  let cost := round2 (price * (1 - margin c)) in
  (cost <? price)%float
  && (fst (price_bounds (cat_name c)) <=? price)%float
  && (price <=? snd (price_bounds (cat_name c)))%float.

Lemma cost_below_price_all :
  forallb (fun c => all_cents (fst (cents_bounds (cat_name c)))
                              (snd (cents_bounds (cat_name c)))
                              (cost_below_price c))
          categories = true.
Proof. vm_compute. reflexivity. Qed.

Lemma margins_proper :
  forallb (fun c => (0 <? margin c)%float && (margin c <? 1)%float)
          categories = true.
Proof. vm_compute. reflexivity. Qed.

(** A draw from the range of a category rounds to a whole number of
    hundredths of that range. *)
Lemma round2_price (c : Category) (u : float) :
  In c categories ->
  (fst (price_bounds (cat_name c)) <=? u)%float = true ->
  (u <=? snd (price_bounds (cat_name c)))%float = true ->
  exists k : int,
    (fst (cents_bounds (cat_name c)) <= to_Z k
     <= snd (cents_bounds (cat_name c)))%Z
    /\ round2 u = of_cents k.
Proof.
  intros Hc Hlo Hhi.
  assert (Hcases :
    (price_bounds (cat_name c) = (50, 1500)%float
       /\ cents_bounds (cat_name c) = (5000, 150000)%Z)
    \/ (price_bounds (cat_name c) = (10, 50)%float
       /\ cents_bounds (cat_name c) = (1000, 5000)%Z)
    \/ (price_bounds (cat_name c) = (15, 200)%float
       /\ cents_bounds (cat_name c) = (1500, 20000)%Z)).
  { simpl in Hc.
    repeat (destruct Hc as [Hc | Hc]; [subst c; vm_compute; tauto | ]).
    contradiction. }
  destruct Hcases as [[Hp Hk] | [[Hp Hk] | [Hp Hk]]];
    rewrite Hp in Hlo, Hhi; rewrite Hk; simpl fst in *; simpl snd in *.
  - change 5000%Z with (100 * 50)%Z. change 150000%Z with (100 * 1500)%Z.
    eapply round2_between with (L := 50%float) (H := 1500%float);
      try eassumption; try (vm_compute; reflexivity);
      vm_compute; congruence.
  - change 1000%Z with (100 * 10)%Z. change 5000%Z with (100 * 50)%Z.
    eapply round2_between with (L := 10%float) (H := 50%float);
      try eassumption; try (vm_compute; reflexivity);
      vm_compute; congruence.
  - change 1500%Z with (100 * 15)%Z. change 20000%Z with (100 * 200)%Z.
    eapply round2_between with (L := 15%float) (H := 200%float);
      try eassumption; try (vm_compute; reflexivity);
      vm_compute; congruence.
Qed.

(* ================================================================== *)
(** * Running a computation step by step *)
(* ================================================================== *)

Section Steps.

Context {E : Externals}.

Local Open Scope Z_scope.

Lemma bind_ok {A B} (m : M E A) (k : A -> M E B) w b w' :
  bind m k w = (Ok b, w') ->
  exists a w1, m w = (Ok a, w1) /\ k a w1 = (Ok b, w').
Proof.
  unfold bind. destruct (m w) as [[a | e] w1]; intros H.
  - exists a, w1. auto.
  - discriminate.
Qed.

Lemma bind_raise {A B} (m : M E A) (k : A -> M E B) w e w' :
  bind m k w = (Raise e, w') ->
  m w = (Raise e, w') \/
  exists a w1, m w = (Ok a, w1) /\ k a w1 = (Raise e, w').
Proof.
  unfold bind. destruct (m w) as [[a | e0] w1]; intros H.
  - right. exists a, w1. auto.
  - left. injection H as <- <-. reflexivity.
Qed.

Lemma bind_run {A B} (m : M E A) (k : A -> M E B) w a w1 :
  m w = (Ok a, w1) -> bind m k w = k a w1.
Proof. unfold bind. intros ->. reflexivity. Qed.

(** A step is quiet when it leaves the files alone and the clock does not
    go back. *)
Definition quiet (w w' : World E) : Prop :=
  w_files w' = w_files w /\ w_dirs w' = w_dirs w /\
  clock_floor (w_clock w) <= clock_floor (w_clock w').

Lemma quiet_refl w : quiet w w.
Proof. unfold quiet. repeat split; lia. Qed.

Lemma quiet_trans w1 w2 w3 : quiet w1 w2 -> quiet w2 w3 -> quiet w1 w3.
Proof.
  unfold quiet. intros (F1 & D1 & C1) (F2 & D2 & C2).
  repeat split; try congruence; lia.
Qed.

Lemma ret_run {A} (a : A) w r w' :
  ret a w = (r, w') -> r = Ok a /\ w' = w.
Proof. unfold ret. intros H. injection H as <- <-. auto. Qed.

Lemma random_run {A} (f : rng -> A * rng) w r w' :
  random f w = (r, w') ->
  r = Ok (fst (f (w_random w))) /\ quiet w w' /\
  w_clock w' = w_clock w /\ w_numpy w' = w_numpy w.
Proof.
  unfold random, quiet. destruct (f (w_random w)) as [a g].
  intros H. injection H as <- <-. simpl. repeat split; lia.
Qed.

Lemma fake_run {A} (f : rng -> A * rng) w r w' :
  fake f w = (r, w') ->
  r = Ok (fst (f (w_faker w))) /\ quiet w w' /\
  w_clock w' = w_clock w /\ w_numpy w' = w_numpy w.
Proof.
  unfold fake, quiet. destruct (f (w_faker w)) as [a g].
  intros H. injection H as <- <-. simpl. repeat split; lia.
Qed.

Lemma numpy_run {A} (f : nprng -> A * nprng) w r w' :
  numpy f w = (r, w') ->
  r = Ok (fst (f (w_numpy w))) /\ quiet w w' /\ w_clock w' = w_clock w.
Proof.
  unfold numpy, quiet. destruct (f (w_numpy w)) as [a g].
  intros H. injection H as <- <-. simpl. repeat split; lia.
Qed.

Lemma datetime_now_run w r w' :
  datetime_now w = (r, w') ->
  exists t, r = Ok t /\ clock_floor (w_clock w) <= t /\ quiet w w'.
Proof.
  unfold datetime_now, quiet.
  pose proof (clock_now_floor (w_clock w)) as Hf.
  pose proof (clock_floor_mono (w_clock w)) as Hm.
  destruct (clock_now (w_clock w)) as [t c].
  intros H. injection H as <- <-. simpl in *.
  exists t. repeat split; lia.
Qed.

Lemma choice_run {A} (l : list A) w r w' :
  choice l w = (r, w') ->
  quiet w w' /\
  match r with
  | Ok a => In a l
  | Raise _ => l = []
  end.
Proof.
  unfold choice. destruct l as [ | x xs].
  - unfold raise. intros H. injection H as <- <-.
    split; [apply quiet_refl | reflexivity].
  - intros H. apply random_run in H. destruct H as (-> & Hq & _).
    split; [exact Hq | apply random_choice_in].
Qed.

Lemma choices_run {A} (l : list A) ws w r w' :
  choices l ws w = (r, w') ->
  quiet w w' /\
  match r with
  | Ok a => In a l
  | Raise _ => l = []
  end.
Proof.
  unfold choices. destruct l as [ | x xs].
  - unfold raise. intros H. injection H as <- <-.
    split; [apply quiet_refl | reflexivity].
  - intros H. apply random_run in H. destruct H as (-> & Hq & _).
    split; [exact Hq | apply random_choices_in].
Qed.

Lemma randint_run (a b : Z) w r w' :
  random (random_randint a b) w = (r, w') ->
  a <= b ->
  exists z, r = Ok z /\ a <= z <= b /\ quiet w w'.
Proof.
  intros H Hab. apply random_run in H. destruct H as (-> & Hq & _).
  eexists. split; [reflexivity | ]. split; [ | exact Hq].
  apply random_randint_range. exact Hab.
Qed.

(** A loop whose turns keep an invariant of the state and the world. *)
Lemma for_range_invariant {St} (body : Z -> St -> M E St)
    (Inv : Z -> St -> World E -> Prop) :
  (forall i s w s' w',
     Inv i s w -> body i s w = (Ok s', w') -> Inv (i + 1) s' w') ->
  forall count i s w s' w',
    Inv i s w ->
    for_range count i body s w = (Ok s', w') ->
    Inv (i + Z.of_nat count) s' w'.
Proof.
  intros Hbody count. induction count as [ | count IH]; intros i s w s' w' Hi Hrun.
  - simpl in Hrun. apply ret_run in Hrun. destruct Hrun as [Hs ->].
    injection Hs as <-. rewrite Z.add_0_r. exact Hi.
  - simpl in Hrun. apply bind_ok in Hrun.
    destruct Hrun as (s1 & w1 & Hstep & Hrest).
    replace (i + Z.of_nat (S count)) with (i + 1 + Z.of_nat count) by lia.
    eapply IH; [ | exact Hrest]. eapply Hbody; eassumption.
Qed.

(** A loop whose turns cannot raise does not raise. *)
Lemma for_range_total {St} (body : Z -> St -> M E St)
    (Inv : World E -> Prop) :
  (forall i s w r w', Inv w -> body i s w = (r, w') ->
     Inv w' /\ exists s', r = Ok s') ->
  forall count i s w r w',
    Inv w ->
    for_range count i body s w = (r, w') ->
    Inv w' /\ exists s', r = Ok s'.
Proof.
  intros Hbody count. induction count as [ | count IH]; intros i s w r w' Hi Hrun.
  - simpl in Hrun. apply ret_run in Hrun. destruct Hrun as [-> ->].
    split; [exact Hi | eauto].
  - simpl in Hrun. unfold bind in Hrun.
    destruct (body i s w) as [r1 w1] eqn:Hstep.
    apply Hbody in Hstep; [ | exact Hi]. destruct Hstep as [Hi1 [s1 ->]].
    eapply IH; eassumption.
Qed.

End Steps.

(* ================================================================== *)
(** * Products *)
(* ================================================================== *)

Ltac bind_step H :=
  apply bind_ok in H;
  let a := fresh "a" in
  let w := fresh "w" in
  let Hs := fresh "Hstep" in
  destruct H as (a & w & Hs & H); cbv beta in H.

Tactic Notation "bind_in" hyp(H) "as" ident(a) ident(w) ident(Hs) :=
  apply bind_ok in H; destruct H as (a & w & Hs & H); cbv beta in H.

Section Products.

Context {E : Externals}.

Local Open Scope Z_scope.

(** What [generate_products] guarantees of a product: its category is one of
    the table, its price is a whole number [k] of hundredths within the
    category's range, and its cost is computed from the price and the
    category's margin. *)
Definition product_facts (p : Product) : Prop :=
  exists (c : Category) (k : int),
    In c categories /\
    category_id p = cat_id c /\ category_name p = cat_name c /\
    fst (cents_bounds (cat_name c)) <= to_Z k
      <= snd (cents_bounds (cat_name c)) /\
    price p = of_cents k /\
    cost p = round2 (price p * (1 - margin c))%float.

Lemma price_bounds_ordered (category_name : string) :
  (fst (price_bounds category_name) <=? snd (price_bounds category_name))%float
  = true.
Proof.
  unfold price_bounds.
  destruct (String.eqb category_name "Electronics");
    [ | destruct (String.eqb category_name "Books")]; vm_compute; reflexivity.
Qed.

Lemma product_record_spec (i : Z) w p w' :
  product_record i w = (Ok p, w') ->
  product_id p = i /\ product_facts p.
Proof.
  unfold product_record. intros H.
  bind_in H as c w1 Hc. apply choice_run in Hc. destruct Hc as [_ Hc].
  bind_in H as templates w2 Ht. clear Ht.
  bind_in H as base w3 Hb. clear Hb.
  bind_in H as price w4 Hprice.
  assert (Hk : exists k : int,
             fst (cents_bounds (cat_name c)) <= to_Z k
               <= snd (cents_bounds (cat_name c)) /\ price = of_cents k).
  { assert (Hu : exists u w5,
       random (random_uniform (fst (price_bounds (cat_name c)))
                              (snd (price_bounds (cat_name c)))) w3
         = (Ok u, w5) /\ price = round2 u).
    { unfold price_bounds.
      destruct (String.eqb (cat_name c) "Electronics");
        [ | destruct (String.eqb (cat_name c) "Books")];
        bind_in Hprice as u w5 Hu;
        apply ret_run in Hprice; destruct Hprice as [Hr _];
        injection Hr as ->; simpl fst; simpl snd; eauto. }
    destruct Hu as (u & w5 & Hu & ->).
    apply random_run in Hu. destruct Hu as (Hu & _). injection Hu as ->.
    pose proof (random_uniform_range (w_random w3)
                  (price_bounds_ordered (cat_name c))) as [Hlo Hhi].
    apply round2_price; assumption. }
  destruct Hk as (k & Hk & ->).
  cbv zeta in H.
  repeat (bind_step H; clear Hstep).
  apply ret_run in H. destruct H as [Hp _]. injection Hp as ->.
  split; [reflexivity | ].
  exists c, k. simpl. repeat split; auto; lia.
Qed.

Lemma generate_products_spec (n : Z) w df w' :
  generate_products n w = (Ok df, w') ->
  Forall product_facts (rows df).
Proof.
  unfold generate_products. intros H. bind_in H as a w1 Hloop.
  apply ret_run in H. destruct H as [Hdf _]. injection Hdf as ->.
  assert (Hrows : rows (pd_DataFrame a) = a) by (destruct a; reflexivity).
  rewrite Hrows.
  pose proof (for_range_invariant
    (fun i products =>
       bind (product_record i) (fun product => ret (products ++ [product])%list))
    (fun _ products _ => Forall product_facts products)) as Hinv.
  eapply (Hinv) with (i := 1) (s := []); [ | constructor | exact Hloop].
  intros i s w2 s' w3 Hs Hrun. bind_in Hrun as p w4 Hp.
  apply ret_run in Hrun. destruct Hrun as [Hr _]. injection Hr as ->.
  apply Forall_app. split; [exact Hs | ].
  constructor; [ | constructor].
  apply product_record_spec in Hp. tauto.
Qed.

End Products.

(* ================================================================== *)
(** * Rows taken by position *)
(* ================================================================== *)

Section Take.

Context {A : Type}.

Lemma take_in_range (l : list A) (idx : list nat) :
  Forall (fun i => (i < List.length l)%nat) idx ->
  forall d, take l idx = map (fun i => nth i l d) idx.
Proof.
  induction idx as [ | i idx IH]; intros Hall d; [reflexivity | ].
  inversion Hall as [ | ? ? Hi Hrest]; subst. simpl.
  destruct (nth_error l i) as [a | ] eqn:Hnth.
  - rewrite (IH Hrest d). f_equal. symmetry.
    apply nth_error_nth. exact Hnth.
  - apply nth_error_None in Hnth. lia.
Qed.

Lemma take_length (l : list A) (idx : list nat) :
  Forall (fun i => (i < List.length l)%nat) idx ->
  List.length (take l idx) = List.length idx.
Proof.
  intros Hall. destruct l as [ | d l'].
  - destruct idx as [ | i idx]; [reflexivity | ].
    inversion Hall; subst. simpl in *. lia.
  - rewrite (@take_in_range _ _ Hall d). apply length_map.
Qed.

Lemma take_incl (l : list A) (idx : list nat) (a : A) :
  In a (take l idx) -> In a l.
Proof.
  induction idx as [ | i idx IH]; simpl; [tauto | ].
  destruct (nth_error l i) as [b | ] eqn:Hnth; [ | exact IH].
  intros [<- | Hin]; [ | auto].
  eapply nth_error_In. exact Hnth.
Qed.

(** Distinct positions of a list without repeats give distinct rows. *)
Lemma take_NoDup {B} (f : A -> B) (l : list A) (idx : list nat) :
  NoDup (map f l) -> NoDup idx ->
  Forall (fun i => (i < List.length l)%nat) idx ->
  NoDup (map f (take l idx)).
Proof.
  intros Hl Hidx Hall.
  destruct l as [ | d l'].
  { destruct idx as [ | i idx]; [constructor | ].
    inversion Hall; subst. simpl in *. lia. }
  rewrite (@take_in_range _ _ Hall d), map_map.
  set (l := d :: l') in *.
  induction idx as [ | i idx IH]; [constructor | ].
  inversion Hidx as [ | ? ? Hni Hnd]; subst.
  inversion Hall as [ | ? ? Hi Hrest]; subst.
  simpl. constructor; [ | auto].
  intros Hin. apply in_map_iff in Hin. destruct Hin as (j & Hj & Hjin).
  apply Hni.
  assert (Hjl : (j < List.length l)%nat).
  { rewrite Forall_forall in Hrest. auto. }
  assert (Heq : j = i).
  { rewrite <- (length_map f) in Hi, Hjl.
    eapply (proj1 (NoDup_nth (map f l) (f d)) Hl); try assumption.
    rewrite !(map_nth f). exact Hj. }
  subst. exact Hjin.
Qed.

End Take.

(* ================================================================== *)
(** * Orders and their line items *)
(* ================================================================== *)

(** The line items of order [id] among [items]. *)
Definition items_of (id : Z) (items : list OrderItem) : list OrderItem :=
  filter (fun it => Z.eqb (item_order_id it) id) items.

(** [subtotal] as the loop leaves it: the line totals added one after the
    other, starting from [start]. *)
Definition running_sum (start : float) (items : list OrderItem) : float :=
  fold_left (fun s it => (s + line_total it)%float) items start.

(** What the loop body makes of [product] for order [id]. *)
Definition item_of (id : Z) (product : Product) (it : OrderItem) : Prop :=
  item_order_id it = id /\
  item_product_id it = product_id product /\
  unit_price it = price product /\
  (1 <= quantity it <= 3)%Z /\
  (discount it = 0%float \/
   exists r, In r [0.1; 0.15; 0.2]%float /\
             discount it = round2 (unit_price it * r)) /\
  line_total it =
    round2 ((unit_price it - discount it) * float_of_int (quantity it)).

Section Orders.

Context {E : Externals}.

Local Open Scope Z_scope.

Lemma items_of_app id l1 l2 :
  items_of id (l1 ++ l2) = (items_of id l1 ++ items_of id l2)%list.
Proof. apply filter_app. Qed.

Lemma items_of_other id (l : list OrderItem) :
  Forall (fun it => item_order_id it <> id) l -> items_of id l = [].
Proof.
  induction 1 as [ | it l Hit _ IH]; [reflexivity | ].
  unfold items_of in *. simpl.
  destruct (Z.eqb_spec (item_order_id it) id); [contradiction | exact IH].
Qed.

Lemma items_of_same id (l : list OrderItem) :
  Forall (fun it => item_order_id it = id) l -> items_of id l = l.
Proof.
  induction 1 as [ | it l Hit _ IH]; [reflexivity | ].
  unfold items_of in *. simpl.
  rewrite Hit, Z.eqb_refl. f_equal. exact IH.
Qed.

Lemma order_item_record_spec id product sub items next w st' w' :
  order_item_record id product (sub, items, next) w = (Ok st', w') ->
  exists it,
    st' = ((sub + line_total it)%float, (items ++ [it])%list, next + 1) /\
    item_of id product it /\ order_item_id it = next /\ quiet w w'.
Proof.
  unfold order_item_record. intros H.
  bind_in H as q w1 Hq.
  apply randint_run in Hq; [ | lia].
  destruct Hq as (q' & Hq' & Hrange & Q1). injection Hq' as ->.
  bind_in H as r w2 Hr. apply random_run in Hr. destruct Hr as (_ & Q2 & _).
  bind_in H as d w3 Hd.
  assert (Hdisc : (d = 0%float \/
                   exists rate, In rate [0.1; 0.15; 0.2]%float /\
                                d = round2 (price product * rate))
                  /\ quiet w2 w3).
  { destruct (r <? 0.2)%float.
    - bind_in Hd as rate w4 Hrate. apply choice_run in Hrate.
      destruct Hrate as [Q3 Hin].
      apply ret_run in Hd. destruct Hd as [Hd ->]. injection Hd as ->.
      split; [right; eauto | exact Q3].
    - apply ret_run in Hd. destruct Hd as [Hd ->]. injection Hd as ->.
      split; [left; reflexivity | apply quiet_refl]. }
  destruct Hdisc as [Hdisc Q3].
  cbv zeta in H. apply ret_run in H. destruct H as [Hst ->].
  injection Hst as ->.
  exists {| order_item_id := next;
            item_order_id := id;
            item_product_id := product_id product;
            quantity := q';
            unit_price := price product;
            discount := d;
            line_total :=
              round2 ((price product - d) * float_of_int q') |}.
  split; [reflexivity | ].
  split; [ | split; [reflexivity | ]].
  - unfold item_of. simpl. repeat split; auto; lia.
  - eapply quiet_trans; [exact Q1 | ]. eapply quiet_trans; eassumption.
Qed.

Lemma order_items_loop_spec id products :
  forall sub items next w st' w',
    order_items_loop id products (sub, items, next) w = (Ok st', w') ->
    exists new,
      st' = (running_sum sub new, (items ++ new)%list,
             next + Z.of_nat (List.length new)) /\
      Forall2 (item_of id) products new /\ quiet w w'.
Proof.
  induction products as [ | product rest IH]; intros sub items next w st' w' H.
  - simpl in H. apply ret_run in H. destruct H as [Hst ->].
    injection Hst as ->. exists []. simpl.
    rewrite app_nil_r, Z.add_0_r.
    split; [reflexivity | split; [constructor | apply quiet_refl]].
  - simpl in H. bind_in H as st1 w1 Hone.
    apply order_item_record_spec in Hone.
    destruct Hone as (it & -> & Hit & _ & Q1).
    apply IH in H. destruct H as (new & -> & Hnew & Q2).
    exists (it :: new). simpl.
    rewrite <- app_assoc. simpl.
    replace (next + 1 + Z.of_nat (List.length new))
      with (next + Z.pos (Pos.of_succ_nat (List.length new))) by lia.
    split; [reflexivity | split; [constructor; assumption | ]].
    eapply quiet_trans; eassumption.
Qed.

Lemma sample_customer_spec customers_df w c w' :
  sample_customer customers_df w = (Ok c, w') ->
  In c (rows customers_df) /\ quiet w w'.
Proof.
  unfold sample_customer. destruct customers_df as [ | records].
  - unfold raise. discriminate.
  - destruct (forallb _ _); [unfold raise; discriminate | ].
    intros H. bind_in H as i w1 Hi.
    apply numpy_run in Hi. destruct Hi as (_ & Q & _).
    destruct (nth_error records i) as [customer | ] eqn:Hnth;
      [ | unfold raise in H; discriminate].
    apply ret_run in H. destruct H as [Hc ->]. injection Hc as ->.
    split; [ | exact Q]. simpl. eapply nth_error_In. exact Hnth.
Qed.

Lemma sample_n_spec df n w l w' :
  sample_n df n w = (Ok l, w') ->
  exists idx,
    l = take (rows df) idx /\ NoDup idx /\
    List.length idx = Z.to_nat n /\ 0 <= n /\
    Forall (fun i => (i < len df)%nat) idx /\ quiet w w'.
Proof.
  unfold sample_n.
  destruct (Z.ltb_spec n 0) as [Hneg | Hnn]; [unfold raise; discriminate | ].
  destruct (Z.ltb_spec (Z.of_nat (len df)) n) as [Hbig | Hfit];
    [unfold raise; discriminate | ].
  intros Hrun. bind_in Hrun as idx w1 Hidx.
  apply numpy_run in Hidx. destruct Hidx as (Hidx & Q & _).
  injection Hidx as ->.
  apply ret_run in Hrun. destruct Hrun as [Hl ->]. injection Hl as ->.
  destruct (@np_choice_no_replace_spec _ (len df) (Z.to_nat n) (w_numpy w))
    as (Hnd & Hlen & Hlt); [lia | ].
  eexists. split; [reflexivity | ]. auto 10.
Qed.

End Orders.

Section OrderRecords.

Context {E : Externals}.

Local Open Scope Z_scope.

(** What one turn of the order loop, started in world [w], makes: the order
    [o] of number [id] and its line items [new]. *)
Definition order_of (customers_df : DataFrame Customer)
    (active_products : DataFrame Product) (id : Z) (w : World E)
    (o : Order) (new : list OrderItem) : Prop :=
  exists (customer : Customer) (now : datetime) (n_items : Z)
         (idx : list nat),
    In customer (rows customers_df) /\
    order_customer_id o = customer_id customer /\
    clock_floor (w_clock w) <= now /\
    (midnight (Z.max (registration_date customer) platform_epoch) <= now ->
     midnight (Z.max (registration_date customer) platform_epoch)
       <= order_date o <= now) /\
    (if String.eqb (segment customer) "premium"
     then 2 <= n_items <= 6 else 1 <= n_items <= 4) /\
    NoDup idx /\
    Z.of_nat (List.length idx)
      = Z.min n_items (Z.of_nat (len active_products)) /\
    Forall (fun i => (i < len active_products)%nat) idx /\
    Forall2 (item_of id) (take (rows active_products) idx) new /\
    order_id o = id /\
    subtotal o = round2 (running_sum 0 new) /\
    tax o = round2 (running_sum 0 new * 0.08) /\
    total o = round2 (running_sum 0 new + shipping o + tax o) /\
    (if (running_sum 0 new <? 50)%float
     then exists c, In c [0; 5.99; 9.99; 14.99]%float /\
                    shipping o = round2 c
     else shipping o = 0%float) /\
    In (status o) order_statuses /\
    order_created_at o = order_date o.

Lemma order_record_spec customers_df active_products id orders items next
    w st' w' :
  order_record customers_df active_products id (orders, items, next) w
    = (Ok st', w') ->
  exists o new next',
    st' = ((orders ++ [o])%list, (items ++ new)%list, next') /\
    order_of customers_df active_products id w o new /\
    quiet w w'.
Proof.
  unfold order_record. intros H.
  bind_in H as customer w1 Hcust.
  apply sample_customer_spec in Hcust. destruct Hcust as [Hcust Q1].
  cbv zeta in H.
  bind_in H as date w2 Hdate.
  bind_in Hdate as now w1' Hnow.
  apply datetime_now_run in Hnow. destruct Hnow as (t & Ht & Hfloor & Q2).
  injection Ht as ->.
  apply fake_run in Hdate. destruct Hdate as (Hdate & Q3 & _).
  injection Hdate as ->.
  bind_in H as st w3 Hst. apply choice_run in Hst. destruct Hst as [Q4 Hst].
  bind_in H as n_items w4 Hn.
  assert (Hrange : (if String.eqb (segment customer) "premium"
                    then 2 <= n_items <= 6 else 1 <= n_items <= 4)
                   /\ quiet w3 w4).
  { destruct (String.eqb (segment customer) "premium");
      apply randint_run in Hn; try lia;
      destruct Hn as (z & Hz & Hr & Q); injection Hz as ->; auto. }
  destruct Hrange as [Hrange Q5].
  bind_in H as order_products w5 Hsample.
  apply sample_n_spec in Hsample.
  destruct Hsample as (idx & -> & Hnd & Hlen & Hnn & Hlt & Q6).
  bind_in H as st1 w6 Hloop.
  apply order_items_loop_spec in Hloop.
  destruct Hloop as (new & -> & Hnew & Q7).
  bind_in H as ship w7 Hship.
  assert (Hfee : (if (running_sum 0 new <? 50)%float
                  then exists c, In c [0; 5.99; 9.99; 14.99]%float /\
                                 ship = round2 c
                  else ship = 0%float) /\ quiet w6 w7).
  { destruct (running_sum 0 new <? 50)%float.
    - bind_in Hship as c w8 Hc. apply choice_run in Hc.
      destruct Hc as [Q Hc].
      apply ret_run in Hship. destruct Hship as [Hs ->]. injection Hs as ->.
      split; [eauto | exact Q].
    - apply ret_run in Hship. destruct Hship as [Hs ->]. injection Hs as ->.
      split; [reflexivity | apply quiet_refl]. }
  destruct Hfee as [Hfee Q8].
  cbv zeta in H.
  bind_in H as pay w8 Hpay. apply choice_run in Hpay. destruct Hpay as [Q9 _].
  bind_in H as days w9 Hdays. apply random_run in Hdays.
  destruct Hdays as (_ & Q10 & _).
  apply ret_run in H. destruct H as [Hres ->]. injection Hres as ->.
  eexists. exists new. eexists.
  split; [reflexivity | ]. split.
  - exists customer, t, n_items, idx. simpl.
    split; [exact Hcust | ]. split; [reflexivity | ].
    split; [destruct Q1 as (_ & _ & Hc); lia | ].
    split; [intros Hle; apply faker_date_time_between_range; exact Hle | ].
    split; [exact Hrange | ]. split; [exact Hnd | ].
    split; [lia | ]. split; [exact Hlt | ]. split; [exact Hnew | ].
    split; [reflexivity | ]. split; [reflexivity | ].
    split; [reflexivity | ]. split; [reflexivity | ].
    split; [exact Hfee | ]. split; [exact Hst | reflexivity].
  - repeat (eapply quiet_trans; [eassumption | ]). apply quiet_refl.
Qed.

End OrderRecords.

Section OrderLoop.

Context {E : Externals}.

Local Open Scope Z_scope.

Lemma Forall2_item_order id products new :
  Forall2 (item_of id) products new ->
  Forall (fun it => item_order_id it = id) new.
Proof.
  induction 1 as [ | p it ps its Hit _ IH]; constructor; [ | exact IH].
  destruct Hit as (Hid & _). exact Hid.
Qed.

Lemma Forall2_item_product id products new :
  Forall2 (item_of id) products new ->
  Forall (fun it => exists p, In p products /\ item_of id p it) new.
Proof.
  induction 1 as [ | p it ps its Hit _ IH]; constructor.
  - exists p. split; [left; reflexivity | exact Hit].
  - eapply Forall_impl; [ | exact IH].
    intros it' (p' & Hin & Hof). exists p'. split; [right; exact Hin | exact Hof].
Qed.

Lemma rows_pd_DataFrame {A} (l : list A) : rows (pd_DataFrame l) = l.
Proof. destruct l; reflexivity. Qed.

(** The loop invariant of [generate_orders], before the turn of number [k]. *)
Definition orders_invariant (customers_df : DataFrame Customer)
    (active_products : DataFrame Product) (w : World E) (k : Z)
    (st : list Order * list OrderItem * Z) (w0 : World E) : Prop :=
  let '(orders, items, _) := st in
  quiet w w0 /\
  map order_id orders = map Z.of_nat (seq 1 (Z.to_nat (k - 1))) /\
  1 <= k /\
  Forall (fun o =>
            1 <= order_id o < k /\
            exists w1, quiet w w1 /\
              order_of customers_df active_products (order_id o) w1 o
                       (items_of (order_id o) items)) orders /\
  Forall (fun it =>
            1 <= item_order_id it < k /\
            exists p, In p (rows active_products) /\
                      item_of (item_order_id it) p it) items.

Lemma orders_invariant_step customers_df active_products w k st w0 st' w0' :
  orders_invariant customers_df active_products w k st w0 ->
  order_record customers_df active_products k st w0 = (Ok st', w0') ->
  orders_invariant customers_df active_products w (k + 1) st' w0'.
Proof.
  destruct st as [[orders items] next].
  intros (Q & Hids & Hk & Hord & Hitems) Hrun.
  apply order_record_spec in Hrun.
  destruct Hrun as (o & new & next' & -> & Hof & Q').
  assert (Hid : order_id o = k).
  { destruct Hof as (c & t & n & idx & Hof). tauto. }
  assert (Hnew_id : Forall (fun it => item_order_id it = k) new).
  { destruct Hof as (c & t & n & idx & Hof).
    eapply Forall2_item_order. apply Hof. }
  assert (Hnew_p : Forall (fun it => exists p, In p (rows active_products)
                                     /\ item_of k p it) new).
  { destruct Hof as (c & t & n & idx & Hof).
    destruct Hof as (_ & _ & _ & _ & _ & _ & _ & _ & H2 & _).
    apply Forall2_item_product in H2.
    eapply Forall_impl; [ | exact H2].
    intros it (p & Hin & Hit). exists p. split; [ | exact Hit].
    eapply take_incl. exact Hin. }
  unfold orders_invariant.
  split; [eapply quiet_trans; eassumption | ].
  split.
  { rewrite map_app, Hids. simpl. rewrite Hid.
    replace (Z.to_nat (k + 1 - 1)) with (S (Z.to_nat (k - 1))) by lia.
    rewrite seq_S, map_app. simpl. do 3 f_equal. lia. }
  split; [lia | ].
  split.
  - apply Forall_app. split.
    + eapply Forall_impl; [ | exact Hord].
      intros o' ([Hlo Hhi] & w1 & Q1 & Hof').
      split; [lia | ]. exists w1. split; [exact Q1 | ].
      rewrite items_of_app, (@items_of_other (order_id o') new), app_nil_r;
        [exact Hof' | ].
      eapply Forall_impl; [ | exact Hnew_id]. simpl. intros it Hit. lia.
    + constructor; [ | constructor]. split; [lia | ].
      exists w0. split; [exact Q | ].
      rewrite Hid, items_of_app, (@items_of_other k items),
        (@items_of_same k new); [exact Hof | exact Hnew_id | ].
      eapply Forall_impl; [ | exact Hitems]. simpl. intros it [Hit _]. lia.
  - apply Forall_app. split.
    + eapply Forall_impl; [ | exact Hitems].
      intros it ([Hlo Hhi] & Hp). split; [lia | exact Hp].
    + rewrite Forall_forall in Hnew_id, Hnew_p. apply Forall_forall.
      intros it Hin. rewrite (Hnew_id it Hin). split; [lia | auto].
Qed.

(** What [generate_orders] returns: every order is the one its turn made,
    with the line items that carry its number. *)
Lemma generate_orders_spec customers_df products_df n w orders_df items_df w' :
  generate_orders customers_df products_df n w
    = (Ok (orders_df, items_df), w') ->
  exists records,
    products_df = Frame records /\
    map order_id (rows orders_df) = map Z.of_nat (seq 1 (Z.to_nat n)) /\
    Forall (fun o =>
              exists w1, quiet w w1 /\
                order_of customers_df (Frame (filter is_active records))
                         (order_id o) w1 o
                         (items_of (order_id o) (rows items_df)))
           (rows orders_df) /\
    Forall (fun it =>
              exists p, In p (filter is_active records) /\
                        item_of (item_order_id it) p it)
           (rows items_df).
Proof.
  unfold generate_orders. intros H.
  bind_in H as active w1 Hact.
  destruct products_df as [ | records]; [unfold select_active, raise in Hact; discriminate | ].
  simpl in Hact. apply ret_run in Hact. destruct Hact as [Ha ->].
  injection Ha as ->.
  bind_in H as st w2 Hloop.
  destruct st as [[orders items] next].
  apply ret_run in H. destruct H as [Hres _]. injection Hres as -> ->.
  exists records. split; [reflexivity | ].
  rewrite !rows_pd_DataFrame.
  pose proof (for_range_invariant
                (order_record customers_df (Frame (filter is_active records)))
                (orders_invariant customers_df
                   (Frame (filter is_active records)) w)) as Hinv.
  specialize (Hinv (@orders_invariant_step customers_df
                      (Frame (filter is_active records)) w)).
  specialize (Hinv (turns n) 1 ([], [], 1) w (orders, items, next) w2).
  destruct Hinv as (_ & Hids & _ & Hord & Hitems).
  - unfold orders_invariant. simpl.
    split; [apply quiet_refl | ]. repeat split; try constructor; lia.
  - exact Hloop.
  - unfold turns in *.
    split.
    { rewrite Hids. do 2 f_equal. lia. }
    split.
    + eapply Forall_impl; [ | exact Hord]. intros o (_ & Ho). exact Ho.
    + eapply Forall_impl; [ | exact Hitems]. intros it (_ & Hp). exact Hp.
Qed.

End OrderLoop.

(* ================================================================== *)
(** * An implementation of the external calls, driven by tapes *)
(* ================================================================== *)

(** Each generator state is a tape of raw draws, read from the left (an
    exhausted tape gives zeros); the clock is a time and a tape of the steps
    between one reading and the next. *)
Module Tape.

Local Open Scope Z_scope.

Definition tape : Type := list N.

Definition draw (t : tape) : N * tape :=
  match t with
  | [] => (0%N, [])
  | x :: t' => (x, t')
  end.

(** [k / 2^53] for a [k] of 53 bits, as [random.random()] returns. *)
Definition random (t : tape) : float * tape :=
  let (x, t') := draw t in
  ((of_uint63 (of_Z (Z.of_N x mod 9007199254740992))
    / 9007199254740992)%float, t').

(** [a + (b - a) * random()]; the documentation promises [a <= N <= b]. *)
Definition uniform (a b : float) (t : tape) : float * tape :=
  let (r, t') := random t in
  let u := (a + (b - a) * r)%float in
  (if (a <=? u)%float && (u <=? b)%float then u else a, t').

Definition randint (a b : Z) (t : tape) : Z * tape :=
  let (x, t') := draw t in
  (if a <=? b then a + Z.of_N x mod (b - a + 1) else a, t').

Definition choice (A : Type) (x : A) (xs : list A) (t : tape) : A * tape :=
  let (n, t') := draw t in
  (nth (N.to_nat (n mod N.of_nat (List.length (x :: xs)))) (x :: xs) x, t').

Definition choices (A : Type) (x : A) (xs : list A) (ws : list float)
    (t : tape) : A * tape :=
  choice x xs t.

Definition text (provider : string) (nb_words : Z) (t : tape)
  : string * tape :=
  let (n, t') := draw t in
  (provider ++ "-" ++ NilZero.string_of_uint (N.to_uint n), t').

Definition date_between (s e : string) (now : datetime) (t : tape)
  : date * tape :=
  let (n, t') := draw t in
  (now / us_per_day - Z.of_N n, t').

Definition date_time_between_rel (s e : string) (now : datetime) (t : tape)
  : datetime * tape :=
  let (n, t') := draw t in
  (now - Z.of_N n, t').

Definition date_time_between (s e : datetime) (t : tape) : datetime * tape :=
  let (n, t') := draw t in
  (if s <=? e then s + Z.of_N n mod (e - s + 1) else e, t').

(** The positions of positive weight. *)
Fixpoint positive_positions (i : nat) (ws : list Z) : list nat :=
  match ws with
  | [] => []
  | w :: ws' =>
      if 0 <? w then i :: positive_positions (S i) ws'
      else positive_positions (S i) ws'
  end.

Definition choice_p (ws : list Z) (t : tape) : nat * tape :=
  let (n, t') := draw t in
  let candidates := positive_positions 0 ws in
  (nth (N.to_nat (n mod N.of_nat (List.length candidates))) candidates
       (List.length ws),
   t').

(** [k] positions drawn one after the other from those left in [pool]. *)
Fixpoint pick (k : nat) (pool : list nat) (t : tape) : list nat * tape :=
  match k with
  | O => ([], t)
  | S k' =>
      match pool with
      | [] => ([], t)
      | p0 :: _ =>
          let (n, t') := draw t in
          let v := nth (N.to_nat (n mod N.of_nat (List.length pool))) pool p0 in
          let (rest, t'') := pick k' (remove Nat.eq_dec v pool) t' in
          (v :: rest, t'')
      end
  end.

Definition choice_no_replace (n k : nat) (t : tape) : list nat * tape :=
  pick k (seq 0 n) t.

Record clock : Type := {
  time : datetime;
  steps : tape
}.

Definition now (c : clock) : datetime * clock :=
  let (n, t') := draw (steps c) in
  (time c + Z.of_N n, {| time := time c + Z.of_N n; steps := t' |}).

(** A file system, by the paths it refuses; the empty path is no
    directory. *)
Definition refusals : Type := list string.

Definition makedirs_error (refused : refusals) (path : string)
  : option string :=
  if String.eqb path "" then Some "No such file or directory"
  else if in_dec string_dec path refused then Some "Permission denied"
  else None.

Definition write_error (refused : refusals) (path : string)
  : option string :=
  if in_dec string_dec path refused then Some "Permission denied" else None.

End Tape.

Section TapeLaws.

Local Open Scope Z_scope.

Lemma tape_uniform_range (a b : float) (t : Tape.tape) :
  (a <=? b)%float = true ->
  (a <=? fst (Tape.uniform a b t))%float = true /\
  (fst (Tape.uniform a b t) <=? b)%float = true.
Proof.
  intros Hab. unfold Tape.uniform.
  destruct (Tape.random t) as [r t']. cbv zeta. cbn [fst].
  destruct ((a <=? a + (b - a) * r)%float) eqn:H1;
    destruct ((a + (b - a) * r <=? b)%float) eqn:H2; simpl;
    try (split; [eapply leb_refl_of_leb_l; exact Hab | exact Hab]).
  split; assumption.
Qed.

Lemma tape_randint_range (a b : Z) (t : Tape.tape) :
  a <= b -> a <= fst (Tape.randint a b t) <= b.
Proof.
  intros Hab. unfold Tape.randint. destruct (Tape.draw t) as [x t'].
  simpl. destruct (Z.leb_spec a b); [ | lia].
  pose proof (Z.mod_pos_bound (Z.of_N x) (b - a + 1)). lia.
Qed.

Lemma draw_index (n : N) (len : nat) :
  (0 < len)%nat -> (N.to_nat (n mod N.of_nat len) < len)%nat.
Proof.
  intros Hlen.
  assert (Hlt : (n mod N.of_nat len < N.of_nat len)%N).
  { apply N.mod_lt. lia. }
  lia.
Qed.

Lemma tape_choice_in (A : Type) (x : A) (xs : list A) (t : Tape.tape) :
  In (fst (Tape.choice x xs t)) (x :: xs).
Proof.
  unfold Tape.choice. destruct (Tape.draw t) as [n t']. cbn [fst].
  apply nth_In. apply draw_index. simpl. lia.
Qed.

Lemma tape_date_time_between_range (s e : datetime) (t : Tape.tape) :
  s <= e -> s <= fst (Tape.date_time_between s e t) <= e.
Proof.
  intros Hse. unfold Tape.date_time_between.
  destruct (Tape.draw t) as [n t']. simpl.
  destruct (Z.leb_spec s e); [ | lia].
  pose proof (Z.mod_pos_bound (Z.of_N n) (e - s + 1)). lia.
Qed.

Lemma positive_positions_spec (ws : list Z) :
  forall i j, In j (Tape.positive_positions i ws) ->
              (i <= j)%nat /\ 0 < nth (j - i) ws 0.
Proof.
  induction ws as [ | w ws IH]; intros i j Hin; [contradiction | ].
  simpl in Hin.
  assert (Hrest : In j (Tape.positive_positions (S i) ws) ->
                  (i <= j)%nat /\ 0 < nth (j - i) (w :: ws) 0).
  { intros Hj. apply IH in Hj. destruct Hj as [Hle Hpos]. split; [lia | ].
    replace (j - i)%nat with (S (j - S i)) by lia. exact Hpos. }
  destruct (Z.ltb_spec 0 w) as [Hw | Hw]; [ | auto].
  destruct Hin as [<- | Hin]; [ | auto].
  rewrite Nat.sub_diag. simpl. split; [lia | exact Hw].
Qed.

Lemma positive_positions_nonempty (ws : list Z) :
  Exists (fun w => 0 < w) ws ->
  forall i, Tape.positive_positions i ws <> [].
Proof.
  induction 1 as [w ws Hw | w ws _ IH]; intros i; simpl.
  - destruct (Z.ltb_spec 0 w); [discriminate | lia].
  - destruct (0 <? w); [discriminate | apply IH].
Qed.

Lemma tape_choice_p_positive (ws : list Z) (t : Tape.tape) :
  Exists (fun w => 0 < w) ws ->
  0 < nth (fst (Tape.choice_p ws t)) ws 0.
Proof.
  intros Hex. unfold Tape.choice_p. destruct (Tape.draw t) as [n t'].
  cbn [fst].
  pose proof (@positive_positions_nonempty ws Hex 0%nat) as Hne.
  set (cs := Tape.positive_positions 0 ws) in *.
  assert (Hin : In (nth (N.to_nat (n mod N.of_nat (List.length cs))) cs
                        (List.length ws)) cs).
  { apply nth_In. apply draw_index.
    destruct cs; [congruence | simpl; lia]. }
  apply positive_positions_spec in Hin. destruct Hin as [_ Hpos].
  rewrite Nat.sub_0_r in Hpos. exact Hpos.
Qed.

Lemma remove_NoDup (v : nat) (l : list nat) :
  NoDup l -> NoDup (remove Nat.eq_dec v l).
Proof.
  induction 1 as [ | x l Hx _ IH]; simpl; [constructor | ].
  destruct (Nat.eq_dec v x); [exact IH | ].
  constructor; [ | exact IH].
  intros Hin. apply in_remove in Hin. tauto.
Qed.

Lemma remove_length (v : nat) (l : list nat) :
  NoDup l -> In v l ->
  S (List.length (remove Nat.eq_dec v l)) = List.length l.
Proof.
  induction 1 as [ | x l Hx Hnd IH]; intros Hin; [contradiction | ].
  simpl. destruct (Nat.eq_dec v x) as [-> | Hne].
  - rewrite notin_remove; [reflexivity | exact Hx].
  - simpl. f_equal. apply IH. destruct Hin; [congruence | assumption].
Qed.

Lemma pick_spec (k : nat) :
  forall pool t,
    NoDup pool -> (k <= List.length pool)%nat ->
    NoDup (fst (Tape.pick k pool t)) /\
    List.length (fst (Tape.pick k pool t)) = k /\
    incl (fst (Tape.pick k pool t)) pool.
Proof.
  induction k as [ | k IH]; intros pool t Hnd Hk.
  - simpl. repeat split; [constructor | intros x []].
  - destruct pool as [ | p0 pool']; [simpl in Hk; lia | ].
    set (pool := p0 :: pool') in *.
    change (Tape.pick (S k) pool t) with
      (let (n, t') := Tape.draw t in
       let v := nth (N.to_nat (n mod N.of_nat (List.length pool))) pool p0 in
       let (rest, t'') := Tape.pick k (remove Nat.eq_dec v pool) t' in
       (v :: rest, t'')).
    destruct (Tape.draw t) as [n t']. cbv zeta.
    set (v := nth (N.to_nat (n mod N.of_nat (List.length pool))) pool p0).
    assert (Hv : In v pool).
    { apply nth_In. apply draw_index. unfold pool. simpl. lia. }
    pose proof (@remove_length v pool Hnd Hv) as Hlen.
    specialize (IH (remove Nat.eq_dec v pool) t' (@remove_NoDup v pool Hnd)
                   ltac:(lia)).
    destruct (Tape.pick k (remove Nat.eq_dec v pool) t') as [rest t''].
    cbn [fst] in *. destruct IH as (Hnd' & Hlen' & Hincl).
    split; [ | split].
    + constructor; [ | exact Hnd'].
      intros Hin. apply Hincl in Hin. apply in_remove in Hin. tauto.
    + simpl. lia.
    + intros x [<- | Hx]; [exact Hv | ].
      apply Hincl in Hx. apply in_remove in Hx. tauto.
Qed.

Lemma tape_choice_no_replace_spec (n k : nat) (t : Tape.tape) :
  (k <= n)%nat ->
  NoDup (fst (Tape.choice_no_replace n k t)) /\
  List.length (fst (Tape.choice_no_replace n k t)) = k /\
  Forall (fun i => (i < n)%nat) (fst (Tape.choice_no_replace n k t)).
Proof.
  intros Hk. unfold Tape.choice_no_replace.
  destruct (@pick_spec k (seq 0 n) t (seq_NoDup n 0)) as (Hnd & Hlen & Hincl).
  { rewrite length_seq. exact Hk. }
  repeat split; try assumption.
  apply Forall_forall. intros i Hi. apply Hincl in Hi.
  apply in_seq in Hi. lia.
Qed.

Lemma tape_now_floor (c : Tape.clock) : Tape.time c <= fst (Tape.now c).
Proof.
  unfold Tape.now. destruct (Tape.draw (Tape.steps c)) as [n t'].
  simpl. lia.
Qed.

Lemma tape_floor_mono (c : Tape.clock) :
  Tape.time c <= Tape.time (snd (Tape.now c)).
Proof.
  unfold Tape.now. destruct (Tape.draw (Tape.steps c)) as [n t'].
  simpl. lia.
Qed.

Lemma tape_makedirs_empty (refused : Tape.refusals) :
  Tape.makedirs_error refused "" <> None.
Proof. unfold Tape.makedirs_error. simpl. discriminate. Qed.

End TapeLaws.

#[export] Instance TapeExternals : Externals := {|
  rng := Tape.tape;
  nprng := Tape.tape;
  clock := Tape.clock;
  random_random := Tape.random;
  random_uniform := Tape.uniform;
  random_randint := Tape.randint;
  random_choice := Tape.choice;
  random_choices := Tape.choices;
  faker_text := Tape.text;
  faker_date_between := Tape.date_between;
  faker_date_time_between_rel := Tape.date_time_between_rel;
  faker_date_time_between := Tape.date_time_between;
  np_choice_p := Tape.choice_p;
  np_choice_no_replace := Tape.choice_no_replace;
  clock_now := Tape.now;
  clock_floor := Tape.time;
  fs := Tape.refusals;
  makedirs_error := Tape.makedirs_error;
  write_error := Tape.write_error;
  random_uniform_range := tape_uniform_range;
  random_randint_range := tape_randint_range;
  random_choice_in := tape_choice_in;
  random_choices_in := fun A x xs ws t => tape_choice_in x xs t;
  faker_date_time_between_range := tape_date_time_between_range;
  np_choice_p_positive := tape_choice_p_positive;
  np_choice_no_replace_spec := tape_choice_no_replace_spec;
  clock_now_floor := tape_now_floor;
  clock_floor_mono := tape_floor_mono;
  makedirs_empty := tape_makedirs_empty
|}.

(* ================================================================== *)
(** * Customers and products are always generated *)
(* ================================================================== *)

Ltac raise_step H :=
  apply bind_raise in H;
  let a := fresh "a" in
  let w := fresh "w" in
  let Hs := fresh "Hs" in
  destruct H as [H | (a & w & Hs & H)]; [ | clear Hs; cbv beta in H].

(** Closes a goal whose hypothesis [H] says that a step which cannot raise
    did. *)
Ltac no_raise H :=
  solve
    [ apply random_run in H; destruct H as [H _]; discriminate
    | apply fake_run in H; destruct H as [H _]; discriminate
    | apply numpy_run in H; destruct H as [H _]; discriminate
    | apply datetime_now_run in H; destruct H as (? & H & _); discriminate
    | apply choice_run in H; destruct H as [_ H]; discriminate
    | apply choices_run in H; destruct H as [_ H]; discriminate
    | apply ret_run in H; destruct H as [H _]; discriminate ].

Section Totality.

Context {E : Externals}.

Local Open Scope Z_scope.

Lemma fake_date_between_total (s e : string) w r w' :
  fake_date_between s e w = (r, w') -> exists d, r = Ok d.
Proof.
  unfold fake_date_between. intros H. destruct r as [d | err]; [eauto | ].
  raise_step H; [no_raise H | no_raise H].
Qed.

Lemma customer_record_total (i : Z) w r w' :
  customer_record i w = (r, w') -> exists c, r = Ok c.
Proof.
  unfold customer_record. intros H. destruct r as [c | err]; [eauto | ].
  exfalso.
  raise_step H; [no_raise H | ].
  raise_step H.
  { destruct (String.eqb a "new"); [ | destruct (String.eqb a "premium")];
      apply fake_date_between_total in H; destruct H; discriminate. }
  repeat (raise_step H; [no_raise H | ]).
  no_raise H.
Qed.

Lemma dict_get_templates (c : Category) :
  In c categories ->
  exists t ts, dict_get product_templates (cat_name c) = ret (t :: ts).
Proof.
  simpl. intros Hc.
  repeat (destruct Hc as [Hc | Hc]; [subst c; simpl; eauto | ]).
  contradiction.
Qed.

Lemma product_record_total (i : Z) w r w' :
  product_record i w = (r, w') -> exists p, r = Ok p.
Proof.
  unfold product_record. intros H. destruct r as [p | err]; [eauto | ].
  exfalso.
  apply bind_raise in H. destruct H as [H | (c & w1 & Hc & H)];
    [no_raise H | ].
  apply choice_run in Hc. destruct Hc as [_ Hc]. cbv beta zeta in H.
  destruct (dict_get_templates Hc) as (t & ts & Ht).
  rewrite Ht in H. unfold bind at 1, ret at 1 in H.
  raise_step H; [no_raise H | ].
  raise_step H.
  { destruct (String.eqb (cat_name c) "Electronics");
      [ | destruct (String.eqb (cat_name c) "Books")];
      (raise_step H; [no_raise H | no_raise H]). }
  repeat (raise_step H; [no_raise H | ]).
  raise_step H; [raise_step H; [no_raise H | no_raise H] | ].
  raise_step H; [no_raise H | ].
  no_raise H.
Qed.

(** ** Steps that leave the files alone *)

Definition Quiet {A} (m : M E A) : Prop :=
  forall w r w', m w = (r, w') -> quiet w w'.

Lemma Quiet_ret {A} (a : A) : Quiet (ret a).
Proof. intros w r w' H. apply ret_run in H. destruct H as [_ ->]. apply quiet_refl. Qed.

Lemma Quiet_raise {A} (e : exn) : Quiet (@raise E A e).
Proof. intros w r w' H. injection H as <- <-. apply quiet_refl. Qed.

Lemma Quiet_bind {A B} (m : M E A) (k : A -> M E B) :
  Quiet m -> (forall a, Quiet (k a)) -> Quiet (bind m k).
Proof.
  intros Hm Hk w r w' H. unfold bind in H.
  destruct (m w) as [[a | e] w1] eqn:Hrun.
  - eapply quiet_trans; [eapply Hm; exact Hrun | eapply Hk; exact H].
  - injection H as <- <-. eapply Hm. exact Hrun.
Qed.

Lemma Quiet_random {A} (f : rng -> A * rng) : Quiet (random f).
Proof. intros w r w' H. apply random_run in H. tauto. Qed.

Lemma Quiet_fake {A} (f : rng -> A * rng) : Quiet (fake f).
Proof. intros w r w' H. apply fake_run in H. tauto. Qed.

Lemma Quiet_numpy {A} (f : nprng -> A * nprng) : Quiet (numpy f).
Proof. intros w r w' H. apply numpy_run in H. tauto. Qed.

Lemma Quiet_now : Quiet datetime_now.
Proof.
  intros w r w' H. apply datetime_now_run in H.
  destruct H as (t & _ & _ & Q). exact Q.
Qed.

Lemma Quiet_choice {A} (l : list A) : Quiet (choice l).
Proof. intros w r w' H. apply choice_run in H. tauto. Qed.

Lemma Quiet_choices {A} (l : list A) ws : Quiet (choices l ws).
Proof. intros w r w' H. apply choices_run in H. tauto. Qed.

Lemma Quiet_dict_get {V} (d : list (string * V)) key : Quiet (dict_get d key).
Proof.
  induction d as [ | [k v] d IH]; simpl.
  - apply Quiet_raise.
  - destruct (String.eqb k key); [apply Quiet_ret | exact IH].
Qed.

Lemma Quiet_for_range {St} (body : Z -> St -> M E St) :
  (forall i s, Quiet (body i s)) ->
  forall count i s, Quiet (for_range count i body s).
Proof.
  intros Hbody count. induction count as [ | count IH]; intros i s; simpl.
  - apply Quiet_ret.
  - apply Quiet_bind; [apply Hbody | intros s'; apply IH].
Qed.

End Totality.

Ltac quiet_steps :=
  repeat first
    [ apply Quiet_ret | apply Quiet_raise | apply Quiet_random
    | apply Quiet_fake | apply Quiet_numpy | apply Quiet_now
    | apply Quiet_choice | apply Quiet_choices | apply Quiet_dict_get
    | apply Quiet_bind; [ | intros ? ]
    | match goal with
      | |- Quiet (if ?b then _ else _) => destruct b
      end ].

Section Generated.

Context {E : Externals}.

Local Open Scope Z_scope.

Lemma Quiet_customer_record (i : Z) : Quiet (customer_record i).
Proof. unfold customer_record, fake_date_between. quiet_steps. Qed.

Lemma Quiet_product_record (i : Z) : Quiet (product_record i).
Proof. unfold product_record. cbv zeta. quiet_steps. Qed.

(** A loop that appends one record a turn, none of which can raise, returns
    as many records as it has turns. *)
Lemma append_loop_run {A} (record : Z -> M E A) (n : Z) w :
  (forall i w0 r w1, record i w0 = (r, w1) -> exists a, r = Ok a) ->
  (forall i, Quiet (record i)) ->
  exists records w',
    for_range (turns n) 1
      (fun i l => bind (record i) (fun a => ret (l ++ [a])%list)) [] w
      = (Ok records, w') /\
    List.length records = Z.to_nat n /\ quiet w w'.
Proof.
  intros Htotal Hquiet.
  destruct (for_range (turns n) 1
              (fun i l => bind (record i) (fun a => ret (l ++ [a])%list))
              [] w) as [r w1] eqn:Hloop.
  pose proof Hloop as Hok.
  apply (for_range_total _ (fun _ => True)) in Hok; [ | | exact I].
  - destruct Hok as [_ [records ->]].
    exists records, w1. split; [reflexivity | ].
    split.
    + apply (for_range_invariant _
               (fun i (l : list A) (_ : World E) =>
                  Z.of_nat (List.length l) = i - 1)) in Hloop.
      * unfold turns in Hloop. lia.
      * intros i s w2 s' w3 Hlen Hrun.
        bind_in Hrun as c w4 Hc.
        apply ret_run in Hrun. destruct Hrun as [Hs _]. injection Hs as ->.
        rewrite length_app. simpl. lia.
      * reflexivity.
    + eapply Quiet_for_range; [ | exact Hloop].
      intros i s. apply Quiet_bind; [apply Hquiet | intros a; apply Quiet_ret].
  - intros i s w2 r0 w3 _ Hrun. split; [exact I | ].
    unfold bind in Hrun.
    destruct (record i w2) as [r1 w4] eqn:Hc.
    apply Htotal in Hc. destruct Hc as [a ->].
    apply ret_run in Hrun. destruct Hrun as [-> _]. eauto.
Qed.

Lemma generate_customers_run (n : Z) w :
  exists records w',
    generate_customers n w = (Ok (pd_DataFrame records), w') /\
    List.length records = Z.to_nat n /\ quiet w w'.
Proof.
  destruct (@append_loop_run _ customer_record n w
              customer_record_total Quiet_customer_record)
    as (records & w' & Hloop & Hlen & Q).
  exists records, w'. split; [ | auto].
  unfold generate_customers. rewrite (@bind_run _ _ _ _ _ _ _ _ Hloop). reflexivity.
Qed.

Lemma generate_products_run (n : Z) w :
  exists records w',
    generate_products n w = (Ok (pd_DataFrame records), w') /\
    List.length records = Z.to_nat n /\ quiet w w'.
Proof.
  destruct (@append_loop_run _ product_record n w
              product_record_total Quiet_product_record)
    as (records & w' & Hloop & Hlen & Q).
  exists records, w'. split; [ | auto].
  unfold generate_products. rewrite (@bind_run _ _ _ _ _ _ _ _ Hloop). reflexivity.
Qed.

End Generated.

(* ================================================================== *)
(** * Product pricing *)
(* ================================================================== *)

Section ProductPricing.

Context {E : Externals}.

Local Open Scope Z_scope.

Lemma cents_bounds_fit (category_name : string) :
  0 <= fst (cents_bounds category_name) /\
  1000 <= fst (cents_bounds category_name) /\
  snd (cents_bounds category_name) <= 150000 /\
  snd (cents_bounds category_name) < 2 ^ 53.
Proof.
  unfold cents_bounds.
  destruct (String.eqb category_name "Electronics");
    [ | destruct (String.eqb category_name "Books")]; simpl; lia.
Qed.

Lemma product_facts_checked (p : Product) :
  product_facts p ->
  exists c,
    In c categories /\
    category_id p = cat_id c /\ category_name p = cat_name c /\
    cost p = round2 (price p * (1 - margin c))%float /\
    (cost p <? price p)%float = true /\
    (fst (price_bounds (cat_name c)) <=? price p)%float = true /\
    (price p <=? snd (price_bounds (cat_name c)))%float = true /\
    (0 <? margin c)%float = true /\ (margin c <? 1)%float = true.
Proof.
  intros (c & k & Hc & Hid & Hname & Hk & Hprice & Hcost).
  exists c. split; [exact Hc | ]. split; [exact Hid | ].
  split; [exact Hname | ]. split; [exact Hcost | ].
  pose proof cost_below_price_all as Hall.
  rewrite forallb_forall in Hall. specialize (Hall c Hc).
  destruct (cents_bounds_fit (cat_name c)) as (H0 & _ & _ & H53).
  pose proof (all_cents_spec _ H0 H53 Hall k Hk) as Hchk.
  unfold cost_below_price in Hchk. cbv zeta in Hchk.
  apply andb_prop in Hchk. destruct Hchk as [Hchk Hhi].
  apply andb_prop in Hchk. destruct Hchk as [Hlt Hlo].
  rewrite Hcost, Hprice.
  split; [exact Hlt | ]. split; [exact Hlo | ]. split; [exact Hhi | ].
  pose proof margins_proper as Hm.
  rewrite forallb_forall in Hm. specialize (Hm c Hc).
  apply andb_prop in Hm. exact Hm.
Qed.

End ProductPricing.

(** C3. [generate_products] returns for every count, and every product it
    returns has: a category [c] of the table; [cost] equal to
    [round(price * (1 - c.margin), 2)]; [cost < price]; a price within the
    range drawn for the category (Electronics 50 to 1500, Books 10 to 50,
    every other category 15 to 200); and [0 < c.margin < 1]. *)
Theorem generate_products_cost_below_price
    {E : Externals} (n : Z) (w : World E) :
  exists df w',
    generate_products n w = (Ok df, w') /\
    List.length (rows df) = turns n /\
    Forall (fun p =>
              exists c,
                In c categories /\
                category_id p = cat_id c /\ category_name p = cat_name c /\
                cost p = round2 (price p * (1 - margin c))%float /\
                (cost p <? price p)%float = true /\
                (fst (price_bounds (cat_name c)) <=? price p)%float = true /\
                (price p <=? snd (price_bounds (cat_name c)))%float = true /\
                (0 <? margin c)%float = true /\
                (margin c <? 1)%float = true)
           (rows df).
Proof.
  destruct (generate_products_run n w) as (records & w' & Hrun & Hlen & _).
  exists (pd_DataFrame records), w'.
  split; [exact Hrun | ].
  split; [rewrite rows_pd_DataFrame; exact Hlen | ].
  apply generate_products_spec in Hrun.
  eapply Forall_impl; [ | exact Hrun].
  intros p Hp. apply product_facts_checked. exact Hp.
Qed.

(* ================================================================== *)
(** * Discounts and line totals *)
(* ================================================================== *)

(** For a unit price of [k] hundredths: each discount the loop can compute
    is at least 0 and below the price, and each line total it can compute
    from such a discount and a quantity of 1, 2 or 3 is above 0. *)
Definition line_items_positive (k : int) : bool :=
  let unit_price := of_cents k in
  forallb
    (fun discount =>
       (0 <=? discount)%float && (discount <? unit_price)%float
       && forallb
            (fun quantity =>
               (0 <? round2 ((unit_price - discount) * quantity))%float)
            [1; 2; 3]%float)
    [0; round2 (unit_price * 0.1); round2 (unit_price * 0.15);
     round2 (unit_price * 0.2)]%float.

Lemma line_items_positive_all :
  all_cents 1000 150000 line_items_positive = true.
Proof. vm_compute. reflexivity. Qed.

Section LineItems.

Local Open Scope Z_scope.

Lemma float_of_quantity (q : Z) :
  1 <= q <= 3 -> In (float_of_int q) [1; 2; 3]%float.
Proof.
  intros Hq.
  assert (Hcases : q = 1 \/ q = 2 \/ q = 3) by lia.
  destruct Hcases as [-> | [-> | ->]]; vm_compute; tauto.
Qed.

(** What the loop body makes of a product priced by [generate_products]. *)
Lemma item_of_priced (id : Z) (p : Product) (it : OrderItem) :
  product_facts p -> item_of id p it ->
  (0 <=? discount it)%float = true /\
  (discount it <? unit_price it)%float = true /\
  (0 <? line_total it)%float = true.
Proof.
  intros (c & k & Hc & _ & _ & Hk & Hprice & _)
         (_ & _ & Hunit & Hq & Hdisc & Hline).
  destruct (cents_bounds_fit (cat_name c)) as (_ & Hlo & Hhi & _).
  assert (Hk' : 1000 <= to_Z k <= 150000) by lia.
  pose proof (@all_cents_spec 1000 150000 line_items_positive
                ltac:(lia) ltac:(reflexivity)
                line_items_positive_all k Hk') as Hchk.
  unfold line_items_positive in Hchk. cbv zeta in Hchk.
  rewrite forallb_forall in Hchk.
  assert (Hin : In (discount it)
                   [0; round2 (of_cents k * 0.1); round2 (of_cents k * 0.15);
                    round2 (of_cents k * 0.2)]%float).
  { rewrite Hunit, Hprice in Hdisc.
    destruct Hdisc as [-> | (r & Hr & ->)]; [left; reflexivity | ].
    simpl in Hr. simpl.
    destruct Hr as [<- | [<- | [<- | []]]]; tauto. }
  specialize (Hchk _ Hin).
  apply andb_prop in Hchk. destruct Hchk as [Hchk Hpos].
  apply andb_prop in Hchk. destruct Hchk as [H0 Hlt].
  rewrite forallb_forall in Hpos.
  specialize (Hpos _ (float_of_quantity Hq)).
  rewrite Hline, Hunit, Hprice.
  auto.
Qed.

End LineItems.

(** C10. When the products were priced by [generate_products], every line
    item of [generate_orders] has a discount that is 0 or
    [round(unit_price * r, 2)] for an [r] among 0.1, 0.15 and 0.2, with
    [0 <= discount < unit_price]; its line total is
    [round((unit_price - discount) * quantity, 2)] and is above 0. *)
Theorem order_items_discount_and_line_total
    {E : Externals} (n_products n_orders : Z) (w0 w1 w w' : World E)
    (customers_df : DataFrame Customer) (products_df : DataFrame Product)
    (orders_df : DataFrame Order) (items_df : DataFrame OrderItem) :
  generate_products n_products w0 = (Ok products_df, w1) ->
  generate_orders customers_df products_df n_orders w
    = (Ok (orders_df, items_df), w') ->
  Forall (fun it =>
            (discount it = 0%float \/
             exists r, In r [0.1; 0.15; 0.2]%float /\
                       discount it = round2 (unit_price it * r)) /\
            (0 <=? discount it)%float = true /\
            (discount it <? unit_price it)%float = true /\
            line_total it =
              round2 ((unit_price it - discount it)
                      * float_of_int (quantity it)) /\
            (0 <? line_total it)%float = true)
         (rows items_df).
Proof.
  intros Hproducts Horders.
  apply generate_products_spec in Hproducts.
  apply generate_orders_spec in Horders.
  destruct Horders as (records & -> & _ & _ & Hitems).
  simpl in Hproducts.
  eapply Forall_impl; [ | exact Hitems].
  intros it (p & Hp & Hit).
  apply filter_In in Hp. destruct Hp as [Hp _].
  rewrite Forall_forall in Hproducts.
  destruct (item_of_priced (Hproducts p Hp) Hit) as (H0 & Hlt & Hpos).
  destruct Hit as (_ & _ & _ & _ & Hdisc & Hline).
  auto.
Qed.

(* ================================================================== *)
(** * Order totals, line items and dates *)
(* ================================================================== *)

Section OrderFacts.

Local Open Scope Z_scope.

Lemma running_sum_fold (start : float) (items : list OrderItem) :
  running_sum start items
  = fold_left PrimFloat.add (map line_total items) start.
Proof.
  revert start. induction items as [ | it items IH]; intros start;
    [reflexivity | ].
  simpl. apply IH.
Qed.

Lemma Forall2_item_products id products new :
  Forall2 (item_of id) products new ->
  map item_product_id new = map product_id products.
Proof.
  induction 1 as [ | p it ps its Hit _ IH]; [reflexivity | ].
  simpl. rewrite IH. destruct Hit as (_ & -> & _). reflexivity.
Qed.

Lemma NoDup_map_filter {A B} (f : A -> B) (keep : A -> bool) (l : list A) :
  NoDup (map f l) -> NoDup (map f (filter keep l)).
Proof.
  induction l as [ | a l IH]; simpl; intros Hnd; [constructor | ].
  inversion Hnd as [ | ? ? Hni Hnd']; subst.
  destruct (keep a); [ | auto].
  simpl. constructor; [ | auto].
  intros Hin. apply Hni. apply in_map_iff in Hin.
  destruct Hin as (b & Hb & Hin). apply filter_In in Hin.
  apply in_map_iff. exists b. tauto.
Qed.

Lemma NoDup_map_inj {A B} (f : A -> B) (l : list A) (a b : A) :
  NoDup (map f l) -> In a l -> In b l -> f a = f b -> a = b.
Proof.
  induction l as [ | x l IH]; simpl; intros Hnd Ha Hb Hf; [contradiction | ].
  inversion Hnd as [ | ? ? Hni Hnd']; subst.
  destruct Ha as [-> | Ha], Hb as [-> | Hb]; auto.
  - exfalso. apply Hni. rewrite Hf. apply in_map. exact Hb.
  - exfalso. apply Hni. rewrite <- Hf. apply in_map. exact Ha.
Qed.

Lemma midnight_le (d1 d2 : date) : d1 <= d2 -> midnight d1 <= midnight d2.
Proof. unfold midnight, us_per_day. lia. Qed.

End OrderFacts.

(** C1. For every order of [generate_orders], with [running] the line totals
    of the order added one after the other (none of the partial sums is
    rounded): the stored subtotal is [round(running, 2)], the stored tax is
    [round(running * 0.08, 2)], and the stored total is
    [round(running + shipping + tax, 2)]. *)
Theorem order_totals_from_line_totals
    {E : Externals} (n_orders : Z) (w w' : World E)
    (customers_df : DataFrame Customer) (products_df : DataFrame Product)
    (orders_df : DataFrame Order) (items_df : DataFrame OrderItem) :
  generate_orders customers_df products_df n_orders w
    = (Ok (orders_df, items_df), w') ->
  Forall (fun o =>
            let line_totals :=
              map line_total (items_of (order_id o) (rows items_df)) in
            let running := fold_left PrimFloat.add line_totals 0%float in
            subtotal o = round2 running /\
            tax o = round2 (running * 0.08) /\
            total o = round2 (running + shipping o + tax o))
         (rows orders_df).
Proof.
  intros Hrun. apply generate_orders_spec in Hrun.
  destruct Hrun as (records & _ & _ & Horders & _).
  eapply Forall_impl; [ | exact Horders].
  intros o (w1 & _ & c & t & n & idx & Hof). cbv zeta.
  rewrite <- running_sum_fold.
  destruct Hof as (_ & _ & _ & _ & _ & _ & _ & _ & _ & _ & Hs & Ht & Htot & _).
  auto.
Qed.

(** C2. When the products handed to [generate_orders] have distinct
    [product_id]s: every line item of every order carries the [product_id] of
    a product with [is_active = true]; no two line items of an order carry
    the same [product_id]; and the order has [min(n_items, a)] line items,
    with [n_items] the item count drawn for it (2 to 6 for a premium
    customer, 1 to 4 otherwise) and [a] the number of active products. *)
Theorem order_items_distinct_active_products
    {E : Externals} (n_orders : Z) (w w' : World E)
    (customers_df : DataFrame Customer) (products_df : DataFrame Product)
    (orders_df : DataFrame Order) (items_df : DataFrame OrderItem) :
  NoDup (map product_id (rows products_df)) ->
  generate_orders customers_df products_df n_orders w
    = (Ok (orders_df, items_df), w') ->
  Forall (fun o =>
            let line_items := items_of (order_id o) (rows items_df) in
            Forall (fun it =>
                      exists p, In p (rows products_df) /\
                                is_active p = true /\
                                item_product_id it = product_id p)
                   line_items /\
            NoDup (map item_product_id line_items) /\
            exists n_items : Z,
              (1 <= n_items <= 6)%Z /\
              Z.of_nat (List.length line_items)
              = Z.min n_items
                  (Z.of_nat (List.length
                               (filter is_active (rows products_df)))))
         (rows orders_df).
Proof.
  intros Hids Hrun. apply generate_orders_spec in Hrun.
  destruct Hrun as (records & -> & _ & Horders & _). simpl in Hids.
  eapply Forall_impl; [ | exact Horders].
  intros o (w1 & _ & c & t & n & idx & Hof). cbv zeta.
  destruct Hof as (_ & _ & _ & _ & Hn & Hnd & Hlen & Hlt & Hnew & _).
  simpl rows in *. unfold len in *. simpl rows in *.
  set (active := filter is_active records) in *.
  set (line_items := items_of (order_id o) (rows items_df)) in *.
  split; [ | split].
  - apply Forall2_item_product in Hnew.
    eapply Forall_impl; [ | exact Hnew].
    intros it (p & Hp & Hit). apply take_incl in Hp.
    apply filter_In in Hp. destruct Hp as [Hp Hact].
    exists p. destruct Hit as (_ & Hpid & _). auto.
  - rewrite (Forall2_item_products Hnew).
    apply take_NoDup; try assumption.
    apply NoDup_map_filter. exact Hids.
  - exists n. split.
    + destruct (String.eqb (segment c) "premium"); lia.
    + rewrite <- Hlen.
      rewrite <- (Forall2_length Hnew), (@take_length _ _ _ Hlt). reflexivity.
Qed.

(** C4. When the clock has passed the start of the platform epoch
    (2023-01-01) and the start of every customer's registration day, and
    customers have distinct ids: every order of [generate_orders] is dated
    at or after the start of the later of the two days, for the customer it
    references. *)
Theorem order_date_after_registration_and_epoch
    {E : Externals} (n_orders : Z) (w w' : World E)
    (customers_df : DataFrame Customer) (products_df : DataFrame Product)
    (orders_df : DataFrame Order) (items_df : DataFrame OrderItem) :
  (midnight platform_epoch <= clock_floor (w_clock w))%Z ->
  Forall (fun c => (midnight (registration_date c)
                    <= clock_floor (w_clock w))%Z)
         (rows customers_df) ->
  NoDup (map customer_id (rows customers_df)) ->
  generate_orders customers_df products_df n_orders w
    = (Ok (orders_df, items_df), w') ->
  Forall (fun o =>
            forall c,
              In c (rows customers_df) ->
              customer_id c = order_customer_id o ->
              (midnight (Z.max (registration_date c) platform_epoch)
               <= order_date o)%Z)
         (rows orders_df).
Proof.
  intros Hepoch Hreg Hids Hrun. apply generate_orders_spec in Hrun.
  destruct Hrun as (records & _ & _ & Horders & _).
  eapply Forall_impl; [ | exact Horders].
  intros o (w1 & Q & c0 & t & n & idx & Hof) c Hc Hid.
  destruct Hof as (Hc0 & Hcid & Hfloor & Hdate & _).
  assert (c = c0).
  { eapply NoDup_map_inj; try eassumption. congruence. }
  subst c0.
  rewrite Forall_forall in Hreg. specialize (Hreg c Hc).
  destruct Q as (_ & _ & Hclock).
  apply Hdate.
  destruct (Z.max_spec (registration_date c) platform_epoch)
    as [[_ ->] | [_ ->]]; lia.
Qed.

(* ================================================================== *)
(** * When [generate_orders] returns *)
(* ================================================================== *)

Section OrdersTotality.

Context {E : Externals}.

Local Open Scope Z_scope.

(** A customer that [sample] can pick: its segment has a weight. *)
Definition known_segment (c : Customer) : Prop :=
  0 < segment_weight (segment c).

Lemma segment_weight_nonneg (s : string) : 0 <= segment_weight s.
Proof.
  unfold segment_weight.
  repeat match goal with
         | |- context [String.eqb ?a ?b] => destruct (String.eqb a b)
         end; lia.
Qed.

Lemma order_item_record_total id product st w r w' :
  order_item_record id product st w = (r, w') -> exists st', r = Ok st'.
Proof.
  destruct st as [[sub items] next]. unfold order_item_record. intros H.
  destruct r as [st' | err]; [eauto | ]. exfalso.
  raise_step H; [no_raise H | ].
  raise_step H; [no_raise H | ].
  raise_step H.
  { destruct (a0 <? 0.2)%float; [ | no_raise H].
    raise_step H; [no_raise H | no_raise H]. }
  cbv zeta in H. no_raise H.
Qed.

Lemma order_items_loop_total id products :
  forall st w r w',
    order_items_loop id products st w = (r, w') -> exists st', r = Ok st'.
Proof.
  induction products as [ | p rest IH]; intros st w r w' H; simpl in H.
  - apply ret_run in H. destruct H as [-> _]. eauto.
  - unfold bind in H.
    destruct (order_item_record id p st w) as [r1 w1] eqn:Hone.
    apply order_item_record_total in Hone. destruct Hone as [st1 ->].
    eapply IH. exact H.
Qed.

Lemma sample_customer_total records w r w' :
  Exists known_segment records ->
  sample_customer (Frame records) w = (r, w') -> exists c, r = Ok c.
Proof.
  intros Hex. unfold sample_customer.
  set (weights := map (fun c => segment_weight (segment c)) records).
  assert (Hpos : Exists (fun x => 0 < x) weights).
  { unfold weights. apply Exists_exists in Hex.
    destruct Hex as (c & Hc & Hw). apply Exists_exists.
    exists (segment_weight (segment c)). split; [ | exact Hw].
    apply in_map_iff. eauto. }
  assert (Hnz : forallb (Z.eqb 0) weights = false).
  { apply Exists_exists in Hpos. destruct Hpos as (x & Hx & Hx0).
    destruct (forallb (Z.eqb 0) weights) eqn:Hall; [ | reflexivity].
    rewrite forallb_forall in Hall. apply Hall in Hx.
    apply Z.eqb_eq in Hx. lia. }
  rewrite Hnz. intros H. unfold bind in H.
  destruct (numpy (np_choice_p weights) w) as [r1 w1] eqn:Hi.
  apply numpy_run in Hi. destruct Hi as (-> & _).
  pose proof (np_choice_p_positive (w_numpy w) Hpos) as Hw.
  set (i := fst (np_choice_p weights (w_numpy w))) in *.
  destruct (nth_error records i) as [c | ] eqn:Hnth.
  - apply ret_run in H. destruct H as [-> _]. eauto.
  - exfalso. apply nth_error_None in Hnth.
    rewrite nth_overflow in Hw; [lia | ].
    unfold weights. rewrite length_map. exact Hnth.
Qed.

Lemma sample_n_total df n w r w' :
  0 <= n <= Z.of_nat (len df) ->
  sample_n df n w = (r, w') -> exists l, r = Ok l.
Proof.
  intros Hn. unfold sample_n.
  destruct (Z.ltb_spec n 0); [lia | ].
  destruct (Z.ltb_spec (Z.of_nat (len df)) n); [lia | ].
  intros Hrun. destruct r as [l | err]; [eauto | ]. exfalso.
  raise_step Hrun; [no_raise Hrun | no_raise Hrun].
Qed.

Lemma order_record_total records active_products id st w r w' :
  Exists known_segment records ->
  order_record (Frame records) active_products id st w = (r, w') ->
  exists st', r = Ok st'.
Proof.
  intros Hex. destruct st as [[orders items] next].
  unfold order_record. intros H.
  destruct r as [st' | err]; [eauto | ]. exfalso.
  apply bind_raise in H. destruct H as [H | (customer & w1 & Hc & H)].
  { eapply sample_customer_total in H; [ | exact Hex].
    destruct H; discriminate. }
  clear Hc. cbv beta zeta in H.
  raise_step H; [raise_step H; [no_raise H | no_raise H] | ].
  raise_step H; [no_raise H | ].
  apply bind_raise in H. destruct H as [H | (n_items & w4 & Hn & H)].
  { destruct (String.eqb (segment customer) "premium"); no_raise H. }
  assert (Hrange : 1 <= n_items <= 6).
  { destruct (String.eqb (segment customer) "premium");
      apply randint_run in Hn; try lia;
      destruct Hn as (z & Hz & Hr & _); injection Hz as ->; lia. }
  cbv beta in H.
  raise_step H.
  { apply sample_n_total in H; [destruct H; discriminate | lia]. }
  raise_step H.
  { apply order_items_loop_total in H. destruct H; discriminate. }
  destruct a2 as [[subtotal items'] next'].
  raise_step H.
  { destruct (subtotal <? 50)%float; [ | no_raise H].
    raise_step H; [no_raise H | no_raise H]. }
  cbv zeta in H.
  raise_step H; [no_raise H | ].
  raise_step H; [no_raise H | ].
  no_raise H.
Qed.

(** With a products frame that has its columns and a customer that can be
    sampled, [generate_orders] returns, whatever the count. *)
Lemma generate_orders_total customers products (n_orders : Z) w :
  Exists known_segment customers ->
  exists orders items w',
    generate_orders (Frame customers) (Frame products) n_orders w
    = (Ok (pd_DataFrame orders, pd_DataFrame items), w').
Proof.
  intros Hex. unfold generate_orders.
  unfold bind at 1. simpl select_active. unfold ret at 1.
  destruct (for_range (turns n_orders) 1
              (order_record (Frame customers)
                            (Frame (filter is_active products)))
              ([], [], 1) w) as [r w1] eqn:Hloop.
  pose proof Hloop as Hok.
  apply (for_range_total _ (fun _ => True)) in Hok; [ | | exact I].
  - destruct Hok as [_ [[[orders items] next] ->]].
    exists orders, items, w1.
    rewrite (@bind_run _ _ _ _ _ _ _ _ Hloop). reflexivity.
  - intros i s w2 r0 w3 _ Hrun. split; [exact I | ].
    eapply order_record_total; eassumption.
Qed.

End OrdersTotality.

Section NoActiveProducts.

Local Open Scope Z_scope.

Lemma take_nil {A} (idx : list nat) : take (@nil A) idx = [].
Proof.
  induction idx as [ | i idx IH]; [reflexivity | ].
  simpl. destruct i; exact IH.
Qed.

(** The totals of an order without line items. *)
Lemma empty_order_totals (ship : float) :
  (exists c, In c [0; 5.99; 9.99; 14.99]%float /\ ship = round2 c) ->
  In ship [0; 5.99; 9.99; 14.99]%float /\
  round2 (0 + ship + round2 (0 * 0.08)) = ship.
Proof.
  intros (c & Hc & ->). simpl in Hc.
  destruct Hc as [<- | [<- | [<- | [<- | []]]]]; vm_compute; tauto.
Qed.

End NoActiveProducts.

(** C6, as the code has it.  With a products frame that has its columns but
    no active record, and a customer that can be sampled,
    [generate_orders] raises nothing: it returns [n_orders] orders and an
    empty table of line items; every order has subtotal 0, tax 0, a shipping
    fee among 0, 5.99, 9.99 and 14.99, and that fee as its total. *)
Theorem generate_orders_without_active_products
    {E : Externals} (n_orders : Z) (w : World E)
    (customers : list Customer) (products : list Product) :
  Exists known_segment customers ->
  filter is_active products = [] ->
  exists orders w',
    generate_orders (Frame customers) (Frame products) n_orders w
    = (Ok (pd_DataFrame orders, NoColumns), w') /\
    List.length orders = turns n_orders /\
    Forall (fun o =>
              subtotal o = 0%float /\ tax o = 0%float /\
              In (shipping o) [0; 5.99; 9.99; 14.99]%float /\
              total o = shipping o)
           orders.
Proof.
  intros Hex Hnone.
  destruct (generate_orders_total products n_orders w Hex)
    as (orders & items & w' & Hrun).
  pose proof Hrun as Hspec. apply generate_orders_spec in Hspec.
  destruct Hspec as (records & Hrec & Hids & Horders & Hitems).
  injection Hrec as <-. rewrite Hnone in *.
  rewrite !rows_pd_DataFrame in *.
  assert (Hempty : items = []).
  { destruct items as [ | it items]; [reflexivity | ].
    inversion Hitems as [ | ? ? (p & [] & _) _]. }
  subst items. exists orders, w'.
  split; [exact Hrun | ]. split.
  { apply (f_equal (@List.length Z)) in Hids.
    rewrite !length_map, length_seq in Hids. exact Hids. }
  eapply Forall_impl; [ | exact Horders].
  intros o (w1 & _ & c & t & n & idx & Hof).
  destruct Hof as (_ & _ & _ & _ & _ & _ & _ & _ & Hnew & _
                   & Hsub & Htax & Htot & Hship & _).
  clear Hnew. change (items_of (order_id o) []) with (@nil OrderItem) in *.
  change (running_sum 0 []) with 0%float in *.
  change (0 <? 50)%float with true in Hship.
  destruct (empty_order_totals Hship) as [Hin Hround].
  split; [rewrite Hsub; vm_compute; reflexivity | ].
  assert (Htax0 : tax o = 0%float) by (rewrite Htax; vm_compute; reflexivity).
  split; [exact Htax0 | ]. split; [exact Hin | ].
  rewrite Htot, Htax. exact Hround.
Qed.

(** C9, as the code has it.  A count of zero or less makes no turn of the
    loop: [generate_customers] and [generate_products] return the empty
    table and raise nothing, and so does [generate_orders] when the products
    frame has its columns; nothing is drawn and nothing else changes. *)
Theorem generators_accept_nonpositive_counts
    {E : Externals} (n : Z) (w : World E)
    (customers_df : DataFrame Customer) (products : list Product) :
  (n <= 0)%Z ->
  generate_customers n w = (Ok NoColumns, w) /\
  generate_products n w = (Ok NoColumns, w) /\
  generate_orders customers_df (Frame products) n w
  = (Ok (NoColumns, NoColumns), w).
Proof.
  intros Hn.
  unfold generate_customers, generate_products, generate_orders, turns.
  replace (Z.to_nat n) with 0%nat by lia.
  repeat split; reflexivity.
Qed.

(* ================================================================== *)
(** * What a run writes, and what it reads *)
(* ================================================================== *)

Section Files.

Context {E : Externals}.

Local Open Scope Z_scope.

Lemma Quiet_order_items_loop id products :
  forall st, Quiet (order_items_loop id products st).
Proof.
  induction products as [ | p rest IH]; intros st; simpl.
  - apply Quiet_ret.
  - apply Quiet_bind; [ | intros st'; apply IH].
    destruct st as [[sub items] next]. unfold order_item_record.
    cbv zeta. quiet_steps.
Qed.

Lemma Quiet_sample_customer customers_df : Quiet (sample_customer customers_df).
Proof.
  unfold sample_customer. destruct customers_df as [ | records];
    [apply Quiet_raise | ].
  cbv zeta. quiet_steps.
  destruct (nth_error records _); quiet_steps.
Qed.

Lemma Quiet_sample_n df n : Quiet (sample_n df n).
Proof. unfold sample_n. quiet_steps. Qed.

Lemma Quiet_order_record customers_df active_products id st :
  Quiet (order_record customers_df active_products id st).
Proof.
  destruct st as [[orders items] next]. unfold order_record. cbv zeta.
  apply Quiet_bind; [apply Quiet_sample_customer | intros customer].
  apply Quiet_bind; [quiet_steps | intros order_date].
  apply Quiet_bind; [quiet_steps | intros status].
  apply Quiet_bind; [quiet_steps | intros n_items].
  apply Quiet_bind; [apply Quiet_sample_n | intros order_products].
  apply Quiet_bind; [apply Quiet_order_items_loop | intros [[sub its] nxt]].
  quiet_steps.
Qed.

Lemma Quiet_generate_orders customers_df products_df n_orders :
  Quiet (generate_orders customers_df products_df n_orders).
Proof.
  unfold generate_orders.
  apply Quiet_bind.
  - destruct products_df; [apply Quiet_raise | apply Quiet_ret].
  - intros active. apply Quiet_bind.
    + apply Quiet_for_range. intros i s. apply Quiet_order_record.
    + intros [[orders items] next]. apply Quiet_ret.
Qed.

End Files.

(* ================================================================== *)
(** * What the seeded tables depend on *)
(* ================================================================== *)

Section Seeded.

Context {E : Externals}.

(** What the seeded generators read: the states of [random] and of Faker's
    generator, and the clock. *)
Definition seeded (w : World E) : rng * rng * clock :=
  (w_random w, w_faker w, w_clock w).

(** A step that reads these three and nothing else: from two worlds that
    agree on them it gives the same result and leaves them the same. *)
Definition Seeded {A} (m : M E A) : Prop :=
  forall w1 w2,
    seeded w1 = seeded w2 ->
    fst (m w1) = fst (m w2) /\ seeded (snd (m w1)) = seeded (snd (m w2)).

Lemma Seeded_ret {A} (a : A) : Seeded (ret a).
Proof. intros w1 w2 H. split; [reflexivity | exact H]. Qed.

Lemma Seeded_raise {A} (e : exn) : Seeded (@raise E A e).
Proof. intros w1 w2 H. split; [reflexivity | exact H]. Qed.

Lemma Seeded_bind {A B} (m : M E A) (k : A -> M E B) :
  Seeded m -> (forall a, Seeded (k a)) -> Seeded (bind m k).
Proof.
  intros Hm Hk w1 w2 H. destruct (Hm w1 w2 H) as [Hr Hs]. unfold bind.
  destruct (m w1) as [[a1 | e1] w1'], (m w2) as [[a2 | e2] w2'];
    simpl in Hr, Hs; try discriminate.
  - injection Hr as ->. apply Hk. exact Hs.
  - injection Hr as ->. split; [reflexivity | exact Hs].
Qed.

Lemma Seeded_random {A} (f : rng -> A * rng) : Seeded (random f).
Proof.
  intros w1 w2 H. unfold seeded in H. injection H as Hr Hf Hc.
  unfold random. rewrite Hr. destruct (f (w_random w2)) as [a g].
  unfold seeded. simpl. rewrite Hf, Hc. split; reflexivity.
Qed.

Lemma Seeded_fake {A} (f : rng -> A * rng) : Seeded (fake f).
Proof.
  intros w1 w2 H. unfold seeded in H. injection H as Hr Hf Hc.
  unfold fake. rewrite Hf. destruct (f (w_faker w2)) as [a g].
  unfold seeded. simpl. rewrite Hr, Hc. split; reflexivity.
Qed.

Lemma Seeded_now : Seeded datetime_now.
Proof.
  intros w1 w2 H. unfold seeded in H. injection H as Hr Hf Hc.
  unfold datetime_now. rewrite Hc. destruct (clock_now (w_clock w2)) as [t c].
  unfold seeded. simpl. rewrite Hr, Hf. split; reflexivity.
Qed.

Lemma Seeded_choice {A} (l : list A) : Seeded (choice l).
Proof.
  unfold choice. destruct l; [apply Seeded_raise | apply Seeded_random].
Qed.

Lemma Seeded_choices {A} (l : list A) ws : Seeded (choices l ws).
Proof.
  unfold choices. destruct l; [apply Seeded_raise | apply Seeded_random].
Qed.

Lemma Seeded_dict_get {V} (d : list (string * V)) key :
  Seeded (dict_get d key).
Proof.
  induction d as [ | [k v] d IH]; simpl.
  - apply Seeded_raise.
  - destruct (String.eqb k key); [apply Seeded_ret | exact IH].
Qed.

Lemma Seeded_for_range {St} (body : Z -> St -> M E St) :
  (forall i s, Seeded (body i s)) ->
  forall count i s, Seeded (for_range count i body s).
Proof.
  intros Hbody count. induction count as [ | count IH]; intros i s; simpl.
  - apply Seeded_ret.
  - apply Seeded_bind; [apply Hbody | intros s'; apply IH].
Qed.

(** A step that leaves the file system as it is. *)
Definition KeepsFs {A} (m : M E A) : Prop :=
  forall w, w_fs (snd (m w)) = w_fs w.

Lemma KeepsFs_ret {A} (a : A) : KeepsFs (ret a).
Proof. intros w. reflexivity. Qed.

Lemma KeepsFs_raise {A} (e : exn) : KeepsFs (@raise E A e).
Proof. intros w. reflexivity. Qed.

Lemma KeepsFs_bind {A B} (m : M E A) (k : A -> M E B) :
  KeepsFs m -> (forall a, KeepsFs (k a)) -> KeepsFs (bind m k).
Proof.
  intros Hm Hk w. specialize (Hm w). unfold bind.
  destruct (m w) as [[a | e] w1]; simpl in Hm.
  - rewrite Hk. exact Hm.
  - exact Hm.
Qed.

Lemma KeepsFs_random {A} (f : rng -> A * rng) : KeepsFs (random f).
Proof. intros w. unfold random. destruct (f (w_random w)). reflexivity. Qed.

Lemma KeepsFs_fake {A} (f : rng -> A * rng) : KeepsFs (fake f).
Proof. intros w. unfold fake. destruct (f (w_faker w)). reflexivity. Qed.

Lemma KeepsFs_numpy {A} (f : nprng -> A * nprng) : KeepsFs (numpy f).
Proof. intros w. unfold numpy. destruct (f (w_numpy w)). reflexivity. Qed.

Lemma KeepsFs_now : KeepsFs datetime_now.
Proof.
  intros w. unfold datetime_now. destruct (clock_now (w_clock w)).
  reflexivity.
Qed.

Lemma KeepsFs_choice {A} (l : list A) : KeepsFs (choice l).
Proof.
  unfold choice. destruct l; [apply KeepsFs_raise | apply KeepsFs_random].
Qed.

Lemma KeepsFs_choices {A} (l : list A) ws : KeepsFs (choices l ws).
Proof.
  unfold choices. destruct l; [apply KeepsFs_raise | apply KeepsFs_random].
Qed.

Lemma KeepsFs_dict_get {V} (d : list (string * V)) key :
  KeepsFs (dict_get d key).
Proof.
  induction d as [ | [k v] d IH]; simpl.
  - apply KeepsFs_raise.
  - destruct (String.eqb k key); [apply KeepsFs_ret | exact IH].
Qed.

Lemma KeepsFs_for_range {St} (body : Z -> St -> M E St) :
  (forall i s, KeepsFs (body i s)) ->
  forall count i s, KeepsFs (for_range count i body s).
Proof.
  intros Hbody count. induction count as [ | count IH]; intros i s; simpl.
  - apply KeepsFs_ret.
  - apply KeepsFs_bind; [apply Hbody | intros s'; apply IH].
Qed.

End Seeded.

Ltac seeded_steps :=
  repeat first
    [ apply Seeded_ret | apply Seeded_raise | apply Seeded_random
    | apply Seeded_fake | apply Seeded_now
    | apply Seeded_choice | apply Seeded_choices | apply Seeded_dict_get
    | apply Seeded_bind; [ | intros ? ]
    | match goal with
      | |- Seeded (if ?b then _ else _) => destruct b
      end ].

Ltac keeps_fs_steps :=
  repeat first
    [ apply KeepsFs_ret | apply KeepsFs_raise | apply KeepsFs_random
    | apply KeepsFs_fake | apply KeepsFs_numpy | apply KeepsFs_now
    | apply KeepsFs_choice | apply KeepsFs_choices | apply KeepsFs_dict_get
    | apply KeepsFs_bind; [ | intros ? ]
    | match goal with
      | |- KeepsFs (if ?b then _ else _) => destruct b
      end ].

Section SeededTables.

Context {E : Externals}.

Local Open Scope Z_scope.

Lemma Seeded_generate_customers n : Seeded (generate_customers n).
Proof.
  unfold generate_customers.
  apply Seeded_bind; [ | intros l; apply Seeded_ret].
  apply Seeded_for_range. intros i s.
  unfold customer_record, fake_date_between. seeded_steps.
Qed.

Lemma Seeded_generate_products n : Seeded (generate_products n).
Proof.
  unfold generate_products.
  apply Seeded_bind; [ | intros l; apply Seeded_ret].
  apply Seeded_for_range. intros i s.
  unfold product_record. cbv zeta. seeded_steps.
Qed.

Lemma KeepsFs_generate_customers n : KeepsFs (generate_customers n).
Proof.
  unfold generate_customers.
  apply KeepsFs_bind; [ | intros l; apply KeepsFs_ret].
  apply KeepsFs_for_range. intros i s.
  unfold customer_record, fake_date_between. keeps_fs_steps.
Qed.

Lemma KeepsFs_generate_products n : KeepsFs (generate_products n).
Proof.
  unfold generate_products.
  apply KeepsFs_bind; [ | intros l; apply KeepsFs_ret].
  apply KeepsFs_for_range. intros i s.
  unfold product_record. cbv zeta. keeps_fs_steps.
Qed.

Lemma KeepsFs_order_items_loop id products :
  forall st, KeepsFs (order_items_loop id products st).
Proof.
  induction products as [ | p rest IH]; intros st; simpl.
  - apply KeepsFs_ret.
  - apply KeepsFs_bind; [ | intros st'; apply IH].
    destruct st as [[sub items] next]. unfold order_item_record.
    cbv zeta. keeps_fs_steps.
Qed.

Lemma KeepsFs_order_record customers_df active_products id st :
  KeepsFs (order_record customers_df active_products id st).
Proof.
  destruct st as [[orders items] next]. unfold order_record. cbv zeta.
  apply KeepsFs_bind; [ | intros customer].
  { unfold sample_customer. destruct customers_df as [ | records];
      [apply KeepsFs_raise | ].
    cbv zeta. keeps_fs_steps.
    destruct (nth_error records _); keeps_fs_steps. }
  apply KeepsFs_bind; [keeps_fs_steps | intros order_date].
  apply KeepsFs_bind; [keeps_fs_steps | intros status].
  apply KeepsFs_bind; [keeps_fs_steps | intros n_items].
  apply KeepsFs_bind; [unfold sample_n; keeps_fs_steps | intros order_products].
  apply KeepsFs_bind; [apply KeepsFs_order_items_loop | intros [[sub its] nxt]].
  keeps_fs_steps.
Qed.

Lemma KeepsFs_generate_orders customers_df products_df n_orders :
  KeepsFs (generate_orders customers_df products_df n_orders).
Proof.
  unfold generate_orders.
  apply KeepsFs_bind.
  - destruct products_df; [apply KeepsFs_raise | apply KeepsFs_ret].
  - intros active. apply KeepsFs_bind.
    + apply KeepsFs_for_range. intros i s. apply KeepsFs_order_record.
    + intros [[orders items] next]. apply KeepsFs_ret.
Qed.

End SeededTables.

(* ================================================================== *)
(** * What a run writes *)
(* ================================================================== *)

(** The first refusal met among the answers of the file system. *)
Fixpoint first_error (answers : list (option string)) : option string :=
  match answers with
  | [] => None
  | Some message :: _ => Some message
  | None :: rest => first_error rest
  end.

Section WholeRun.

Context {E : Externals}.

(** [generate_all] from the generation of the orders on. *)
Definition orders_and_after (n_orders : Z) (output_dir : string)
    (customers_df : DataFrame Customer) (products_df : DataFrame Product)
  : M E Dataset :=
  bind (generate_orders customers_df products_df n_orders)
    (fun both =>
       let '(orders_df, order_items_df) := both in
       bind (to_csv (OrdersTable orders_df) (String.append output_dir "/orders.csv"))
         (fun _ =>
            bind (to_csv (OrderItemsTable order_items_df)
                         (String.append output_dir "/order_items.csv"))
              (fun _ =>
                 ret {| customers := customers_df;
                        products := products_df;
                        categories_table := pd_DataFrame categories;
                        orders := orders_df;
                        order_items := order_items_df |}))).

(** The three files written before the orders are generated. *)
Definition first_files (output_dir : string)
    (customers_df : DataFrame Customer) (products_df : DataFrame Product)
  : list (string * Table) :=
  [(String.append output_dir "/customers.csv", CustomersTable customers_df);
   (String.append output_dir "/products.csv", ProductsTable products_df);
   (String.append output_dir "/categories.csv",
    CategoriesTable (pd_DataFrame categories))].

(** The answers of the file system to the calls made before the orders are
    generated, and to those made after. *)
Definition first_answers (s : fs) (output_dir : string)
  : list (option string) :=
  [makedirs_error s output_dir;
   write_error s (String.append output_dir "/customers.csv");
   write_error s (String.append output_dir "/products.csv");
   write_error s (String.append output_dir "/categories.csv")].

Definition last_answers (s : fs) (output_dir : string)
  : list (option string) :=
  [write_error s (String.append output_dir "/orders.csv");
   write_error s (String.append output_dir "/order_items.csv")].

Lemma bind_raised {A B} (m : M E A) (k : A -> M E B) w e w1 :
  m w = (Raise e, w1) -> bind m k w = (Raise e, w1).
Proof. unfold bind. intros ->. reflexivity. Qed.

Lemma os_makedirs_run (path : string) (w : World E) :
  match makedirs_error (w_fs w) path with
  | Some message => os_makedirs path w = (Raise (OSError message), w)
  | None =>
      exists w0, os_makedirs path w = (Ok tt, w0) /\
                 seeded w0 = seeded w /\ w_fs w0 = w_fs w /\
                 w_files w0 = w_files w
  end.
Proof.
  unfold os_makedirs. destruct (makedirs_error (w_fs w) path);
    [reflexivity | ].
  eexists. split; [reflexivity | ]. auto.
Qed.

Lemma to_csv_run (t : Table) (path : string) (w : World E) :
  match write_error (w_fs w) path with
  | Some message => to_csv t path w = (Raise (OSError message), w)
  | None =>
      exists w', to_csv t path w = (Ok tt, w') /\
                 seeded w' = seeded w /\ w_fs w' = w_fs w /\
                 w_files w' = (w_files w ++ [(path, t)])%list
  end.
Proof.
  unfold to_csv. destruct (write_error (w_fs w) path); [reflexivity | ].
  eexists. split; [reflexivity | ]. auto.
Qed.

(** The tables of a generator, on a world that agrees with [w] on what the
    seeded generators read. *)
Lemma generate_customers_on (n : Z) (w w0 : World E) customers_df :
  fst (generate_customers n w) = Ok customers_df ->
  seeded w0 = seeded w ->
  exists w1,
    generate_customers n w0 = (Ok customers_df, w1) /\
    seeded w1 = seeded (snd (generate_customers n w)) /\
    w_fs w1 = w_fs w0 /\ w_files w1 = w_files w0.
Proof.
  intros Hc Hs.
  destruct (@Seeded_generate_customers _ n w0 w Hs) as [Hr Hs'].
  pose proof (@KeepsFs_generate_customers _ n w0) as Hfs.
  destruct (generate_customers_run n w0) as (l & w1 & Hrun & _ & Hf & _).
  rewrite Hrun in Hr, Hs', Hfs. simpl in Hr, Hs', Hfs.
  exists w1. rewrite Hrun. rewrite <- Hc, <- Hr. auto.
Qed.

Lemma generate_products_on (n : Z) (w w0 : World E) products_df :
  fst (generate_products n w) = Ok products_df ->
  seeded w0 = seeded w ->
  exists w1,
    generate_products n w0 = (Ok products_df, w1) /\
    seeded w1 = seeded (snd (generate_products n w)) /\
    w_fs w1 = w_fs w0 /\ w_files w1 = w_files w0.
Proof.
  intros Hp Hs.
  destruct (@Seeded_generate_products _ n w0 w Hs) as [Hr Hs'].
  pose proof (@KeepsFs_generate_products _ n w0) as Hfs.
  destruct (generate_products_run n w0) as (l & w1 & Hrun & _ & Hf & _).
  rewrite Hrun in Hr, Hs', Hfs. simpl in Hr, Hs', Hfs.
  exists w1. rewrite Hrun. rewrite <- Hp, <- Hr. auto.
Qed.

(** [generate_all] up to the orders.  Either the file system refuses one of
    the first four calls, and the run raises with the files written before;
    or the run goes on to the orders with the three files written. *)
Lemma generate_all_first_stage (n_customers n_products n_orders : Z)
    (output_dir : string) (w : World E) customers_df products_df :
  fst (generate_customers n_customers w) = Ok customers_df ->
  fst (generate_products n_products (snd (generate_customers n_customers w)))
  = Ok products_df ->
  match first_error (first_answers (w_fs w) output_dir) with
  | Some message =>
      exists k w',
        (k <= 2)%nat /\
        generate_all n_customers n_products n_orders output_dir w
        = (Raise (OSError message), w') /\
        w_files w'
        = (w_files w
           ++ firstn k (first_files output_dir customers_df products_df))%list
  | None =>
      exists w5,
        generate_all n_customers n_products n_orders output_dir w
        = orders_and_after n_orders output_dir customers_df products_df w5 /\
        w_files w5
        = (w_files w ++ first_files output_dir customers_df products_df)%list /\
        w_fs w5 = w_fs w
  end.
Proof.
  intros Hc Hp. unfold first_answers, generate_all. simpl first_error.
  pose proof (@os_makedirs_run output_dir w) as Hmk.
  destruct (makedirs_error (w_fs w) output_dir) as [message | ].
  { exists 0%nat, w. split; [lia | ].
    rewrite (@bind_raised _ _ _ _ _ _ _ Hmk). simpl. rewrite app_nil_r. auto. }
  destruct Hmk as (w0 & Hmk & Hs0 & Hfs0 & Hf0).
  rewrite (@bind_run _ _ _ _ _ _ _ _ Hmk).
  destruct (@generate_customers_on _ _ _ _ Hc Hs0) as (w1 & Hgc & Hs1 & Hfs1 & Hf1).
  rewrite (@bind_run _ _ _ _ _ _ _ _ Hgc).
  pose proof (@to_csv_run (CustomersTable customers_df)
                (String.append output_dir "/customers.csv") w1) as Hw1.
  rewrite ?Hfs1, ?Hfs0 in Hw1.
  destruct (write_error (w_fs w) (String.append output_dir "/customers.csv"))
    as [message | ].
  { exists 0%nat, w1. split; [lia | ].
    rewrite (@bind_raised _ _ _ _ _ _ _ Hw1). simpl. rewrite app_nil_r.
    split; [reflexivity | congruence]. }
  destruct Hw1 as (w2 & Hw1 & Hs2 & Hfs2 & Hf2).
  rewrite (@bind_run _ _ _ _ _ _ _ _ Hw1).
  assert (Hs2' : seeded w2 = seeded (snd (generate_customers n_customers w)))
    by congruence.
  destruct (@generate_products_on _ _ _ _ Hp Hs2') as (w3 & Hgp & Hs3 & Hfs3 & Hf3).
  rewrite (@bind_run _ _ _ _ _ _ _ _ Hgp).
  pose proof (@to_csv_run (ProductsTable products_df)
                (String.append output_dir "/products.csv") w3) as Hw3.
  rewrite ?Hfs3, ?Hfs2, ?Hfs1, ?Hfs0 in Hw3.
  destruct (write_error (w_fs w) (String.append output_dir "/products.csv"))
    as [message | ].
  { exists 1%nat, w3. split; [lia | ].
    rewrite (@bind_raised _ _ _ _ _ _ _ Hw3). simpl.
    split; [reflexivity | congruence]. }
  destruct Hw3 as (w4 & Hw3 & Hs4 & Hfs4 & Hf4).
  rewrite (@bind_run _ _ _ _ _ _ _ _ Hw3). cbv zeta.
  pose proof (@to_csv_run (CategoriesTable (pd_DataFrame categories))
                (String.append output_dir "/categories.csv") w4) as Hw4.
  rewrite ?Hfs4, ?Hfs3, ?Hfs2, ?Hfs1, ?Hfs0 in Hw4.
  destruct (write_error (w_fs w) (String.append output_dir "/categories.csv"))
    as [message | ].
  { exists 2%nat, w4. split; [lia | ].
    rewrite (@bind_raised _ _ _ _ _ _ _ Hw4). simpl.
    split; [reflexivity | ].
    rewrite Hf4, Hf3, Hf2, Hf1, Hf0, <- app_assoc. reflexivity. }
  destruct Hw4 as (w5 & Hw4 & Hs5 & Hfs5 & Hf5).
  rewrite (@bind_run _ _ _ _ _ _ _ _ Hw4).
  exists w5. split; [reflexivity | ]. split; [ | congruence].
  rewrite Hf5, Hf4, Hf3, Hf2, Hf1, Hf0. unfold first_files.
  rewrite <- !app_assoc. reflexivity.
Qed.

(** [generate_all] from the orders on. *)
Lemma orders_and_after_run (n_orders : Z) (output_dir : string)
    customers_df products_df (w5 : World E) :
  match generate_orders customers_df products_df n_orders w5 with
  | (Raise e, w6) =>
      orders_and_after n_orders output_dir customers_df products_df w5
      = (Raise e, w6) /\
      w_files w6 = w_files w5
  | (Ok (orders_df, items_df), w6) =>
      match first_error (last_answers (w_fs w5) output_dir) with
      | Some message =>
          exists w',
            orders_and_after n_orders output_dir customers_df products_df w5
            = (Raise (OSError message), w') /\
            (w_files w' = w_files w5 \/
             w_files w'
             = (w_files w5
                ++ [(String.append output_dir "/orders.csv",
                     OrdersTable orders_df)])%list)
      | None =>
          exists w',
            orders_and_after n_orders output_dir customers_df products_df w5
            = (Ok {| customers := customers_df;
                     products := products_df;
                     categories_table := pd_DataFrame categories;
                     orders := orders_df;
                     order_items := items_df |}, w') /\
            w_files w'
            = (w_files w5
               ++ [(String.append output_dir "/orders.csv",
                    OrdersTable orders_df);
                   (String.append output_dir "/order_items.csv",
                    OrderItemsTable items_df)])%list
      end
  end.
Proof.
  unfold orders_and_after, last_answers. simpl first_error.
  pose proof (@KeepsFs_generate_orders _ customers_df products_df n_orders w5)
    as Hfs.
  destruct (generate_orders customers_df products_df n_orders w5)
    as [[[orders_df items_df] | e] w6] eqn:Hrun;
    pose proof (@Quiet_generate_orders _ _ _ _ _ _ _ Hrun) as (Hf & _); simpl in Hfs.
  2: { rewrite (@bind_raised _ _ _ _ _ _ _ Hrun). auto. }
  rewrite (@bind_run _ _ _ _ _ _ _ _ Hrun).
  pose proof (@to_csv_run (OrdersTable orders_df)
                (String.append output_dir "/orders.csv") w6) as Hw6.
  rewrite Hfs in Hw6.
  destruct (write_error (w_fs w5) (String.append output_dir "/orders.csv"))
    as [message | ].
  { exists w6. rewrite (@bind_raised _ _ _ _ _ _ _ Hw6). auto. }
  destruct Hw6 as (w7 & Hw6 & _ & Hfs7 & Hf7).
  rewrite (@bind_run _ _ _ _ _ _ _ _ Hw6).
  pose proof (@to_csv_run (OrderItemsTable items_df)
                (String.append output_dir "/order_items.csv") w7) as Hw7.
  rewrite ?Hfs7, ?Hfs in Hw7.
  destruct (write_error (w_fs w5)
              (String.append output_dir "/order_items.csv")) as [message | ].
  { exists w7. rewrite (@bind_raised _ _ _ _ _ _ _ Hw7).
    split; [reflexivity | right; congruence]. }
  destruct Hw7 as (w8 & Hw7 & _ & _ & Hf8).
  rewrite (@bind_run _ _ _ _ _ _ _ _ Hw7).
  exists w8. split; [reflexivity | ].
  rewrite Hf8, Hf7, Hf, <- app_assoc. reflexivity.
Qed.

(** What a run has written: a part of the first three files, in order, or
    the three and then what followed. *)
Definition written_from (before after : list (string * Table))
    (files : list (string * Table)) : Prop :=
  (exists k, after = (before ++ firstn k files)%list) \/
  (exists more, after = (before ++ files ++ more)%list).

(** The whole run, given the tables the two seeded generators make from the
    world it starts in. *)
Lemma generate_all_account (n_customers n_products n_orders : Z)
    (output_dir : string) (w : World E) customers_df products_df :
  fst (generate_customers n_customers w) = Ok customers_df ->
  fst (generate_products n_products (snd (generate_customers n_customers w)))
  = Ok products_df ->
  match generate_all n_customers n_products n_orders output_dir w with
  | (Ok d, w') =>
      customers d = customers_df /\ products d = products_df /\
      categories_table d = pd_DataFrame categories /\
      w_files w'
      = (w_files w ++ first_files output_dir customers_df products_df ++
         [(String.append output_dir "/orders.csv", OrdersTable (orders d));
          (String.append output_dir "/order_items.csv",
           OrderItemsTable (order_items d))])%list
  | (Raise (OSError _), w') =>
      (exists k,
         (k <= 3)%nat /\
         w_files w'
         = (w_files w
            ++ firstn k (first_files output_dir customers_df
                                     products_df))%list) \/
      (exists orders_df,
         w_files w'
         = (w_files w ++ first_files output_dir customers_df products_df ++
            [(String.append output_dir "/orders.csv",
              OrdersTable orders_df)])%list)
  | (Raise _, w') =>
      w_files w'
      = (w_files w ++ first_files output_dir customers_df products_df)%list
  end.
Proof.
  intros Hc Hp.
  pose proof (@generate_all_first_stage _ _ n_orders output_dir _ _ _ Hc Hp) as H1.
  destruct (first_error (first_answers (w_fs w) output_dir)) as [message | ].
  { destruct H1 as (k & w' & Hk & -> & Hf). left. exists k.
    split; [lia | exact Hf]. }
  destruct H1 as (w5 & -> & Hf5 & Hfs5).
  pose proof (@orders_and_after_run n_orders output_dir customers_df
                products_df w5) as H2.
  destruct (generate_orders customers_df products_df n_orders w5)
    as [[[orders_df items_df] | e] w6].
  - destruct (first_error (last_answers (w_fs w5) output_dir))
      as [message | ].
    + destruct H2 as (w' & -> & [Hf | Hf]).
      * left. exists 3%nat. split; [lia | ]. rewrite Hf, Hf5. reflexivity.
      * right. exists orders_df. rewrite Hf, Hf5, <- app_assoc. reflexivity.
    + destruct H2 as (w' & -> & Hf). simpl.
      repeat (split; [reflexivity | ]).
      rewrite Hf, Hf5, <- app_assoc. reflexivity.
  - destruct H2 as (-> & Hf). rewrite Hf, Hf5.
    destruct e; try reflexivity.
    left. exists 3%nat. split; [lia | reflexivity].
Qed.

(** With the empty path for its directory a run raises at [os.makedirs],
    before anything is generated. *)
Lemma generate_all_empty_directory (n_customers n_products n_orders : Z)
    (w : World E) :
  exists message,
    generate_all n_customers n_products n_orders EmptyString w
    = (Raise (OSError message), w).
Proof.
  pose proof (@os_makedirs_run EmptyString w) as Hmk.
  pose proof (makedirs_empty (w_fs w)) as Hne.
  destruct (makedirs_error (w_fs w) EmptyString) as [message | ];
    [ | contradiction].
  exists message. unfold generate_all. apply bind_raised. exact Hmk.
Qed.

End WholeRun.


(** C7, as the code has it.  The customers, products and categories tables
    of a run are settled by the states of [random] and of Faker's generator
    (the seed) and by the clock.  Take two runs with the same numbers of
    customers and products, from two worlds that agree on these three and
    may differ in everything else: the state of NumPy's generator, which
    the module does not seed, the file system, the files already there,
    the output directory and the number of orders.  There are one customers
    table and one products table, those the two generators make from the
    first world, such that each run returns them, with the categories, if
    it returns, and each run has written them to its first files, as far as
    it got: a part of its three files, in order, when the file system
    refused a call, and the three followed by what came after otherwise. *)
Theorem seeded_tables_determined
    {E : Externals} (n_customers n_products n_orders1 n_orders2 : Z)
    (output_dir1 output_dir2 : string) (w1 w2 : World E) :
  w_random w1 = w_random w2 ->
  w_faker w1 = w_faker w2 ->
  w_clock w1 = w_clock w2 ->
  let run1 := generate_all n_customers n_products n_orders1 output_dir1 w1 in
  let run2 := generate_all n_customers n_products n_orders2 output_dir2 w2 in
  exists customers_df products_df,
    fst (generate_customers n_customers w1) = Ok customers_df /\
    fst (generate_products n_products
           (snd (generate_customers n_customers w1))) = Ok products_df /\
    (forall d, fst run1 = Ok d ->
               customers d = customers_df /\ products d = products_df /\
               categories_table d = pd_DataFrame categories) /\
    (forall d, fst run2 = Ok d ->
               customers d = customers_df /\ products d = products_df /\
               categories_table d = pd_DataFrame categories) /\
    written_from (w_files w1) (w_files (snd run1))
                 (first_files output_dir1 customers_df products_df) /\
    written_from (w_files w2) (w_files (snd run2))
                 (first_files output_dir2 customers_df products_df).
Proof.
  intros Hr Hf Hk. cbv zeta.
  assert (Hs : seeded w2 = seeded w1)
    by (unfold seeded; rewrite Hr, Hf, Hk; reflexivity).
  destruct (generate_customers_run n_customers w1)
    as (customer_rows & w1' & Hc & _).
  destruct (generate_products_run n_products w1') as (product_rows & w1'' & Hp & _).
  exists (pd_DataFrame customer_rows), (pd_DataFrame product_rows).
  assert (Hc1 : fst (generate_customers n_customers w1)
                = Ok (pd_DataFrame customer_rows)) by (rewrite Hc; reflexivity).
  assert (Hp1 : fst (generate_products n_products
                       (snd (generate_customers n_customers w1)))
                = Ok (pd_DataFrame product_rows))
    by (rewrite Hc; simpl; rewrite Hp; reflexivity).
  destruct (@Seeded_generate_customers _ n_customers w2 w1 Hs) as [Hc2 Hs2].
  rewrite Hc1 in Hc2.
  destruct (@Seeded_generate_products _ n_products _ _ Hs2) as [Hp2 _].
  rewrite Hp1 in Hp2.
  pose proof (@generate_all_account _ _ _ n_orders1 output_dir1 _ _ _ Hc1 Hp1) as A1.
  pose proof (@generate_all_account _ _ _ n_orders2 output_dir2 _ _ _ Hc2 Hp2) as A2.
  assert (Hcase : forall n_orders output_dir (w : World E),
            match generate_all n_customers n_products n_orders output_dir w
            with
            | (Ok d, w') =>
                customers d = pd_DataFrame customer_rows /\
                products d = pd_DataFrame product_rows /\
                categories_table d = pd_DataFrame categories /\
                w_files w'
                = (w_files w
                   ++ first_files output_dir (pd_DataFrame customer_rows)
                        (pd_DataFrame product_rows)
                   ++ [(String.append output_dir "/orders.csv",
                        OrdersTable (orders d));
                       (String.append output_dir "/order_items.csv",
                        OrderItemsTable (order_items d))])%list
            | (Raise (OSError _), w') =>
                (exists k,
                   (k <= 3)%nat /\
                   w_files w'
                   = (w_files w
                      ++ firstn k (first_files output_dir
                                     (pd_DataFrame customer_rows)
                                     (pd_DataFrame product_rows)))%list) \/
                (exists orders_df,
                   w_files w'
                   = (w_files w
                      ++ first_files output_dir (pd_DataFrame customer_rows)
                           (pd_DataFrame product_rows)
                      ++ [(String.append output_dir "/orders.csv",
                           OrdersTable orders_df)])%list)
            | (Raise _, w') =>
                w_files w'
                = (w_files w
                   ++ first_files output_dir (pd_DataFrame customer_rows)
                        (pd_DataFrame product_rows))%list
            end ->
            (forall d,
               fst (generate_all n_customers n_products n_orders output_dir w)
               = Ok d ->
               customers d = pd_DataFrame customer_rows /\
               products d = pd_DataFrame product_rows /\
               categories_table d = pd_DataFrame categories) /\
            written_from (w_files w)
              (w_files (snd (generate_all n_customers n_products n_orders
                                          output_dir w)))
              (first_files output_dir (pd_DataFrame customer_rows)
                           (pd_DataFrame product_rows))).
  { intros n_orders output_dir w A.
    destruct (generate_all n_customers n_products n_orders output_dir w)
      as [[d | e] w']; simpl fst; simpl snd.
    - destruct A as (H1 & H2 & H3 & H4). split.
      + intros d' Hd. injection Hd as <-. auto.
      + right. eexists. exact H4.
    - split; [intros d Hd; discriminate | ].
      assert (Hthree : w_files w'
                       = (w_files w
                          ++ first_files output_dir (pd_DataFrame customer_rows)
                               (pd_DataFrame product_rows))%list ->
                       written_from (w_files w) (w_files w')
                         (first_files output_dir (pd_DataFrame customer_rows)
                                      (pd_DataFrame product_rows))).
      { intros H. right. exists []. rewrite app_nil_r. exact H. }
      destruct e; auto.
      destruct A as [(k & _ & H) | (orders_df & H)].
      + left. exists k. exact H.
      + right. eexists. exact H. }
  destruct (Hcase _ _ _ A1) as [D1 W1].
  destruct (Hcase _ _ _ A2) as [D2 W2].
  auto 10.
Qed.

(* ================================================================== *)
(** * Runs on concrete inputs *)
(* ================================================================== *)

(** A result and the world it leaves, from the result alone. *)
Lemma run_pair {E : Externals} {A} (x : result A * World E) (r : result A) :
  fst x = r -> x = (r, snd x).
Proof. intros <-. destruct x; reflexivity. Qed.

Module Example.

Local Open Scope Z_scope.

Definition customer (id : Z) (seg : string) (registered : date) : Customer :=
  {| customer_id := id; email := "ann@example.org"; first_name := "Ann";
     last_name := "Lee"; phone := "555-0100"; address := "1 Main St";
     city := "Springfield"; state := "NY"; zip_code := "10001";
     country := "USA"; segment := seg; registration_date := registered;
     customer_is_active := true;
     customer_created_at := midnight registered;
     customer_updated_at := midnight registered |}.

Definition book (id : Z) (p : float) (active : bool) : Product :=
  {| product_id := id; sku := "SKU-05-0000" ++ zero_padded 1 id;
     name := "Quiet Cookbook"; description := "A book.";
     category_id := 5; category_name := "Books"; price := p;
     cost := round2 (p * (1 - 0.25)); stock_quantity := 7;
     is_active := active; product_created_at := 0;
     product_updated_at := 0 |}.

Definition world (random_tape faker_tape numpy_tape : Tape.tape)
    (time : datetime) (steps : Tape.tape) : World TapeExternals :=
  {| w_random := random_tape; w_faker := faker_tape; w_numpy := numpy_tape;
     w_clock := {| Tape.time := time; Tape.steps := steps |};
     w_fs := [];
     w_dirs := []; w_files := [] |}.

(** One regular customer, registered on day 19500 (2023-05-23). *)
Definition one_customer : DataFrame Customer :=
  Frame [customer 1 "regular" 19500].

(** Three active books at 10.00, 29.99 and 10.01, and one inactive. *)
Definition four_books : DataFrame Product :=
  Frame [book 1 10 true; book 2 29.99 true; book 3 10.01 true;
         book 4 12.5 false].

(** Draws that give: status [completed]; three items, the three active books
    in catalogue order; quantity 1 and no discount for each; the shipping
    fee 5.99; the clock at the start of day 20000 (2024-10-04). *)
Definition three_items_world : World TapeExternals :=
  world [0; 2; 0; 4503599627370496; 0; 4503599627370496;
         0; 4503599627370496; 1; 0; 0]%N
        [0]%N [0; 0; 0; 0]%N (midnight 20000) [].

Definition three_items_run :=
  Eval vm_compute in generate_orders one_customer four_books 1
                                     three_items_world.

Definition three_items_orders : DataFrame Order :=
  Eval vm_compute in
    match fst three_items_run with
    | Ok (orders_df, _) => orders_df
    | Raise _ => NoColumns
    end.

Definition three_items_items : DataFrame OrderItem :=
  Eval vm_compute in
    match fst three_items_run with
    | Ok (_, items_df) => items_df
    | Raise _ => NoColumns
    end.

Lemma three_items_run_eq :
  fst (generate_orders one_customer four_books 1 three_items_world)
  = Ok (three_items_orders, three_items_items).
Proof. vm_compute. reflexivity. Qed.

(** Products as [generate_products] makes them, and two orders from them. *)
Definition products_world : World TapeExternals :=
  world [4; 1; 1125899906842624; 40; 0;
         0; 2; 6755399441055744; 12; 0;
         6; 3; 2251799813685248; 300; 1]%N
        [3; 8; 500; 4; 9; 600; 5; 10; 700]%N [] (midnight 20000) [1; 1; 1]%N.

Definition generated_products : DataFrame Product :=
  Eval vm_compute in
    match fst (generate_products 3 products_world) with
    | Ok df => df
    | Raise _ => NoColumns
    end.

Lemma generated_products_eq :
  fst (generate_products 3 products_world) = Ok generated_products.
Proof. vm_compute. reflexivity. Qed.

Definition two_customers : DataFrame Customer :=
  Frame [customer 1 "regular" 19500; customer 2 "premium" 19900].

Definition orders_world : World TapeExternals :=
  world [4; 0; 2; 1000; 1; 1; 4503599627370496; 2; 0; 3;
         0; 4; 0; 4503599627370496; 1; 0; 2; 3; 2; 1]%N
        [86400000000; 5]%N [1; 1; 0; 0; 0; 0]%N (midnight 20000) [10; 10]%N.

Definition generated_orders : DataFrame Order :=
  Eval vm_compute in
    match fst (generate_orders two_customers generated_products 2
                               orders_world) with
    | Ok (orders_df, _) => orders_df
    | Raise _ => NoColumns
    end.

Definition generated_items : DataFrame OrderItem :=
  Eval vm_compute in
    match fst (generate_orders two_customers generated_products 2
                               orders_world) with
    | Ok (_, items_df) => items_df
    | Raise _ => NoColumns
    end.

Lemma generated_orders_eq :
  fst (generate_orders two_customers generated_products 2 orders_world)
  = Ok (generated_orders, generated_items).
Proof. vm_compute. reflexivity. Qed.

(** A catalogue whose only product is inactive. *)
Definition inactive_book : list Product := [book 4 12.5 false].

Definition no_active_world : World TapeExternals :=
  world [0; 2; 1; 0; 0]%N [0]%N [0]%N (midnight 20000) [].

(** Two worlds with the same generator states, read ten seconds apart. *)
Definition morning : World TapeExternals :=
  world [1; 2; 3]%N [4; 5; 6]%N [7]%N (midnight 20000) [].

Definition ten_seconds_later : World TapeExternals :=
  world [1; 2; 3]%N [4; 5; 6]%N [7]%N (midnight 20000 + 10000000) [].

(** The morning's generator states and clock, met with another state of
    NumPy's generator, a directory that is there already with a file in it,
    and a file system that refuses the products file. *)
Definition refused_products : World TapeExternals :=
  {| w_random := [1; 2; 3]%N; w_faker := [4; 5; 6]%N; w_numpy := [9; 9]%N;
     w_clock := {| Tape.time := midnight 20000; Tape.steps := [] |};
     w_fs := ["out/products.csv"];
     w_dirs := ["out"];
     w_files := [("out/notes.csv", CategoriesTable NoColumns)] |}.

End Example.

(* ================================================================== *)
(** * The theorems at work on the concrete runs *)
(* ================================================================== *)

Lemma order_totals_witness :
  Forall (fun o =>
            let line_totals :=
              map line_total
                  (items_of (order_id o) (rows Example.generated_items)) in
            let running := fold_left PrimFloat.add line_totals 0%float in
            subtotal o = round2 running /\
            tax o = round2 (running * 0.08) /\
            total o = round2 (running + shipping o + tax o))
         (rows Example.generated_orders).
Proof.
  apply (@order_totals_from_line_totals TapeExternals 2
           Example.orders_world
           (snd (generate_orders Example.two_customers
                   Example.generated_products 2 Example.orders_world))
           Example.two_customers Example.generated_products
           Example.generated_orders Example.generated_items).
  apply run_pair. exact Example.generated_orders_eq.
Defined.

Lemma order_items_distinct_witness :
  Forall (fun o =>
            let line_items :=
              items_of (order_id o) (rows Example.generated_items) in
            Forall (fun it =>
                      exists p, In p (rows Example.generated_products) /\
                                is_active p = true /\
                                item_product_id it = product_id p)
                   line_items /\
            NoDup (map item_product_id line_items) /\
            exists n_items : Z,
              (1 <= n_items <= 6)%Z /\
              Z.of_nat (List.length line_items)
              = Z.min n_items
                  (Z.of_nat (List.length
                     (filter is_active (rows Example.generated_products)))))
         (rows Example.generated_orders).
Proof.
  apply (@order_items_distinct_active_products TapeExternals 2
           Example.orders_world
           (snd (generate_orders Example.two_customers
                   Example.generated_products 2 Example.orders_world))
           Example.two_customers Example.generated_products
           Example.generated_orders Example.generated_items).
  - vm_compute.
    repeat (constructor; [simpl; intuition discriminate | ]). constructor.
  - apply run_pair. exact Example.generated_orders_eq.
Defined.

Lemma order_date_witness :
  Forall (fun o =>
            forall c,
              In c (rows Example.two_customers) ->
              customer_id c = order_customer_id o ->
              (midnight (Z.max (registration_date c) platform_epoch)
               <= order_date o)%Z)
         (rows Example.generated_orders).
Proof.
  apply (@order_date_after_registration_and_epoch TapeExternals 2
           Example.orders_world
           (snd (generate_orders Example.two_customers
                   Example.generated_products 2 Example.orders_world))
           Example.two_customers Example.generated_products
           Example.generated_orders Example.generated_items).
  - vm_compute. discriminate.
  - repeat constructor; vm_compute; discriminate.
  - vm_compute.
    repeat (constructor; [simpl; intuition discriminate | ]). constructor.
  - apply run_pair. exact Example.generated_orders_eq.
Defined.

Lemma order_items_discount_witness :
  Forall (fun it =>
            (discount it = 0%float \/
             exists r, In r [0.1; 0.15; 0.2]%float /\
                       discount it = round2 (unit_price it * r)) /\
            (0 <=? discount it)%float = true /\
            (discount it <? unit_price it)%float = true /\
            line_total it =
              round2 ((unit_price it - discount it)
                      * float_of_int (quantity it)) /\
            (0 <? line_total it)%float = true)
         (rows Example.generated_items).
Proof.
  apply (@order_items_discount_and_line_total TapeExternals 3 2
           Example.products_world
           (snd (generate_products 3 Example.products_world))
           Example.orders_world
           (snd (generate_orders Example.two_customers
                   Example.generated_products 2 Example.orders_world))
           Example.two_customers Example.generated_products
           Example.generated_orders Example.generated_items).
  - apply run_pair. exact Example.generated_products_eq.
  - apply run_pair. exact Example.generated_orders_eq.
Defined.

Lemma without_active_products_witness :
  exists orders w',
    generate_orders Example.one_customer (Frame Example.inactive_book) 3
                    Example.no_active_world
    = (Ok (pd_DataFrame orders, NoColumns), w') /\
    List.length orders = turns 3 /\
    Forall (fun o =>
              subtotal o = 0%float /\ tax o = 0%float /\
              In (shipping o) [0; 5.99; 9.99; 14.99]%float /\
              total o = shipping o)
           orders.
Proof.
  apply (@generate_orders_without_active_products TapeExternals 3
           Example.no_active_world
           [Example.customer 1 "regular" 19500] Example.inactive_book).
  - apply Exists_cons_hd. vm_compute. reflexivity.
  - reflexivity.
Defined.

Lemma nonpositive_counts_witness :
  generate_customers (-1) Example.morning = (Ok NoColumns, Example.morning) /\
  generate_products (-1) Example.morning = (Ok NoColumns, Example.morning) /\
  generate_orders Example.one_customer (Frame Example.inactive_book) (-1)
                  Example.morning
  = (Ok (NoColumns, NoColumns), Example.morning).
Proof.
  apply (@generators_accept_nonpositive_counts TapeExternals (-1)
           Example.morning Example.one_customer Example.inactive_book).
  lia.
Defined.

(** C6 as stated fails: with one customer and a catalogue whose only product
    is inactive, [generate_orders] raises nothing and returns an order
    without line items. *)
Lemma no_active_products_no_error :
  exists o,
    fst (generate_orders Example.one_customer (Frame Example.inactive_book) 1
                         Example.no_active_world)
    = Ok (Frame [o], NoColumns).
Proof. vm_compute. eexists. reflexivity. Qed.

(** C7 as stated fails: two runs with the same counts and the same generator
    states, read ten seconds apart, do not return the same tables. *)
Lemma same_seed_different_output :
  w_random Example.morning = w_random Example.ten_seconds_later /\
  w_faker Example.morning = w_faker Example.ten_seconds_later /\
  w_numpy Example.morning = w_numpy Example.ten_seconds_later /\
  fst (generate_all 1 1 0 "data" Example.morning)
  <> fst (generate_all 1 1 0 "data" Example.ten_seconds_later).
Proof.
  repeat (split; [reflexivity | ]).
  intros Heq.
  apply (f_equal (fun r : result Dataset =>
                    match r with
                    | Ok d => map customer_updated_at (rows (customers d))
                    | Raise _ => []
                    end)) in Heq.
  vm_compute in Heq. discriminate.
Qed.

(** C7 on two runs that agree on the seeded states and the clock only: one
    returns, the other is refused its products file. *)
Lemma seeded_tables_determined_witness :
  exists customers_df products_df,
    fst (generate_customers 1 Example.morning) = Ok customers_df /\
    fst (generate_products 1 (snd (generate_customers 1 Example.morning)))
    = Ok products_df /\
    (forall d, fst (generate_all 1 1 0 "data" Example.morning) = Ok d ->
               customers d = customers_df /\ products d = products_df /\
               categories_table d = pd_DataFrame categories) /\
    (forall d, fst (generate_all 1 1 2 "out" Example.refused_products) = Ok d ->
               customers d = customers_df /\ products d = products_df /\
               categories_table d = pd_DataFrame categories) /\
    written_from (w_files Example.morning)
      (w_files (snd (generate_all 1 1 0 "data" Example.morning)))
      (first_files "data" customers_df products_df) /\
    written_from (w_files Example.refused_products)
      (w_files (snd (generate_all 1 1 2 "out" Example.refused_products)))
      (first_files "out" customers_df products_df).
Proof.
  apply (@seeded_tables_determined TapeExternals 1 1 0 2 "data" "out"
           Example.morning Example.refused_products); reflexivity.
Defined.

(** The two runs above: the first returns and writes its five files; the
    second raises at the products file and leaves the customers file after
    the file that was there. *)
Lemma refused_products_run :
  map fst (w_files (snd (generate_all 1 1 0 "data" Example.morning)))
  = ["data/customers.csv"; "data/products.csv"; "data/categories.csv";
     "data/orders.csv"; "data/order_items.csv"] /\
  fst (generate_all 1 1 2 "out" Example.refused_products)
  = Raise (OSError "Permission denied") /\
  map fst (w_files (snd (generate_all 1 1 2 "out" Example.refused_products)))
  = ["out/notes.csv"; "out/customers.csv"].
Proof. vm_compute. repeat split; reflexivity. Qed.

(** With the empty path for its directory a run raises at [os.makedirs] and
    writes nothing. *)
Lemma empty_directory_run :
  fst (generate_all 1 1 1 EmptyString Example.morning)
  = Raise (OSError "No such file or directory") /\
  w_files (snd (generate_all 1 1 1 EmptyString Example.morning)) = [].
Proof. vm_compute. split; reflexivity. Qed.


(** C9 as stated fails: a negative count raises nothing. *)
Lemma negative_count_no_error :
  fst (generate_customers (-1) Example.morning) = Ok NoColumns /\
  fst (generate_products (-5) Example.morning) = Ok NoColumns /\
  fst (generate_orders Example.one_customer Example.four_books (-1)
                       Example.morning)
  = Ok (NoColumns, NoColumns).
Proof. vm_compute. repeat split; reflexivity. Qed.

(** C5 on the code.  The threshold is tested on the running sum, before it
    is rounded for storage.  Three books at 10.00, 29.99 and 10.01 add up,
    in binary floating point, to just under 50: the order stores a subtotal
    of exactly 50.00 and is charged a shipping fee of 5.99. *)
Theorem free_shipping_missed_at_fifty :
  exists o,
    fst (generate_orders Example.one_customer Example.four_books 1
                         Example.three_items_world)
    = Ok (Frame [o], Example.three_items_items) /\
    map line_total (rows Example.three_items_items)
    = [10; 29.99; 10.01]%float /\
    (fold_left PrimFloat.add
               (map line_total (rows Example.three_items_items)) 0 <? 50)%float
    = true /\
    subtotal o = 50%float /\
    (50 <=? subtotal o)%float = true /\
    shipping o = 5.99%float.
Proof. vm_compute. eexists. repeat split; reflexivity. Qed.

(* ================================================================== *)
(** * Record numbering *)
(* ================================================================== *)

(** The numbers [1, ..., n] of [range(1, n + 1)]. *)
Definition range_1 (n : Z) : list Z := map Z.of_nat (seq 1 (turns n)).

Section Numbering.

Context {E : Externals}.

Local Open Scope Z_scope.

(** The records of an appending loop, turn by turn. *)
Lemma append_loop_spec {A} (record : Z -> M E A) (P : Z -> A -> Prop) :
  (forall i w a w', record i w = (Ok a, w') -> P i a) ->
  forall n w l w',
    for_range (turns n) 1
      (fun i l => bind (record i) (fun a => ret (l ++ [a])%list)) [] w
    = (Ok l, w') ->
    Forall2 P (range_1 n) l.
Proof.
  intros Hrecord n w l w' Hloop.
  apply (for_range_invariant _
           (fun i (l : list A) (_ : World E) =>
              1 <= i /\
              Forall2 P (map Z.of_nat (seq 1 (Z.to_nat (i - 1)))) l))
    in Hloop.
  - destruct Hloop as [_ Hall]. unfold range_1, turns.
    replace (Z.to_nat n) with (Z.to_nat (1 + Z.of_nat (turns n) - 1))
      by (unfold turns; lia).
    exact Hall.
  - intros i s w0 s' w1 [Hi Hall] Hrun.
    bind_in Hrun as a w2 Ha.
    apply ret_run in Hrun. destruct Hrun as [Hs _]. injection Hs as ->.
    split; [lia | ].
    replace (Z.to_nat (i + 1 - 1)) with (S (Z.to_nat (i - 1))) by lia.
    rewrite seq_S, map_app. apply Forall2_app; [exact Hall | ].
    change (map Z.of_nat [(1 + Z.to_nat (i - 1))%nat])
      with [Z.of_nat (1 + Z.to_nat (i - 1))].
    replace (Z.of_nat (1 + Z.to_nat (i - 1))) with i by lia.
    constructor; [ | constructor].
    eapply Hrecord. exact Ha.
  - split; [lia | constructor].
Qed.

Lemma Forall2_numbered {A} (P : Z -> A -> Prop) (Q : A -> Prop)
    (number : A -> Z) (ids : list Z) (l : list A) :
  (forall i a, P i a -> number a = i /\ Q a) ->
  Forall2 P ids l -> map number l = ids /\ Forall Q l.
Proof.
  intros HP. induction 1 as [ | i a ids l Hia _ [IHn IHq]].
  - split; [reflexivity | constructor].
  - destruct (HP i a Hia) as [Hn Hq]. simpl.
    split; [congruence | constructor; assumption].
Qed.

Lemma NoDup_map_injective {A B} (f : A -> B) (l : list A) :
  (forall a b, f a = f b -> a = b) -> NoDup l -> NoDup (map f l).
Proof.
  intros Hinj. induction 1 as [ | a l Ha _ IH]; simpl; constructor; auto.
  intros Hin. apply in_map_iff in Hin. destruct Hin as (b & Hb & Hin).
  apply Hinj in Hb. subst. contradiction.
Qed.

Lemma range_1_NoDup (n : Z) : NoDup (range_1 n).
Proof.
  unfold range_1. apply NoDup_map_injective; [ | apply seq_NoDup].
  intros a b Hab. lia.
Qed.

Lemma range_1_In (n i : Z) : In i (range_1 n) <-> 1 <= i <= n.
Proof.
  unfold range_1, turns. rewrite in_map_iff. split.
  - intros (k & <- & Hk). apply in_seq in Hk. lia.
  - intros Hi. exists (Z.to_nat i). split; [lia | ]. apply in_seq. lia.
Qed.

Lemma customer_record_spec (i : Z) w c w' :
  customer_record i w = (Ok c, w') ->
  customer_id c = i /\
  (In (segment c) ["premium"; "regular"; "occasional"; "new"] /\
   country c = "USA" /\
   customer_created_at c = midnight (registration_date c)).
Proof.
  unfold customer_record. intros H.
  bind_in H as seg w1 Hseg. apply choices_run in Hseg.
  destruct Hseg as [_ Hseg].
  repeat (bind_step H; clear Hstep).
  apply ret_run in H. destruct H as [Hc _]. injection Hc as ->.
  simpl. auto.
Qed.

End Numbering.

Section Tables.

Context {E : Externals}.

Local Open Scope Z_scope.

Lemma generate_customers_rows (n : Z) w df w' :
  generate_customers n w = (Ok df, w') ->
  map customer_id (rows df) = range_1 n /\
  Forall (fun c =>
            In (segment c) ["premium"; "regular"; "occasional"; "new"] /\
            country c = "USA" /\
            customer_created_at c = midnight (registration_date c))
         (rows df).
Proof.
  unfold generate_customers. intros H. bind_in H as l w1 Hloop.
  apply ret_run in H. destruct H as [Hdf _]. injection Hdf as ->.
  rewrite rows_pd_DataFrame.
  apply (append_loop_spec _
           (fun i c => customer_id c = i /\
              (In (segment c) ["premium"; "regular"; "occasional"; "new"] /\
               country c = "USA" /\
               customer_created_at c = midnight (registration_date c))))
    in Hloop.
  - eapply Forall2_numbered; [ | exact Hloop]. auto.
  - intros i w0 c w2 Hc. eapply customer_record_spec. exact Hc.
Qed.

End Tables.

(** X1. [generate_customers] returns for every count, with
    [max(n, 0)] customers numbered 1, 2, ... in order; each has one of the
    four segments, country "USA", and [created_at] at the start of its
    registration day. *)
Theorem generate_customers_numbered
    {E : Externals} (n : Z) (w : World E) :
  exists df w',
    generate_customers n w = (Ok df, w') /\
    map customer_id (rows df) = range_1 n /\
    Forall (fun c =>
              In (segment c) ["premium"; "regular"; "occasional"; "new"] /\
              country c = "USA" /\
              customer_created_at c = midnight (registration_date c))
           (rows df).
Proof.
  destruct (generate_customers_run n w) as (records & w' & Hrun & _ & _).
  exists (pd_DataFrame records), w'. split; [exact Hrun | ].
  eapply generate_customers_rows. exact Hrun.
Qed.

(* ================================================================== *)
(** * The catalogue columns of the products *)
(* ================================================================== *)

Section Skus.

Local Open Scope Z_scope.

Lemma zeros_cons (k : nat) (s : string) :
  String.concat "" (repeat "0" (S k)) ++ s
  = String "0" (String.concat "" (repeat "0" k) ++ s).
Proof. destruct k; reflexivity. Qed.

Lemma zeros_read (k : nat) (s : string) (n : N) :
  option_map N.of_uint (NilEmpty.uint_of_string s) = Some n ->
  option_map N.of_uint
    (NilEmpty.uint_of_string (String.concat "" (repeat "0" k) ++ s)) = Some n.
Proof.
  intros Hs. induction k as [ | k IH]; [exact Hs | ].
  rewrite zeros_cons. simpl NilEmpty.uint_of_string.
  destruct (NilEmpty.uint_of_string (String.concat "" (repeat "0" k) ++ s))
    as [d | ]; [ | discriminate].
  exact IH.
Qed.

(** Reading a zero-padded number back gives the number. *)
Lemma zero_padded_read (width : nat) (z : Z) :
  option_map N.of_uint (NilEmpty.uint_of_string (zero_padded width z))
  = Some (Z.to_N z).
Proof.
  unfold zero_padded. apply zeros_read.
  set (d := N.to_uint (Z.to_N z)).
  assert (Hnil : d <> Decimal.Nil).
  { unfold d, N.to_uint. destruct (Z.to_N z); [discriminate | ].
    apply DecimalPos.Unsigned.to_uint_nonnil. }
  assert (Hd : NilEmpty.uint_of_string (NilZero.string_of_uint d) = Some d).
  { destruct d; try contradiction; apply NilEmpty.usu. }
  rewrite Hd. simpl. f_equal. apply DecimalN.Unsigned.of_to.
Qed.

Lemma zero_padded_injective (width : nat) (a b : Z) :
  0 <= a -> 0 <= b -> zero_padded width a = zero_padded width b -> a = b.
Proof.
  intros Ha Hb Heq.
  pose proof (zero_padded_read width a) as Ra.
  rewrite Heq, zero_padded_read in Ra. injection Ra as Ra. lia.
Qed.

Lemma category_code (c : Category) :
  In c categories ->
  exists a b, zero_padded 2 (cat_id c) = String a (String b "").
Proof.
  intros Hin. repeat (destruct Hin as [<- | Hin]; [do 2 eexists; reflexivity | ]).
  destruct Hin.
Qed.

Lemma zeros_length (k : nat) (s : string) :
  String.length (String.concat "" (repeat "0" k) ++ s)
  = (k + String.length s)%nat.
Proof.
  induction k as [ | k IH]; [reflexivity | ].
  rewrite zeros_cons. simpl. f_equal. exact IH.
Qed.

Lemma string_of_uint_length (d : Decimal.uint) :
  String.length (NilEmpty.string_of_uint d) = Decimal.nb_digits d.
Proof. induction d; simpl; congruence. Qed.

Lemma usize_nb_digits (d : Decimal.uint) :
  DecimalPos.Unsigned.usize d = N.of_nat (Decimal.nb_digits d).
Proof.
  induction d; simpl DecimalPos.Unsigned.usize; simpl Decimal.nb_digits;
    rewrite ?IHd; lia.
Qed.

(** A number written without a leading zero is at least ten to the number
    of digits that follow the first. *)
Lemma of_uint_lower (d : Decimal.uint) :
  Decimal.unorm d = d ->
  (d = Decimal.D0 Decimal.Nil \/
   10 ^ N.of_nat (Decimal.nb_digits d - 1) <= N.of_uint d)%N.
Proof.
  intros Hnorm.
  assert (Hacc : forall d' acc,
            (10 ^ N.of_nat (Decimal.nb_digits d')
             <= Npos (Pos.of_uint_acc d' acc))%N).
  { intros d' acc. rewrite DecimalPos.Unsigned.of_uint_acc_rev.
    rewrite usize_nb_digits.
    assert (0 < 10 ^ N.of_nat (Decimal.nb_digits d'))%N
      by (apply N.neq_0_lt_0, N.pow_nonzero; discriminate).
    nia. }
  destruct d as [ | d' | d' | d' | d' | d' | d' | d' | d' | d' | d'];
    try (right;
         match goal with
         | |- (10 ^ N.of_nat (Decimal.nb_digits ?d - 1) <= _)%N =>
             replace (Decimal.nb_digits d - 1)%nat
               with (Decimal.nb_digits d') by (simpl; lia)
         end;
         apply Hacc).
  - discriminate.
  - left. unfold Decimal.unorm in Hnorm. simpl in Hnorm.
    destruct (Decimal.nzhead d') eqn:Hnz;
      try (injection Hnorm as <-; reflexivity);
      try discriminate.
    exfalso. apply (DecimalFacts.nzhead_nonzero d' d'). congruence.
Qed.

(** The decimal digits of a number below [10 ^ width]. *)
Lemma to_uint_digits (width : nat) (n : N) :
  (1 <= width)%nat -> (n < 10 ^ N.of_nat width)%N ->
  (String.length (NilZero.string_of_uint (N.to_uint n)) <= width)%nat.
Proof.
  intros Hw Hn.
  set (d := N.to_uint n).
  assert (Hof : N.of_uint d = n) by apply DecimalN.Unsigned.of_to.
  assert (Hnorm : Decimal.unorm d = d).
  { rewrite <- (DecimalN.Unsigned.to_of d), Hof. reflexivity. }
  destruct (of_uint_lower Hnorm) as [H0 | Hlow]; [rewrite H0; simpl; lia | ].
  assert (Hlen : String.length (NilZero.string_of_uint d)
                 = Decimal.nb_digits d).
  { destruct d; try apply string_of_uint_length.
    exfalso. revert Hnorm. discriminate. }
  rewrite Hlen. rewrite Hof in Hlow.
  destruct (Nat.le_gt_cases (Decimal.nb_digits d) width) as [ | Hbig];
    [assumption | exfalso].
  assert (10 ^ N.of_nat width <= 10 ^ N.of_nat (Decimal.nb_digits d - 1))%N
    by (apply N.pow_le_mono_r; [discriminate | lia]).
  lia.
Qed.

(** [f"{z:0{width}d}"] has [width] characters when [z] has no more digits. *)
Lemma zero_padded_length (width : nat) (z : Z) :
  (1 <= width)%nat -> 0 <= z < 10 ^ Z.of_nat width ->
  String.length (zero_padded width z) = width.
Proof.
  intros Hw Hz. unfold zero_padded. rewrite zeros_length.
  assert (String.length (NilZero.string_of_uint (N.to_uint (Z.to_N z)))
          <= width)%nat; [ | lia].
  apply to_uint_digits; [exact Hw | ].
  apply N2Z.inj_lt. rewrite N2Z.inj_pow, Z2N.id, nat_N_Z by lia. lia.
Qed.

End Skus.

(** What the catalogue columns of a product hold: the id and the name of one
    category, the SKU written from that category's id and the product's, a
    name made of a title-cased word and one of the category's templates, and
    a stock from 0 to 500. *)
Definition catalogued (p : Product) : Prop :=
  exists (c : Category) (templates : list string) (word base : string),
    In c categories /\
    category_id p = cat_id c /\ category_name p = cat_name c /\
    sku p = "SKU-" ++ zero_padded 2 (cat_id c) ++ "-"
            ++ zero_padded 5 (product_id p) /\
    In (cat_name c, templates) product_templates /\
    In base templates /\
    name p = title word ++ " " ++ base /\
    (0 <= stock_quantity p <= 500)%Z.

Section Catalogue.

Context {E : Externals}.

Local Open Scope Z_scope.

Lemma dict_get_In {V} (d : list (string * V)) (key : string) w v w' :
  dict_get d key w = (Ok v, w') -> In (key, v) d.
Proof.
  induction d as [ | [k v0] d IH]; simpl.
  - unfold raise. discriminate.
  - destruct (String.eqb_spec k key) as [-> | Hne].
    + intros H. apply ret_run in H. destruct H as [Hv _]. injection Hv as ->.
      left. reflexivity.
    + intros H. right. exact (IH H).
Qed.

Lemma product_record_catalogued (i : Z) w p w' :
  product_record i w = (Ok p, w') ->
  product_id p = i /\ catalogued p.
Proof.
  unfold product_record. intros H.
  bind_in H as c w1 Hc. apply choice_run in Hc. destruct Hc as [_ Hc].
  cbv zeta in H.
  bind_in H as templates w2 Ht. apply dict_get_In in Ht.
  bind_in H as base w3 Hb. apply choice_run in Hb. destruct Hb as [_ Hb].
  bind_in H as price w4 Hprice. clear Hprice.
  bind_in H as word w5 Hword. clear Hword.
  bind_in H as descr w6 Hdescr. clear Hdescr.
  bind_in H as stock w7 Hstock.
  apply randint_run in Hstock; [ | lia].
  destruct Hstock as (z & Hz & Hrange & _). injection Hz as ->.
  repeat (bind_step H; clear Hstep).
  apply ret_run in H. destruct H as [Hp _]. injection Hp as ->.
  split; [reflexivity | ].
  exists c, templates, word, base. simpl. auto 10.
Qed.

Lemma catalogued_sku_injective (p q : Product) :
  catalogued p -> catalogued q -> 0 <= product_id p -> 0 <= product_id q ->
  sku p = sku q -> product_id p = product_id q.
Proof.
  intros (c & _ & _ & _ & Hc & _ & _ & Hp & _)
         (d & _ & _ & _ & Hd & _ & _ & Hq & _) H0p H0q Heq.
  rewrite Hp, Hq in Heq.
  destruct (category_code Hc) as (a1 & b1 & Hc2).
  destruct (category_code Hd) as (a2 & b2 & Hd2).
  rewrite Hc2, Hd2 in Heq. simpl in Heq. injection Heq as _ _ Heq.
  eapply zero_padded_injective; eassumption.
Qed.

Lemma catalogued_sku_length (p : Product) :
  catalogued p -> 0 <= product_id p <= 99999 ->
  String.length (sku p) = 12%nat.
Proof.
  intros (c & _ & _ & _ & Hc & _ & _ & Hp & _) Hid.
  rewrite Hp. destruct (category_code Hc) as (a & b & Hc2). rewrite Hc2.
  simpl. do 7 f_equal. apply zero_padded_length; [lia | ].
  change (10 ^ Z.of_nat 5) with 100000. lia.
Qed.

Lemma NoDup_map_through {A B C} (f : A -> B) (g : A -> C) (l : list A) :
  (forall a b, In a l -> In b l -> g a = g b -> f a = f b) ->
  NoDup (map f l) -> NoDup (map g l).
Proof.
  induction l as [ | a l IH]; simpl; intros Hfg Hnd; [constructor | ].
  inversion Hnd as [ | ? ? Hni Hrest]; subst.
  constructor.
  - intros Hin. apply in_map_iff in Hin. destruct Hin as (b & Hb & Hin).
    apply Hni. apply in_map_iff. exists b. split; [ | exact Hin].
    apply Hfg; auto.
  - apply IH; [ | exact Hrest]. intros; apply Hfg; auto.
Qed.

Lemma generate_products_rows (n : Z) w df w' :
  generate_products n w = (Ok df, w') ->
  map product_id (rows df) = range_1 n /\ Forall catalogued (rows df).
Proof.
  unfold generate_products. intros H. bind_in H as l w1 Hloop.
  apply ret_run in H. destruct H as [Hdf _]. injection Hdf as ->.
  rewrite rows_pd_DataFrame.
  apply (append_loop_spec _ (fun i p => product_id p = i /\ catalogued p))
    in Hloop.
  - eapply Forall2_numbered; [ | exact Hloop]. auto.
  - intros i w0 p w2 Hp. eapply product_record_catalogued. exact Hp.
Qed.

End Catalogue.

(** X2. [generate_products] returns for every count, with [max(n, 0)]
    products numbered 1, 2, ... in order.  Every product carries the id and
    the name of one category, an SKU made of that category's id on two
    digits and the product's id on five, a name made of a title-cased word
    and one of the templates of its category, and a stock from 0 to 500;
    no two products share an SKU. *)
Theorem generate_products_catalogue
    {E : Externals} (n : Z) (w : World E) :
  exists df w',
    generate_products n w = (Ok df, w') /\
    map product_id (rows df) = range_1 n /\
    Forall catalogued (rows df) /\
    NoDup (map sku (rows df)).
Proof.
  destruct (generate_products_run n w) as (records & w' & Hrun & _ & _).
  exists (pd_DataFrame records), w'. split; [exact Hrun | ].
  destruct (generate_products_rows _ _ Hrun) as [Hids Hall].
  split; [exact Hids | ]. split; [exact Hall | ].
  apply NoDup_map_through with (f := product_id);
    [ | rewrite Hids; apply range_1_NoDup].
  rewrite Forall_forall in Hall.
  assert (Hpos : forall p, In p (rows (pd_DataFrame records)) ->
                           (0 <= product_id p)%Z).
  { intros p Hin. apply (in_map product_id) in Hin. rewrite Hids in Hin.
    apply range_1_In in Hin. lia. }
  intros p q Hp Hq. apply catalogued_sku_injective; auto.
Qed.

(** X3. In a catalogue of at most 99999 products every SKU has the twelve
    characters of [SKU-CC-NNNNN]. *)
Theorem generate_products_sku_width
    {E : Externals} (n : Z) (w : World E) df w' :
  (n <= 99999)%Z ->
  generate_products n w = (Ok df, w') ->
  Forall (fun p => String.length (sku p) = 12%nat) (rows df).
Proof.
  intros Hn Hrun.
  destruct (generate_products_rows _ _ Hrun) as [Hids Hall].
  rewrite Forall_forall in *. intros p Hin.
  apply catalogued_sku_length; [auto | ].
  apply (in_map product_id) in Hin. rewrite Hids in Hin.
  apply range_1_In in Hin. lia.
Qed.

(* ================================================================== *)
(** * Order headers and the numbering of line items *)
(* ================================================================== *)

Section OrderHeaders.

Context {E : Externals}.

(** The numbers [first, first + 1, ...], [count] of them. *)
Definition numbers_from (first : Z) (count : nat) : list Z :=
  map (fun k => first + Z.of_nat k) (seq 0 count).

Lemma numbers_from_S (first : Z) (count : nat) :
  numbers_from first (S count) = first :: numbers_from (first + 1) count.
Proof.
  unfold numbers_from. simpl. rewrite Z.add_0_r. f_equal.
  rewrite <- seq_shift, map_map. apply map_ext. intros k. lia.
Qed.

Lemma numbers_from_app (first : Z) (a b : nat) :
  numbers_from first (a + b)
  = (numbers_from first a ++ numbers_from (first + Z.of_nat a) b)%list.
Proof.
  revert first. induction a as [ | a IH]; intros first.
  - simpl. rewrite Z.add_0_r. reflexivity.
  - change (S a + b)%nat with (S (a + b)). rewrite !numbers_from_S, IH.
    simpl. do 3 f_equal. lia.
Qed.

Lemma numbers_from_1 (count : nat) :
  numbers_from 1 count = range_1 (Z.of_nat count).
Proof.
  unfold numbers_from, range_1, turns. rewrite Nat2Z.id.
  rewrite <- seq_shift, map_map. apply map_ext. intros k. lia.
Qed.

(** The line items of one order take the next free numbers. *)
Lemma order_items_loop_numbered id products :
  forall sub items next w st' w',
    order_items_loop id products (sub, items, next) w = (Ok st', w') ->
    exists new,
      st' = (running_sum sub new, (items ++ new)%list,
             next + Z.of_nat (List.length new)) /\
      Forall2 (item_of id) products new /\
      map order_item_id new = numbers_from next (List.length new).
Proof.
  induction products as [ | product rest IH]; intros sub items next w st' w' H.
  - simpl in H. apply ret_run in H. destruct H as [Hst ->].
    injection Hst as ->. exists []. simpl.
    rewrite app_nil_r, Z.add_0_r.
    split; [reflexivity | split; [constructor | reflexivity]].
  - simpl in H. bind_in H as st1 w1 Hone.
    apply order_item_record_spec in Hone.
    destruct Hone as (it & -> & Hit & Hid & _).
    apply IH in H. destruct H as (new & -> & Hnew & Hids).
    exists (it :: new).
    change (List.length (it :: new)) with (S (List.length new)).
    rewrite numbers_from_S. simpl map. rewrite Hid, Hids.
    rewrite <- app_assoc. simpl.
    replace (next + 1 + Z.of_nat (List.length new))
      with (next + Z.pos (Pos.of_succ_nat (List.length new))) by lia.
    split; [reflexivity | split; [constructor; assumption | reflexivity]].
Qed.

Definition shipping_fees : list float := [0; 5.99; 9.99; 14.99]%float.

Definition payment_methods : list string :=
  ["credit_card"; "debit_card"; "paypal"; "apple_pay"].

(** The columns of an order that do not depend on its line items. *)
Definition order_header (customers_df : DataFrame Customer) (o : Order)
  : Prop :=
  exists (customer : Customer) (days : Z),
    In customer (rows customers_df) /\
    order_customer_id o = customer_id customer /\
    shipping_address o = address customer /\
    shipping_city o = city customer /\
    shipping_state o = state customer /\
    shipping_zip o = zip_code customer /\
    In (status o)
       ["completed"; "shipped"; "processing"; "cancelled"; "returned"] /\
    In (payment_method o) payment_methods /\
    order_created_at o = order_date o /\
    0 <= days <= 5 /\
    order_updated_at o = order_date o + timedelta_days days.

Lemma shipping_fees_rounded (c : float) :
  In c shipping_fees -> round2 c = c.
Proof.
  intros Hin. repeat (destruct Hin as [<- | Hin]; [vm_compute; reflexivity | ]).
  destruct Hin.
Qed.

Lemma order_statuses_known (s : string) :
  In s order_statuses ->
  In s ["completed"; "shipped"; "processing"; "cancelled"; "returned"].
Proof. simpl. intuition. Qed.

Lemma order_record_header customers_df active_products id orders items next
    w st' w' :
  order_record customers_df active_products id (orders, items, next) w
    = (Ok st', w') ->
  exists o new,
    st' = ((orders ++ [o])%list, (items ++ new)%list,
           next + Z.of_nat (List.length new)) /\
    order_id o = id /\
    order_header customers_df o /\
    Forall (fun it => item_order_id it = id) new /\
    map order_item_id new = numbers_from next (List.length new) /\
    In (shipping o) shipping_fees /\
    ((50 <=? running_sum 0 new)%float = true -> shipping o = 0%float).
Proof.
  unfold order_record. intros H.
  bind_in H as customer w1 Hcust.
  apply sample_customer_spec in Hcust. destruct Hcust as [Hcust _].
  cbv zeta in H.
  bind_in H as date w2 Hdate. clear Hdate.
  bind_in H as st w3 Hst. apply choice_run in Hst. destruct Hst as [_ Hst].
  bind_in H as n_items w4 Hn. clear Hn.
  bind_in H as order_products w5 Hsample. clear Hsample.
  bind_in H as st1 w6 Hloop.
  apply order_items_loop_numbered in Hloop.
  destruct Hloop as (new & -> & Hnew & Hids).
  bind_in H as ship w7 Hship.
  assert (Hfee : In ship shipping_fees /\
                 ((50 <=? running_sum 0 new)%float = true -> ship = 0%float)).
  { destruct (running_sum 0 new <? 50)%float eqn:Hlt.
    - bind_in Hship as c w8 Hc. apply choice_run in Hc.
      destruct Hc as [_ Hc].
      apply ret_run in Hship. destruct Hship as [Hs _]. injection Hs as ->.
      split.
      + rewrite (shipping_fees_rounded Hc). exact Hc.
      + intros Hle. apply leb_not_ltb in Hle. congruence.
    - apply ret_run in Hship. destruct Hship as [Hs _]. injection Hs as ->.
      split; [left; reflexivity | reflexivity]. }
  destruct Hfee as [Hfee Hfree].
  cbv zeta in H.
  bind_in H as pay w8 Hpay. apply choice_run in Hpay. destruct Hpay as [_ Hpay].
  bind_in H as days w9 Hdays.
  apply randint_run in Hdays; [ | lia].
  destruct Hdays as (z & Hz & Hrange & _). injection Hz as ->.
  apply ret_run in H. destruct H as [Hres _]. injection Hres as ->.
  eexists. exists new.
  split; [reflexivity | ]. split; [reflexivity | ]. split.
  - exists customer, z. simpl.
    split; [exact Hcust | ]. repeat (split; [reflexivity | ]).
    split; [apply order_statuses_known; exact Hst | ].
    split; [exact Hpay | ].
    split; [reflexivity | ]. split; [exact Hrange | reflexivity].
  - split; [eapply Forall2_item_order; exact Hnew | ].
    split; [exact Hids | ]. split; [exact Hfee | exact Hfree].
Qed.

(** The state of the loop of [generate_orders] before the turn of number
    [k]: what the orders and the line items made so far look like. *)
Definition orders_numbered (customers_df : DataFrame Customer) (k : Z)
    (st : list Order * list OrderItem * Z) : Prop :=
  let '(orders, items, next) := st in
  1 <= k /\
  map order_id orders = range_1 (k - 1) /\
  Forall (order_header customers_df) orders /\
  next = 1 + Z.of_nat (List.length items) /\
  map order_item_id items = numbers_from 1 (List.length items) /\
  items = flat_map (fun o => items_of (order_id o) items) orders /\
  Forall (fun it => 1 <= item_order_id it < k) items /\
  Forall (fun o =>
            In (shipping o) shipping_fees /\
            ((50 <=? running_sum 0 (items_of (order_id o) items))%float = true
             -> shipping o = 0%float)) orders.

Lemma flat_map_ext_in {A B} (f g : A -> list B) (l : list A) :
  (forall a, In a l -> f a = g a) -> flat_map f l = flat_map g l.
Proof.
  induction l as [ | a l IH]; intros Hfg; [reflexivity | ].
  simpl. rewrite (Hfg a), IH; [reflexivity | | left; reflexivity].
  intros b Hb. apply Hfg. right. exact Hb.
Qed.

Lemma range_1_succ (k : Z) :
  1 <= k -> range_1 (k + 1 - 1) = (range_1 (k - 1) ++ [k])%list.
Proof.
  intros Hk. unfold range_1, turns.
  replace (Z.to_nat (k + 1 - 1)) with (S (Z.to_nat (k - 1))) by lia.
  rewrite seq_S, map_app.
  change (map Z.of_nat [(1 + Z.to_nat (k - 1))%nat])
    with [Z.of_nat (1 + Z.to_nat (k - 1))].
  do 2 f_equal. lia.
Qed.

Lemma orders_numbered_step customers_df active_products k st w st' w' :
  orders_numbered customers_df k st ->
  order_record customers_df active_products k st w = (Ok st', w') ->
  orders_numbered customers_df (k + 1) st'.
Proof.
  destruct st as [[orders items] next].
  intros (Hk & Hids & Hhead & Hnext & Hnum & Hgroup & Hitems & Hship) Hrun.
  apply order_record_header in Hrun.
  destruct Hrun as (o & new & -> & Hid & Ho & Hnew & Hnewids & Hfee & Hfree).
  assert (Hold : items_of k items = []).
  { apply items_of_other. eapply Forall_impl; [ | exact Hitems].
    simpl. intros it Hit. lia. }
  assert (Hbelow : forall o', In o' orders -> order_id o' <> k).
  { intros o' Hin. apply (in_map order_id) in Hin. rewrite Hids in Hin.
    apply range_1_In in Hin. lia. }
  assert (Hother : forall o', In o' orders ->
            items_of (order_id o') (items ++ new)
            = items_of (order_id o') items).
  { intros o' Hin. rewrite items_of_app, (@items_of_other (order_id o') new).
    - apply app_nil_r.
    - eapply Forall_impl; [ | exact Hnew]. simpl. intros it Hit.
      rewrite Hit. intros Heq. apply (Hbelow o' Hin). congruence. }
  assert (Hmine : items_of (order_id o) (items ++ new) = new).
  { rewrite Hid, items_of_app, Hold. apply items_of_same. exact Hnew. }
  unfold orders_numbered.
  split; [lia | ].
  split; [rewrite map_app, Hids, range_1_succ by exact Hk; simpl; congruence | ].
  split; [apply Forall_app; split; [exact Hhead | repeat constructor; exact Ho] | ].
  split; [rewrite length_app; lia | ].
  split.
  { rewrite map_app, length_app, numbers_from_app, Hnum, Hnewids.
    do 2 f_equal. lia. }
  split.
  { rewrite flat_map_app. simpl. rewrite app_nil_r, Hmine. f_equal.
    rewrite (flat_map_ext_in _ (fun o => items_of (order_id o) items) orders)
      by exact Hother.
    exact Hgroup. }
  split.
  { apply Forall_app. split.
    - eapply Forall_impl; [ | exact Hitems]. simpl. intros it Hit. lia.
    - eapply Forall_impl; [ | exact Hnew]. simpl. intros it Hit. lia. }
  apply Forall_app. split.
  - rewrite Forall_forall in Hship. apply Forall_forall. intros o' Hin.
    rewrite (Hother o' Hin). apply Hship. exact Hin.
  - constructor; [ | constructor]. rewrite Hmine. auto.
Qed.

Lemma generate_orders_numbered customers_df products_df n w orders_df
    items_df w' :
  generate_orders customers_df products_df n w
    = (Ok (orders_df, items_df), w') ->
  orders_numbered customers_df (1 + Z.of_nat (turns n))
    (rows orders_df, rows items_df, 1 + Z.of_nat (len items_df)).
Proof.
  unfold generate_orders. intros H.
  bind_in H as active w1 Hact. clear Hact.
  bind_in H as st w2 Hloop.
  destruct st as [[orders items] next].
  apply ret_run in H. destruct H as [Hres _]. injection Hres as -> ->.
  unfold len. rewrite !rows_pd_DataFrame.
  apply (for_range_invariant _
           (fun k st (_ : World E) => orders_numbered customers_df k st)) in Hloop.
  - pose proof Hloop as (_ & _ & _ & -> & _). exact Hloop.
  - intros i s w0 s' w3 Hi Hrun.
    eapply orders_numbered_step; eassumption.
  - simpl. repeat split; try constructor; lia.
Qed.

End OrderHeaders.

(** X4. The orders [generate_orders] returns are numbered 1, 2, ...,
    [n_orders] in order.  Each carries the id and the address columns of one
    row of the customers table, one of the five statuses, one of the four
    payment methods, [created_at] equal to [order_date], and [updated_at]
    a whole number of days, from 0 to 5, after it. *)
Theorem generate_orders_headers
    {E : Externals} (n : Z) (w w' : World E) customers_df products_df
    orders_df items_df :
  generate_orders customers_df products_df n w
    = (Ok (orders_df, items_df), w') ->
  map order_id (rows orders_df) = range_1 n /\
  Forall (order_header customers_df) (rows orders_df).
Proof.
  intros Hrun. apply generate_orders_numbered in Hrun.
  destruct Hrun as (_ & Hids & Hhead & _).
  split; [ | exact Hhead].
  rewrite Hids. unfold range_1, turns. do 2 f_equal. lia.
Qed.

(** X5. The line items [generate_orders] returns are numbered 1, 2, ...
    without a gap across the orders; the table lists the items of order 1,
    then those of order 2, and so on; and every item carries the id of an
    order of the orders table and a quantity of 1, 2 or 3. *)
Theorem generate_orders_items_numbered
    {E : Externals} (n : Z) (w w' : World E) customers_df products_df
    orders_df items_df :
  generate_orders customers_df products_df n w
    = (Ok (orders_df, items_df), w') ->
  map order_item_id (rows items_df) = range_1 (Z.of_nat (len items_df)) /\
  rows items_df
  = flat_map (fun o => items_of (order_id o) (rows items_df))
             (rows orders_df) /\
  Forall (fun it => In (item_order_id it) (map order_id (rows orders_df)) /\
                    (1 <= quantity it <= 3)%Z)
         (rows items_df).
Proof.
  intros Hrun. pose proof Hrun as Hspec.
  apply generate_orders_numbered in Hrun.
  destruct Hrun as (_ & Hids & _ & _ & Hnum & Hgroup & Hitems & _).
  apply generate_orders_spec in Hspec.
  destruct Hspec as (records & _ & _ & _ & Hof).
  split; [rewrite Hnum; apply numbers_from_1 | ].
  split; [exact Hgroup | ].
  rewrite Forall_forall in *. intros it Hin. split.
  - specialize (Hitems it Hin). cbv beta in Hitems.
    rewrite Hids. apply range_1_In. lia.
  - destruct (Hof it Hin) as (p & _ & _ & _ & _ & Hq & _). exact Hq.
Qed.

(** X6. Every order ships for 0, 5.99, 9.99 or 14.99, and for 0 whenever
    the sum of its line totals, added one after the other as the loop does
    and not rounded, is at least 50. *)
Theorem free_shipping_on_running_sum
    {E : Externals} (n : Z) (w w' : World E) customers_df products_df
    orders_df items_df :
  generate_orders customers_df products_df n w
    = (Ok (orders_df, items_df), w') ->
  Forall (fun o =>
            In (shipping o) [0; 5.99; 9.99; 14.99]%float /\
            ((50 <=? running_sum 0 (items_of (order_id o) (rows items_df)))%float
             = true -> shipping o = 0%float))
         (rows orders_df).
Proof.
  intros Hrun. apply generate_orders_numbered in Hrun.
  destruct Hrun as (_ & _ & _ & _ & _ & _ & _ & Hship). exact Hship.
Qed.

(* ================================================================== *)
(** * Who places the orders *)
(* ================================================================== *)

(** The customer behind an order and the number of its line items: the
    customer has one of the four segments, and the order has as many items
    as were drawn for the segment, or as there are active products if these
    are fewer. *)
Definition placed_by (customers_df : DataFrame Customer)
    (active_products : DataFrame Product) (o : Order)
    (new : list OrderItem) : Prop :=
  exists (customer : Customer) (n_items : Z),
    In customer (rows customers_df) /\
    order_customer_id o = customer_id customer /\
    In (segment customer) ["premium"; "regular"; "occasional"; "new"] /\
    (if String.eqb (segment customer) "premium"
     then 2 <= n_items <= 6 else 1 <= n_items <= 4)%Z /\
    Z.of_nat (List.length new)
    = Z.min n_items (Z.of_nat (len active_products)).

Section Segments.

Context {E : Externals}.

Local Open Scope Z_scope.

Lemma known_segment_four (c : Customer) :
  known_segment c ->
  In (segment c) ["premium"; "regular"; "occasional"; "new"].
Proof.
  unfold known_segment, segment_weight. simpl.
  destruct (String.eqb_spec (segment c) "premium"); [auto | ].
  destruct (String.eqb_spec (segment c) "regular"); [auto | ].
  destruct (String.eqb_spec (segment c) "occasional"); [auto | ].
  destruct (String.eqb_spec (segment c) "new"); [auto | lia].
Qed.

(** [sample] never picks a row of weight zero. *)
Lemma sample_customer_known customers_df w c w' :
  sample_customer customers_df w = (Ok c, w') ->
  In c (rows customers_df) /\ known_segment c.
Proof.
  unfold sample_customer. destruct customers_df as [ | records].
  - unfold raise. discriminate.
  - set (weights := map (fun c => segment_weight (segment c)) records).
    destruct (forallb (Z.eqb 0) weights) eqn:Hall;
      [unfold raise; discriminate | ].
    intros H. bind_in H as i w1 Hi.
    apply numpy_run in Hi. destruct Hi as (Hi & _). injection Hi as ->.
    assert (Hpos : Exists (fun x => 0 < x) weights).
    { apply Exists_exists.
      destruct (forallb_forall (Z.eqb 0) weights) as [_ Hall'].
      destruct (Exists_dec (fun x => 0 < x) weights
                  (fun x => Z_lt_dec 0 x)) as [Hex | Hnone];
        [apply Exists_exists in Hex; exact Hex | exfalso].
      rewrite Hall' in Hall; [discriminate | ].
      intros x Hx. apply Z.eqb_eq.
      assert (Hx0 : 0 <= x).
      { unfold weights in Hx. apply in_map_iff in Hx.
        destruct Hx as (c0 & <- & _). apply segment_weight_nonneg. }
      destruct (Z.eq_dec 0 x) as [ | Hne]; [assumption | exfalso].
      apply Hnone. apply Exists_exists. exists x. split; [exact Hx | lia]. }
    pose proof (np_choice_p_positive (w_numpy w) Hpos) as Hw.
    set (i := fst (np_choice_p weights (w_numpy w))) in *.
    destruct (nth_error records i) as [customer | ] eqn:Hnth;
      [ | unfold raise in H; discriminate].
    apply ret_run in H. destruct H as [Hc _]. injection Hc as ->.
    split; [simpl; eapply nth_error_In; exact Hnth | ].
    unfold known_segment.
    assert (Hnthw : nth_error weights i
                    = Some (segment_weight (segment customer))).
    { unfold weights. rewrite nth_error_map, Hnth. reflexivity. }
    rewrite (nth_error_nth _ _ _ Hnthw) in Hw. exact Hw.
Qed.

Lemma order_record_placed customers_df active_products id orders items next
    w st' w' :
  order_record customers_df active_products id (orders, items, next) w
    = (Ok st', w') ->
  exists o new next',
    st' = ((orders ++ [o])%list, (items ++ new)%list, next') /\
    order_id o = id /\
    Forall (fun it => item_order_id it = id) new /\
    placed_by customers_df active_products o new.
Proof.
  unfold order_record. intros H.
  bind_in H as customer w1 Hcust.
  apply sample_customer_known in Hcust. destruct Hcust as [Hcust Hknown].
  cbv zeta in H.
  bind_in H as date w2 Hdate. clear Hdate.
  bind_in H as st w3 Hst. clear Hst.
  bind_in H as n_items w4 Hn.
  assert (Hrange : if String.eqb (segment customer) "premium"
                   then 2 <= n_items <= 6 else 1 <= n_items <= 4).
  { destruct (String.eqb (segment customer) "premium");
      apply randint_run in Hn; try lia;
      destruct Hn as (z & Hz & Hr & _); injection Hz as ->; exact Hr. }
  clear Hn.
  bind_in H as order_products w5 Hsample.
  apply sample_n_spec in Hsample.
  destruct Hsample as (idx & -> & _ & Hlen & Hnn & Hlt & _).
  bind_in H as st1 w6 Hloop.
  apply order_items_loop_spec in Hloop.
  destruct Hloop as (new & -> & Hnew & _).
  bind_in H as ship w7 Hship. clear Hship. cbv zeta in H.
  bind_in H as pay w8 Hpay. clear Hpay.
  bind_in H as days w9 Hdays. clear Hdays.
  apply ret_run in H. destruct H as [Hres _]. injection Hres as ->.
  eexists. exists new. eexists.
  split; [reflexivity | ]. split; [reflexivity | ].
  split; [eapply Forall2_item_order; exact Hnew | ].
  exists customer, n_items. simpl.
  split; [exact Hcust | ]. split; [reflexivity | ].
  split; [apply known_segment_four; exact Hknown | ].
  split; [exact Hrange | ].
  rewrite <- (Forall2_length Hnew), (@take_length _ _ _ Hlt). lia.
Qed.

(** What every turn of the loop makes of its order and its line items
    holds, in the tables returned, of every order and the items that carry
    its number. *)
Lemma generate_orders_each (R : Order -> list OrderItem -> Prop)
    customers_df (records : list Product) n w orders_df items_df w' :
  (forall id orders items next w0 st' w1,
     order_record customers_df (Frame (filter is_active records)) id
                  (orders, items, next) w0 = (Ok st', w1) ->
     exists o new next',
       st' = ((orders ++ [o])%list, (items ++ new)%list, next') /\
       order_id o = id /\
       Forall (fun it => item_order_id it = id) new /\
       R o new) ->
  generate_orders customers_df (Frame records) n w
    = (Ok (orders_df, items_df), w') ->
  Forall (fun o => R o (items_of (order_id o) (rows items_df)))
         (rows orders_df).
Proof.
  intros Hturn H. unfold generate_orders in H.
  bind_in H as active w1 Hact. simpl in Hact.
  apply ret_run in Hact. destruct Hact as [Ha _]. injection Ha as ->.
  bind_in H as st w2 Hloop. destruct st as [[orders items] next].
  apply ret_run in H. destruct H as [Hres _]. injection Hres as -> ->.
  rewrite !rows_pd_DataFrame.
  apply (for_range_invariant _
           (fun k (st : list Order * list OrderItem * Z) (_ : World E) =>
              1 <= k /\
              Forall (fun o => 1 <= order_id o < k /\
                               R o (items_of (order_id o) (snd (fst st))))
                     (fst (fst st)) /\
              Forall (fun it => 1 <= item_order_id it < k) (snd (fst st))))
    in Hloop.
  - destruct Hloop as (_ & Hall & _). simpl in Hall.
    eapply Forall_impl; [ | exact Hall]. intros o [_ Ho]. exact Ho.
  - intros k [[orders0 items0] next0] w0 st' w3 (Hk & Hord & Hitems) Hrun.
    simpl in Hord, Hitems.
    apply Hturn in Hrun.
    destruct Hrun as (o & new & next' & -> & Hid & Hnew & HR). simpl.
    split; [lia | ]. split.
    + apply Forall_app. split.
      * eapply Forall_impl; [ | exact Hord].
        intros o' ([Hlo Hhi] & HR'). split; [lia | ].
        rewrite items_of_app, (@items_of_other (order_id o') new), app_nil_r;
          [exact HR' | ].
        eapply Forall_impl; [ | exact Hnew]. cbv beta. intros it Hit. lia.
      * constructor; [ | constructor]. split; [lia | ].
        rewrite Hid, items_of_app, (@items_of_other k items0),
          (@items_of_same k new); [exact HR | exact Hnew | ].
        eapply Forall_impl; [ | exact Hitems]. cbv beta. intros it Hit. lia.
    + apply Forall_app. split.
      * eapply Forall_impl; [ | exact Hitems]. cbv beta. intros it Hit. lia.
      * eapply Forall_impl; [ | exact Hnew]. cbv beta. intros it Hit. lia.
  - simpl. split; [lia | ]. split; constructor.
Qed.

End Segments.

(** X7. Every order is placed by a customer of the customers table whose
    segment is one of the four: a customer with another segment is never
    sampled.  The order has [min(n_items, a)] line items, with [a] the
    number of active products and [n_items] from 2 to 6 when that customer
    is premium, from 1 to 4 otherwise. *)
Theorem orders_follow_segments
    {E : Externals} (n : Z) (w w' : World E) customers_df products_df
    orders_df items_df :
  generate_orders customers_df products_df n w
    = (Ok (orders_df, items_df), w') ->
  Forall (fun o =>
            exists (customer : Customer) (n_items : Z),
              In customer (rows customers_df) /\
              order_customer_id o = customer_id customer /\
              In (segment customer)
                 ["premium"; "regular"; "occasional"; "new"] /\
              (if String.eqb (segment customer) "premium"
               then 2 <= n_items <= 6 else 1 <= n_items <= 4)%Z /\
              Z.of_nat (List.length
                          (items_of (order_id o) (rows items_df)))
              = Z.min n_items
                  (Z.of_nat (List.length
                               (filter is_active (rows products_df)))))
         (rows orders_df).
Proof.
  intros Hrun.
  destruct products_df as [ | records];
    [unfold generate_orders, bind in Hrun; simpl in Hrun; discriminate | ].
  apply (generate_orders_each
           (placed_by customers_df (Frame (filter is_active records))))
    in Hrun; [exact Hrun | ].
  intros id orders items next w0 st' w1 Hturn.
  eapply order_record_placed. exact Hturn.
Qed.

(** X8. The three generators write no file and create no directory,
    whether they return or raise: only [generate_all] writes. *)
Theorem generators_write_nothing
    {E : Externals} (n : Z) (w : World E) customers_df products_df :
  let after_customers := snd (generate_customers n w) in
  let after_products := snd (generate_products n w) in
  let after_orders := snd (generate_orders customers_df products_df n w) in
  (w_files after_customers = w_files w /\
   w_dirs after_customers = w_dirs w) /\
  (w_files after_products = w_files w /\
   w_dirs after_products = w_dirs w) /\
  (w_files after_orders = w_files w /\ w_dirs after_orders = w_dirs w).
Proof.
  cbv zeta.
  destruct (generate_customers_run n w) as (cs & w1 & -> & _ & Hc1 & Hc2 & _).
  destruct (generate_products_run n w) as (ps & w2 & -> & _ & Hp1 & Hp2 & _).
  destruct (generate_orders customers_df products_df n w) as [r w3] eqn:Hrun.
  apply Quiet_generate_orders in Hrun. destruct Hrun as (Ho1 & Ho2 & _).
  simpl. auto.
Qed.

(* ================================================================== *)
(** * When [generate_orders] raises *)
(* ================================================================== *)

Section OrdersFailures.

Context {E : Externals}.

Local Open Scope Z_scope.

Lemma known_segment_dec (c : Customer) :
  {known_segment c} + {~ known_segment c}.
Proof. unfold known_segment. apply Z_lt_dec. Qed.

Lemma no_known_segment_weights (records : list Customer) :
  ~ Exists known_segment records ->
  forallb (Z.eqb 0) (map (fun c => segment_weight (segment c)) records)
  = true.
Proof.
  intros Hnone. apply forallb_forall. intros x Hx.
  apply in_map_iff in Hx. destruct Hx as (c & <- & Hc).
  apply Z.eqb_eq.
  pose proof (segment_weight_nonneg (segment c)) as H0.
  destruct (Z.eq_dec 0 (segment_weight (segment c))) as [ | Hne];
    [assumption | exfalso].
  apply Hnone. apply Exists_exists. exists c. split; [exact Hc | ].
  unfold known_segment. lia.
Qed.

(** The first turn of the loop, when no customer can be sampled. *)
Lemma first_order_raises customers_df active_products (n : Z) st w e :
  1 <= n ->
  sample_customer customers_df w = (Raise e, w) ->
  for_range (turns n) 1 (order_record customers_df active_products) st w
  = (Raise e, w).
Proof.
  intros Hn Hraise. unfold turns.
  destruct (Z.to_nat n) as [ | k] eqn:Hk; [lia | ].
  destruct st as [[orders items] next].
  simpl. unfold bind at 1. unfold order_record, bind at 1.
  rewrite Hraise. reflexivity.
Qed.

Lemma generate_orders_unsampled customers_df products (n : Z) w e :
  1 <= n ->
  sample_customer customers_df w = (Raise e, w) ->
  generate_orders customers_df (Frame products) n w = (Raise e, w).
Proof.
  intros Hn Hraise. unfold generate_orders.
  unfold bind at 1. simpl select_active. unfold ret at 1. unfold bind.
  rewrite (@first_order_raises customers_df
             (Frame (filter is_active products)) n ([], [], 1) w e Hn Hraise).
  reflexivity.
Qed.

Lemma sample_customer_unknown (customers : list Customer) w :
  ~ Exists known_segment customers ->
  sample_customer (Frame customers) w
  = (Raise (ValueError "Invalid weights: weights sum to zero"), w).
Proof.
  intros Hnone. unfold sample_customer.
  rewrite (no_known_segment_weights Hnone). reflexivity.
Qed.

End OrdersFailures.

(** X9. [generate_orders] raises in three cases only, and before it draws
    anything: [KeyError] on [is_active] when the products frame has no
    columns; otherwise, when at least one order is asked for, [KeyError] on
    [segment] when the customers frame has no columns, and [ValueError] when
    no customer has one of the four segments.  The generators, the clock and
    the files are as they were. *)
Theorem generate_orders_raises_before_drawing
    {E : Externals} (n : Z) (w w' : World E) customers_df products_df e :
  generate_orders customers_df products_df n w = (Raise e, w') ->
  w' = w /\
  (products_df = NoColumns /\ e = KeyError "is_active" \/
   products_df <> NoColumns /\ (1 <= n)%Z /\
   (customers_df = NoColumns /\ e = KeyError "segment" \/
    customers_df <> NoColumns /\
    ~ Exists known_segment (rows customers_df) /\
    exists message, e = ValueError message)).
Proof.
  intros Hrun.
  destruct products_df as [ | products].
  { unfold generate_orders, bind in Hrun. simpl in Hrun.
    injection Hrun as <- <-. auto. }
  destruct (Z.le_gt_cases n 0) as [Hn | Hn].
  { unfold generate_orders, turns in Hrun.
    replace (Z.to_nat n) with 0%nat in Hrun by lia. discriminate. }
  assert (Hloop : forall e0,
            sample_customer customers_df w = (Raise e0, w) ->
            w' = w /\ e = e0).
  { intros e0 Hraise.
    rewrite (@generate_orders_unsampled _ customers_df products n w e0)
      in Hrun by (lia || exact Hraise).
    injection Hrun as <- <-. auto. }
  destruct customers_df as [ | customers].
  - destruct (Hloop (KeyError "segment") eq_refl) as [-> ->].
    split; [reflexivity | ]. right.
    split; [discriminate | ]. split; [lia | ]. left. auto.
  - destruct (Exists_dec known_segment customers known_segment_dec)
      as [Hex | Hnone].
    + destruct (generate_orders_total products n w Hex)
        as (orders & items & w1 & Hok).
      rewrite Hok in Hrun. discriminate.
    + destruct (Hloop _ (sample_customer_unknown w Hnone)) as [-> ->].
      split; [reflexivity | ]. right.
      split; [discriminate | ]. split; [lia | ]. right.
      split; [discriminate | ]. split; [exact Hnone | eauto].
Qed.

(** X10. [generate_orders] returns exactly when the products frame has its
    columns and either no order is asked for or some customer has one of the
    four segments; the states of the generators play no part. *)
Theorem generate_orders_returns_iff
    {E : Externals} (n : Z) (w : World E) customers_df products_df :
  (exists both w', generate_orders customers_df products_df n w
                   = (Ok both, w')) <->
  products_df <> NoColumns /\
  ((n <= 0)%Z \/ Exists known_segment (rows customers_df)).
Proof.
  split.
  - intros (both & w' & Hrun).
    destruct products_df as [ | products];
      [unfold generate_orders, bind in Hrun; simpl in Hrun; discriminate | ].
    split; [discriminate | ].
    destruct (Z.le_gt_cases n 0) as [Hn | Hn]; [left; exact Hn | right].
    destruct (Exists_dec known_segment (rows customers_df) known_segment_dec)
      as [Hex | Hnone]; [exact Hex | exfalso].
    assert (Hraise : exists e, sample_customer customers_df w = (Raise e, w)).
    { destruct customers_df as [ | customers].
      - eexists. reflexivity.
      - eexists. apply sample_customer_unknown. exact Hnone. }
    destruct Hraise as [e Hraise].
    rewrite (@generate_orders_unsampled _ customers_df products n w e)
      in Hrun by (lia || exact Hraise).
    discriminate.
  - intros [Hcols [Hn | Hex]].
    + destruct products_df as [ | products]; [contradiction | ].
      exists (NoColumns, NoColumns), w.
      unfold generate_orders, turns.
      replace (Z.to_nat n) with 0%nat by lia. reflexivity.
    + destruct products_df as [ | products]; [contradiction | ].
      destruct customers_df as [ | customers]; [inversion Hex | ].
      destruct (generate_orders_total products n w Hex)
        as (orders & items & w' & Hok).
      eauto.
Qed.

(* ================================================================== *)
(** * The whole run, table by table *)
(* ================================================================== *)

Section Pipeline.

Context {E : Externals}.

Local Open Scope Z_scope.

(** [generate_all] up to the orders, when the file system refuses none of
    the first four calls: the customers and the products are those of the
    two generators, run one after the other. *)
Lemma generate_all_stages (n_customers n_products n_orders : Z)
    (output_dir : string) (w : World E) :
  exists customers products w1 w3,
    generate_customers n_customers w = (Ok (pd_DataFrame customers), w1) /\
    List.length customers = Z.to_nat n_customers /\
    generate_products n_products w1 = (Ok (pd_DataFrame products), w3) /\
    List.length products = Z.to_nat n_products /\
    match first_error (first_answers (w_fs w) output_dir) with
    | Some message =>
        fst (generate_all n_customers n_products n_orders output_dir w)
        = Raise (OSError message)
    | None =>
        exists w5,
          generate_all n_customers n_products n_orders output_dir w
          = orders_and_after n_orders output_dir (pd_DataFrame customers)
                             (pd_DataFrame products) w5 /\
          w_fs w5 = w_fs w
    end.
Proof.
  destruct (generate_customers_run n_customers w)
    as (customers & w1 & Hc & Hclen & _).
  destruct (generate_products_run n_products w1)
    as (products & w3 & Hp & Hplen & _).
  exists customers, products, w1, w3.
  repeat (split; [assumption | ]).
  assert (Hc' : fst (generate_customers n_customers w)
                = Ok (pd_DataFrame customers)) by (rewrite Hc; reflexivity).
  assert (Hp' : fst (generate_products n_products
                       (snd (generate_customers n_customers w)))
                = Ok (pd_DataFrame products))
    by (rewrite Hc; simpl; rewrite Hp; reflexivity).
  pose proof (@generate_all_first_stage _ _ _ n_orders output_dir _ _ _
                Hc' Hp') as Hfirst.
  destruct (first_error (first_answers (w_fs w) output_dir)) as [message | ].
  - destruct Hfirst as (k & w' & _ & -> & _). reflexivity.
  - destruct Hfirst as (w5 & Hall & _ & Hfs). eauto.
Qed.




(** What a run that returns went through. *)
Lemma generate_all_ok (n_customers n_products n_orders : Z)
    (output_dir : string) (w : World E) d w' :
  generate_all n_customers n_products n_orders output_dir w = (Ok d, w') ->
  categories_table d = pd_DataFrame categories /\
  exists w0 w1 w2 w3 w5 w6,
    generate_customers n_customers w0 = (Ok (customers d), w1) /\
    generate_products n_products w2 = (Ok (products d), w3) /\
    generate_orders (customers d) (products d) n_orders w5
    = (Ok (orders d, order_items d), w6).
Proof.
  intros Hrun.
  destruct (generate_all_stages n_customers n_products n_orders output_dir w)
    as (cs & ps & w1 & w3 & Hc & _ & Hp & _ & Hall).
  destruct (first_error (first_answers (w_fs w) output_dir)) as [message | ].
  { rewrite Hrun in Hall. discriminate. }
  destruct Hall as (w5 & Hall & _).
  rewrite Hall in Hrun.
  pose proof (@orders_and_after_run _ n_orders output_dir (pd_DataFrame cs)
                (pd_DataFrame ps) w5) as Hafter.
  destruct (generate_orders (pd_DataFrame cs) (pd_DataFrame ps) n_orders w5)
    as [[[orders_df items_df] | e] w6] eqn:Hord.
  2: { destruct Hafter as [Hafter _]. rewrite Hrun in Hafter. discriminate. }
  destruct (first_error (last_answers (w_fs w5) output_dir)) as [message | ];
    destruct Hafter as (w'' & Hafter & _); rewrite Hrun in Hafter;
    [discriminate | ].
  injection Hafter as -> _. simpl.
  split; [reflexivity | ].
  exists w, w1, w1, w3, w5, w6. auto.
Qed.

End Pipeline.


(** X12. In the dataset a run returns, customers, products, orders and
    line items are each numbered 1, 2, ... up to their count, the categories
    table holds the eight categories, and every reference resolves: a
    product's category is in the categories table, an order's customer in
    the customers table, a line item's order in the orders table and its
    product in the products table. *)
Theorem generate_all_keys
    {E : Externals} (n_customers n_products n_orders : Z)
    (output_dir : string) (w w' : World E) (d : Dataset) :
  generate_all n_customers n_products n_orders output_dir w = (Ok d, w') ->
  map customer_id (rows (customers d)) = range_1 n_customers /\
  map product_id (rows (products d)) = range_1 n_products /\
  map order_id (rows (orders d)) = range_1 n_orders /\
  map order_item_id (rows (order_items d))
  = range_1 (Z.of_nat (len (order_items d))) /\
  rows (categories_table d) = categories /\
  Forall (fun p => In (category_id p)
                      (map cat_id (rows (categories_table d))))
         (rows (products d)) /\
  Forall (fun o => In (order_customer_id o)
                      (map customer_id (rows (customers d))))
         (rows (orders d)) /\
  Forall (fun it =>
            In (item_order_id it) (map order_id (rows (orders d))) /\
            In (item_product_id it) (map product_id (rows (products d))))
         (rows (order_items d)).
Proof.
  intros Hrun. apply generate_all_ok in Hrun.
  destruct Hrun as (Hcat & w0 & w1 & w2 & w3 & w5 & w6 & Hc & Hp & Ho).
  apply generate_customers_rows in Hc. destruct Hc as [Hcids _].
  apply generate_products_rows in Hp. destruct Hp as [Hpids Hpall].
  pose proof Ho as Hnum. apply generate_orders_numbered in Hnum.
  destruct Hnum as (_ & Hoids & Hhead & _ & Hiids & _ & Hitems & _).
  assert (Hoids' : map order_id (rows (orders d)) = range_1 n_orders).
  { rewrite Hoids. unfold range_1, turns. do 2 f_equal. lia. }
  apply generate_orders_spec in Ho.
  destruct Ho as (records & Hrec & _ & _ & Hip).
  split; [exact Hcids | ]. split; [exact Hpids | ].
  split; [exact Hoids' | ].
  split; [rewrite Hiids; apply numbers_from_1 | ].
  rewrite Hcat, rows_pd_DataFrame.
  split; [reflexivity | ]. split; [ | split].
  - eapply Forall_impl; [ | exact Hpall].
    intros p (c & _ & _ & _ & Hin & -> & _). apply in_map. exact Hin.
  - eapply Forall_impl; [ | exact Hhead].
    intros o (c & _ & Hin & -> & _). apply in_map. exact Hin.
  - rewrite Forall_forall in *. intros it Hin. split.
    + rewrite Hoids'. apply range_1_In.
      specialize (Hitems it Hin). cbv beta in Hitems.
      unfold turns in Hitems. lia.
    + destruct (Hip it Hin) as (p & Hp & _ & -> & _).
      apply in_map. rewrite Hrec. simpl.
      apply filter_In in Hp. tauto.
Qed.

(** X13. In the dataset a run returns, the keys name the rows the values
    came from: an order has the address columns of the customer with its
    [customer_id]; a line item has the price, as its unit price, of the
    product with its [product_id], and that product is active; and no two
    line items of an order have the same product. *)
Theorem generate_all_rows_behind_keys
    {E : Externals} (n_customers n_products n_orders : Z)
    (output_dir : string) (w w' : World E) (d : Dataset) :
  generate_all n_customers n_products n_orders output_dir w = (Ok d, w') ->
  Forall (fun o =>
            forall c, In c (rows (customers d)) ->
                      customer_id c = order_customer_id o ->
                      shipping_address o = address c /\
                      shipping_city o = city c /\
                      shipping_state o = state c /\
                      shipping_zip o = zip_code c)
         (rows (orders d)) /\
  Forall (fun it =>
            forall p, In p (rows (products d)) ->
                      product_id p = item_product_id it ->
                      is_active p = true /\ unit_price it = price p)
         (rows (order_items d)) /\
  Forall (fun o =>
            NoDup (map item_product_id
                       (items_of (order_id o) (rows (order_items d)))))
         (rows (orders d)).
Proof.
  intros Hrun. apply generate_all_ok in Hrun.
  destruct Hrun as (_ & w0 & w1 & w2 & w3 & w5 & w6 & Hc & Hp & Ho).
  apply generate_customers_rows in Hc. destruct Hc as [Hcids _].
  apply generate_products_rows in Hp. destruct Hp as [Hpids _].
  assert (Hcnd : NoDup (map customer_id (rows (customers d))))
    by (rewrite Hcids; apply range_1_NoDup).
  assert (Hpnd : NoDup (map product_id (rows (products d))))
    by (rewrite Hpids; apply range_1_NoDup).
  pose proof Ho as Hnum. apply generate_orders_numbered in Hnum.
  destruct Hnum as (_ & _ & Hhead & _).
  apply generate_orders_spec in Ho.
  destruct Ho as (records & Hrec & _ & Horders & Hip).
  rewrite Hrec in Hpnd. simpl rows in Hpnd.
  split; [ | split].
  - eapply Forall_impl; [ | exact Hhead].
    intros o (c0 & _ & Hin & Hid & Ha & Hci & Hs & Hz & _) c Hc Hcid.
    assert (c = c0)
      by (eapply NoDup_map_inj; try eassumption; congruence).
    subst c0. auto.
  - eapply Forall_impl; [ | exact Hip].
    intros it (p0 & Hp0 & _ & Hpid & Hprice & _) p Hp Hid.
    apply filter_In in Hp0. destruct Hp0 as [Hp0 Hact].
    rewrite Hrec in Hp. simpl rows in Hp.
    assert (p = p0)
      by (eapply NoDup_map_inj; try eassumption; congruence).
    subst p0. auto.
  - eapply Forall_impl; [ | exact Horders].
    intros o (w7 & _ & c & t & n & idx & Hof).
    destruct Hof as (_ & _ & _ & _ & _ & Hnd & _ & Hlt & Hnew & _).
    rewrite (Forall2_item_products Hnew).
    apply take_NoDup; try assumption.
    simpl rows. apply NoDup_map_filter. exact Hpnd.
Qed.

(* ================================================================== *)
(** * The stored subtotal and the free-shipping threshold *)
(* ================================================================== *)

(** A float that is not negative: a zero, a finite number or an infinity of
    positive sign. *)
Definition nonneg_sf (x : spec_float) : Prop :=
  match x with
  | S754_zero s | S754_infinity s | S754_finite s _ _ => s = false
  | S754_nan => False
  end.

Section Signs.

Local Open Scope Z_scope.

Lemma shr_1_nonneg (mrs : shr_record) :
  0 <= shr_m mrs -> 0 <= shr_m (shr_1 mrs).
Proof.
  destruct mrs as [m r s]. destruct m as [ | p | p]; simpl;
    try destruct p; simpl; lia.
Qed.

Lemma iter_shr_1_nonneg (p : positive) :
  forall mrs, 0 <= shr_m mrs -> 0 <= shr_m (iter_pos shr_1 p mrs).
Proof.
  induction p as [p IH | p IH | ]; simpl; intros mrs H;
    auto using shr_1_nonneg.
Qed.

Lemma shr_fexp_nonneg (m e : Z) (l : location) :
  0 <= m -> 0 <= shr_m (fst (shr_fexp prec emax m e l)).
Proof.
  intros Hm. unfold shr_fexp, shr.
  assert (H0 : 0 <= shr_m (shr_record_of_loc m l))
    by (destruct l as [ | [ | | ]]; exact Hm).
  destruct (IntDef.Z.sub _ e); simpl; auto using iter_shr_1_nonneg.
Qed.

Lemma round_nearest_even_nonneg (m : Z) (l : location) :
  0 <= m -> 0 <= round_nearest_even m l.
Proof.
  intros Hm. unfold round_nearest_even. stdlib_Z.
  destruct l as [ | [ | | ]]; try destruct (IntDef.Z.even m); lia.
Qed.

Lemma binary_round_aux_nonneg (m e : Z) (l : location) :
  0 <= m -> nonneg_sf (binary_round_aux prec emax false m e l).
Proof.
  intros Hm. unfold binary_round_aux.
  pose proof (shr_fexp_nonneg e l Hm) as H1.
  destruct (shr_fexp prec emax m e l) as [mrs' e']. simpl in H1.
  pose proof (shr_fexp_nonneg e' loc_Exact
                (round_nearest_even_nonneg (loc_of_shr_record mrs') H1))
    as H2.
  destruct (shr_fexp prec emax _ e' loc_Exact) as [mrs'' e'']. simpl in H2.
  destruct (shr_m mrs'') as [ | p | p]; [reflexivity | | lia].
  destruct (IntDef.Z.leb e'' _); reflexivity.
Qed.

Lemma of_uint63_nonneg (k : int) : nonneg_sf (Prim2SF (of_uint63 k)).
Proof.
  rewrite FloatAxioms.of_uint63_spec. pose proof (to_Z_bounded k) as Hk.
  unfold binary_normalize.
  destruct (to_Z k) as [ | p | p]; [reflexivity | | lia].
  unfold binary_round. destruct (shl_align _ _ _) as [mz ez].
  apply binary_round_aux_nonneg. lia.
Qed.

Lemma of_cents_nonneg (k : int) : nonneg_sf (Prim2SF (of_cents k)).
Proof.
  unfold of_cents. rewrite FloatAxioms.div_spec.
  pose proof (of_uint63_nonneg k) as Hk.
  change (Prim2SF 100) with (S754_finite false 7036874417766400 (-46)).
  unfold SF64div, SFdiv.
  destruct (Prim2SF (of_uint63 k)) as [s | s | | s m e]; simpl in Hk;
    try contradiction; subst s; try reflexivity.
  unfold SFdiv_core_binary. cbv zeta.
  set (m' := match _ with Z0 => Z.pos m | Z.pos _ => _ | Z.neg _ => 0 end).
  assert (Hm' : 0 <= m').
  { unfold m'. destruct (IntDef.Z.sub _ _); try lia.
    change IntDef.Z.shiftl with Z.shiftl. apply Z.shiftl_nonneg. lia. }
  change IntDef.Z.div_eucl with Z.div_eucl.
  pose proof (Z.div_pos m' 7036874417766400 Hm' ltac:(lia)) as Hq.
  unfold Z.div in Hq.
  destruct (Z.div_eucl m' 7036874417766400) as [q r].
  apply binary_round_aux_nonneg. exact Hq.
Qed.

Lemma ltb_leb (x y : float) :
  (x <? y)%float = true -> (x <=? y)%float = true.
Proof.
  rewrite FloatAxioms.ltb_spec, FloatAxioms.leb_spec. unfold SFltb, SFleb.
  destruct (SFcompare _ _) as [[ | | ] | ]; congruence.
Qed.

End Signs.

Section Threshold.

Local Open Scope Z_scope.

(** Every amount from 0.00 to 50.00 is at most 50. *)
Lemma cents_to_fifty :
  all_cents 0 5000 (fun k => (of_cents k <=? 50)%float) = true.
Proof. vm_compute. reflexivity. Qed.

Lemma iter_xO_pow (m p : positive) :
  Zpos (Pos.iter xO m p) = Zpos m * 2 ^ Zpos p.
Proof.
  induction p as [ | p IH] using Pos.peano_ind.
  - simpl. lia.
  - rewrite Pos.iter_succ, Pos2Z.inj_succ, Z.pow_succ_r by lia.
    rewrite Pos2Z.inj_xO, IH. lia.
Qed.

Lemma SFltb_finite_pos (m mh : positive) (e eh : Z) :
  SFltb (S754_finite false m e) (S754_finite false mh eh) = true ->
  e < eh \/ (e = eh /\ Zpos m < Zpos mh).
Proof.
  unfold SFltb. simpl. stdlib_Z.
  destruct (e ?= eh) eqn:Hc.
  - apply Z.compare_eq in Hc. intros H. right. split; [exact Hc | ].
    change (PosDef.Pos.compare_cont Eq m mh) with (Pos.compare m mh) in H.
    destruct (Pos.compare_spec m mh) as [Hm | Hm | Hm]; try discriminate.
    lia.
  - intros _. left. apply Z.compare_lt_iff in Hc. exact Hc.
  - discriminate.
Qed.

(** A negative amount rounds to at most 50. *)
Lemma opp_of_cents_below (k : int) : (- of_cents k <=? 50)%float = true.
Proof.
  rewrite FloatAxioms.leb_spec, FloatAxioms.opp_spec.
  pose proof (of_cents_nonneg k) as Hk.
  change (Prim2SF 50) with (S754_finite false 7036874417766400 (-47)).
  destruct (Prim2SF (of_cents k)) as [s | s | | s m e]; simpl in Hk;
    try contradiction; subst s; reflexivity.
Qed.

(** A positive double below 50 rounds to a whole number of hundredths from
    0 to 5000. *)
Lemma cents_of_below_fifty (x : float) (m : positive) (e : Z) :
  Prim2SF x = S754_finite false m e ->
  (x <? 50)%float = true ->
  exists se mf,
    frshiftexp x = (mf, se) /\ (2148 <=? se)%uint63 = false /\
    0 <= to_Z (cents_of x) <= 5000.
Proof.
  intros Hx Hlt.
  pose proof (Prim2SF_valid x) as V. rewrite Hx in V. simpl in V.
  unfold bounded, canonical_mantissa, fexp, SpecFloat.emin, prec, emax in V.
  apply andb_prop in V. destruct V as [V _]. stdlib_Z.
  apply Z.eqb_eq in V.
  set (dg := Zpos (digits2_pos m)) in *.
  pose proof (digits2_bounds m) as Hdg. fold dg in Hdg.
  assert (Hdg0 : 1 <= dg) by (unfold dg; lia).
  assert (Hdg53 : dg <= 53 /\ -1074 <= e) by lia.
  rewrite FloatAxioms.ltb_spec, Hx in Hlt.
  change (Prim2SF 50) with (S754_finite false 7036874417766400 (-47)) in Hlt.
  assert (He : e < -47 \/ (e = -47 /\ Zpos m < 7036874417766400))
    by (apply SFltb_finite_pos; exact Hlt).
  set (d := 53 - dg).
  assert (Hm53 : Zpos m * 2 ^ d < 2 ^ 53).
  { replace (2 ^ 53) with (2 ^ dg * 2 ^ d)
      by (rewrite <- Z.pow_add_r by (unfold d; lia); f_equal; unfold d; lia).
    apply Z.mul_lt_mono_pos_r; [apply Z.pow_pos_nonneg; unfold d; lia | lia]. }
  pose proof (frshiftexp_spec x) as Hfr. rewrite Hx in Hfr.
  destruct (frshiftexp x) as [mf se] eqn:Hfrx.
  assert (Hparts : Prim2SF mf = S754_finite false
                                  (Z.to_pos (Zpos m * 2 ^ d)) (-53) /\
                   to_Z se = e + 2154 - d).
  { unfold SFfrexp, prec, shift in Hfr. stdlib_Z. fold dg in Hfr.
    destruct (53 <=? dg) eqn:Hfull.
    - apply Z.leb_le in Hfull. injection Hfr as Hmf Hse.
      assert (d = 0) by (unfold d; lia).
      replace d with 0 by lia. rewrite Z.mul_1_r. simpl Z.to_pos.
      split; [exact Hmf | lia].
    - apply Z.leb_gt in Hfull. injection Hfr as Hmf Hse.
      change (Z.pos_sub 53 (digits2_pos m)) with d in Hmf, Hse.
      change IntDef.Z.to_pos with Z.to_pos in Hmf.
      split; [ | lia]. rewrite Hmf. do 2 f_equal.
      change (@PosDef.Pos.iter) with (@Pos.iter).
      apply Pos2Z.inj. rewrite iter_xO_pow.
      rewrite (Z2Pos.id d) by (unfold d; lia).
      rewrite Z2Pos.id; [reflexivity | ].
      apply Z.mul_pos_pos; [lia | apply Z.pow_pos_nonneg; unfold d; lia]. }
  destruct Hparts as [Hmf Hse].
  assert (Hpos : 0 < Zpos m * 2 ^ d)
    by (apply Z.mul_pos_pos; [lia | apply Z.pow_pos_nonneg; unfold d; lia]).
  exists se, mf. split; [reflexivity | ].
  assert (Hd : 0 <= d <= 52) by (unfold d; lia).
  split.
  { destruct (2148 <=? se)%uint63 eqn:Hbig; [ | reflexivity].
    apply leb_spec in Hbig. change (to_Z 2148) with 2148 in Hbig. lia. }
  unfold cents_of. rewrite Hfrx.
  pose proof (normfr_mantissa_spec mf) as Hnm. rewrite Hmf in Hnm.
  unfold SFnormfr_mantissa, prec in Hnm. 
  change (IntDef.Z.eqb (-53) (IntDef.Z.opp 53)) with true in Hnm.
  cbv iota in Hnm. rewrite N2Z.inj_pos, Z2Pos.id in Hnm by exact Hpos.
  set (n := - e + d).
  assert (Hn : 47 <= n <= 1126) by (unfold n; lia).
  assert (Hnn : to_Z (2154 - se) = n).
  { rewrite sub_spec, Hse. change (to_Z 2154) with 2154.
    unfold n. rewrite Z.mod_small; [lia | ]. rewrite wB_val. lia. }
  assert (HN : to_Z (100 * normfr_mantissa mf) = 100 * (Zpos m * 2 ^ d)).
  { rewrite mul_spec, Hnm. change (to_Z 100) with 100.
    apply Z.mod_small. rewrite wB_val.
    change (2 ^ 53) with 9007199254740992 in Hm53. lia. }
  destruct (Z.lt_ge_cases n 62) as [Hsmall | Hlarge].
  - apply rhe_lsr_between; rewrite Hnn, ?HN; [lia | ].
    assert (H2n : 2 ^ n = 2 ^ (- e) * 2 ^ d)
      by (unfold n; apply Z.pow_add_r; lia).
    assert (H2d : 0 < 2 ^ d) by (apply Z.pow_pos_nonneg; lia).
    assert (Hme : Zpos m <= 50 * 2 ^ (- e)).
    { destruct He as [He | [He Hm]].
      - assert (2 ^ 48 <= 2 ^ (- e)) by (apply Z.pow_le_mono_r; lia).
        assert (Zpos m < 2 ^ 53).
        { eapply Z.lt_le_trans; [apply Hdg | ].
          apply Z.pow_le_mono_r; lia. }
        change (2 ^ 53) with (32 * 2 ^ 48) in *. lia.
      - rewrite He. change (2 ^ (- -47)) with 140737488355328. lia. }
    rewrite H2n. nia.
  - unfold rhe_lsr.
    assert (Hbig : (62 <=? 2154 - se)%uint63 = true).
    { apply leb_spec. rewrite Hnn. change (to_Z 62) with 62. lia. }
    rewrite Hbig. change (to_Z 0) with 0. lia.
Qed.

(** Rounding to two decimals does not lift an amount below 50 above 50. *)
Lemma round2_at_most_fifty (x : float) :
  (x <? 50)%float = true -> (round2 x <=? 50)%float = true.
Proof.
  intros Hlt. unfold round2. rewrite classify_spec.
  unfold SF64classify, SFclassify.
  destruct (Prim2SF x) as [s | s | | s m e] eqn:Hx;
    try (destruct s; apply ltb_leb; exact Hlt);
    try (apply ltb_leb; exact Hlt).
  destruct s.
  - destruct (IntDef.Z.eqb _ _); destruct (frshiftexp x) as [mf se];
      destruct (2148 <=? se)%uint63;
      try (apply ltb_leb; exact Hlt); apply opp_of_cents_below.
  - destruct (cents_of_below_fifty Hx Hlt) as (se & mf & Hfr & Hbig & Hk).
    assert (Hpos : (of_cents (cents_of x) <=? 50)%float = true).
    { apply (all_cents_spec (lo := 0) (hi := 5000)
               (fun k => (of_cents k <=? 50)%float));
        [lia | reflexivity | exact cents_to_fifty | exact Hk]. }
    destruct (IntDef.Z.eqb _ _); rewrite Hfr, Hbig; exact Hpos.
Qed.

End Threshold.

(** X14. An order whose stored subtotal is above 50 ships for free: the
    threshold is tested before the subtotal is rounded, and rounding to two
    decimals lifts no amount below 50 above 50. *)
Theorem free_shipping_above_fifty
    {E : Externals} (n : Z) (w w' : World E) customers_df products_df
    orders_df items_df :
  generate_orders customers_df products_df n w
    = (Ok (orders_df, items_df), w') ->
  Forall (fun o => (50 <? subtotal o)%float = true -> shipping o = 0%float)
         (rows orders_df).
Proof.
  intros Hrun. apply generate_orders_spec in Hrun.
  destruct Hrun as (records & _ & _ & Horders & _).
  eapply Forall_impl; [ | exact Horders].
  intros o (w1 & _ & c & t & k & idx & Hof) Habove.
  destruct Hof as (_ & _ & _ & _ & _ & _ & _ & _ & _ & _ & Hsub & _ & _
                   & Hship & _).
  destruct (running_sum 0 (items_of (order_id o) (rows items_df)) <? 50)%float
    eqn:Hlt; [exfalso | exact Hship].
  apply round2_at_most_fifty, leb_not_ltb in Hlt.
  rewrite <- Hsub in Hlt. congruence.
Qed.

(* ================================================================== *)
(** * Amounts are never negative *)
(* ================================================================== *)

Section Amounts.

Local Open Scope Z_scope.

Lemma positive_nonneg (x : float) :
  (0 <? x)%float = true -> nonneg_sf (Prim2SF x).
Proof.
  rewrite FloatAxioms.ltb_spec. unfold SFltb.
  change (Prim2SF 0) with (S754_zero false).
  destruct (Prim2SF x) as [s | s | | s m e]; simpl;
    try destruct s; try discriminate; reflexivity.
Qed.

Lemma nonneg_leb (x : float) :
  nonneg_sf (Prim2SF x) -> (0 <=? x)%float = true.
Proof.
  rewrite FloatAxioms.leb_spec. unfold SFleb.
  change (Prim2SF 0) with (S754_zero false).
  destruct (Prim2SF x) as [s | s | | s m e]; simpl;
    intros H; try contradiction; subst; reflexivity.
Qed.

Lemma add_nonneg (x y : float) :
  nonneg_sf (Prim2SF x) -> nonneg_sf (Prim2SF y) ->
  nonneg_sf (Prim2SF (x + y)).
Proof.
  rewrite FloatAxioms.add_spec. unfold SF64add, SFadd.
  destruct (Prim2SF x) as [sx | sx | | sx mx ex];
    destruct (Prim2SF y) as [sy | sy | | sy my ey]; simpl;
    intros Hx Hy; try contradiction; subst; try reflexivity.
  unfold binary_normalize.
  destruct (shl_align mx ex (IntDef.Z.min ex ey)) as [m1 e1].
  destruct (shl_align my ey (IntDef.Z.min ex ey)) as [m2 e2].
  simpl. unfold binary_round.
  destruct (shl_align _ _ _) as [mz ez].
  apply binary_round_aux_nonneg. lia.
Qed.

Lemma mul_nonneg (x y : float) (m : positive) (e : Z) :
  Prim2SF y = S754_finite false m e ->
  nonneg_sf (Prim2SF x) -> nonneg_sf (Prim2SF (x * y)).
Proof.
  intros Hy. rewrite FloatAxioms.mul_spec, Hy. unfold SF64mul, SFmul.
  destruct (Prim2SF x) as [sx | sx | | sx mx ex]; simpl;
    intros Hx; try contradiction; subst; try reflexivity.
  apply binary_round_aux_nonneg. lia.
Qed.

Lemma round2_nonneg (x : float) :
  nonneg_sf (Prim2SF x) -> nonneg_sf (Prim2SF (round2 x)).
Proof.
  intros Hx. unfold round2. rewrite classify_spec.
  unfold SF64classify, SFclassify.
  destruct (Prim2SF x) as [s | s | | s m e] eqn:Hp; simpl in Hx;
    try contradiction; subst s; try (rewrite Hp; reflexivity).
  destruct (IntDef.Z.eqb _ _); destruct (frshiftexp x) as [mf se];
    destruct (2148 <=? se)%uint63;
    try (rewrite Hp; reflexivity); apply of_cents_nonneg.
Qed.

Lemma running_sum_nonneg (items : list OrderItem) :
  Forall (fun it => (0 <? line_total it)%float = true) items ->
  forall start, nonneg_sf (Prim2SF start) ->
                nonneg_sf (Prim2SF (running_sum start items)).
Proof.
  induction 1 as [ | it items Hit _ IH]; intros start Hstart; [exact Hstart | ].
  simpl. apply IH. apply add_nonneg; [exact Hstart | ].
  apply positive_nonneg. exact Hit.
Qed.

Lemma shipping_fee_nonneg (c : float) :
  In c [0; 5.99; 9.99; 14.99]%float -> nonneg_sf (Prim2SF (round2 c)).
Proof.
  intros Hin. repeat (destruct Hin as [<- | Hin]; [vm_compute; reflexivity | ]).
  destruct Hin.
Qed.

End Amounts.

Section PricedOrders.

Context {E : Externals}.

Lemma priced_orders_not_negative (n_orders : Z) (w w' : World E)
    (customers_df : DataFrame Customer) (products_df : DataFrame Product)
    (orders_df : DataFrame Order) (items_df : DataFrame OrderItem) :
  Forall product_facts (rows products_df) ->
  generate_orders customers_df products_df n_orders w
    = (Ok (orders_df, items_df), w') ->
  Forall (fun o =>
            (0 <=? subtotal o)%float = true /\
            (0 <=? shipping o)%float = true /\
            (0 <=? tax o)%float = true /\
            (0 <=? total o)%float = true)
         (rows orders_df).
Proof.
  intros Hproducts Horders.
  apply generate_orders_spec in Horders.
  destruct Horders as (records & -> & _ & Horders & Hitems).
  simpl in Hproducts. rewrite Forall_forall in Hproducts.
  assert (Hpos : Forall (fun it => (0 <? line_total it)%float = true)
                        (rows items_df)).
  { eapply Forall_impl; [ | exact Hitems].
    intros it (p & Hp & Hit).
    apply filter_In in Hp. destruct Hp as [Hp _].
    destruct (item_of_priced (Hproducts p Hp) Hit) as (_ & _ & H). exact H. }
  eapply Forall_impl; [ | exact Horders].
  intros o (w2 & _ & c & t & k & idx & Hof).
  destruct Hof as (_ & _ & _ & _ & _ & _ & _ & _ & _ & _ & Hsub & Htax
                   & Htot & Hship & _).
  set (running := running_sum 0 (items_of (order_id o) (rows items_df))) in *.
  assert (Hrun : nonneg_sf (Prim2SF running)).
  { apply running_sum_nonneg; [ | reflexivity].
    unfold items_of. rewrite Forall_forall in *.
    intros it Hin. apply filter_In in Hin. apply Hpos. tauto. }
  assert (Hs : nonneg_sf (Prim2SF (shipping o))).
  { destruct (running <? 50)%float.
    - destruct Hship as (fee & Hfee & ->). apply shipping_fee_nonneg. exact Hfee.
    - rewrite Hship. reflexivity. }
  assert (Ht : nonneg_sf (Prim2SF (tax o))).
  { rewrite Htax. apply round2_nonneg.
    apply (@mul_nonneg running 0.08 5764607523034235 (-56));
      [reflexivity | exact Hrun]. }
  rewrite Hsub, Htot.
  repeat split; apply nonneg_leb; try assumption;
    apply round2_nonneg; try assumption.
  repeat apply add_nonneg; assumption.
Qed.

End PricedOrders.

(** X15. When the products were priced by [generate_products], the
    subtotal, the shipping fee, the tax and the total of every order are
    at least 0; none of them is negative or not a number. *)
Theorem order_amounts_not_negative
    {E : Externals} (n_products n_orders : Z) (w0 w1 w w' : World E)
    (customers_df : DataFrame Customer) (products_df : DataFrame Product)
    (orders_df : DataFrame Order) (items_df : DataFrame OrderItem) :
  generate_products n_products w0 = (Ok products_df, w1) ->
  generate_orders customers_df products_df n_orders w
    = (Ok (orders_df, items_df), w') ->
  Forall (fun o =>
            (0 <=? subtotal o)%float = true /\
            (0 <=? shipping o)%float = true /\
            (0 <=? tax o)%float = true /\
            (0 <=? total o)%float = true)
         (rows orders_df).
Proof.
  intros Hproducts Horders.
  apply generate_products_spec in Hproducts.
  eapply priced_orders_not_negative; eassumption.
Qed.

(** X16. In the dataset a run returns, with no further assumption: every
    product costs less than its price, and its price lies in the range of
    its category; every line item has a discount from 0 to below its unit
    price and a line total above 0; and the subtotal, the shipping fee, the
    tax and the total of every order are at least 0. *)
Theorem generate_all_amounts
    {E : Externals} (n_customers n_products n_orders : Z)
    (output_dir : string) (w w' : World E) (d : Dataset) :
  generate_all n_customers n_products n_orders output_dir w = (Ok d, w') ->
  Forall (fun p =>
            (cost p <? price p)%float = true /\
            (fst (price_bounds (category_name p)) <=? price p)%float = true /\
            (price p <=? snd (price_bounds (category_name p)))%float = true)
         (rows (products d)) /\
  Forall (fun it =>
            (0 <=? discount it)%float = true /\
            (discount it <? unit_price it)%float = true /\
            (0 <? line_total it)%float = true)
         (rows (order_items d)) /\
  Forall (fun o =>
            (0 <=? subtotal o)%float = true /\
            (0 <=? shipping o)%float = true /\
            (0 <=? tax o)%float = true /\
            (0 <=? total o)%float = true)
         (rows (orders d)).
Proof.
  intros Hrun. apply generate_all_ok in Hrun.
  destruct Hrun as (_ & w0 & w1 & w2 & w3 & w5 & w6 & _ & Hp & Ho).
  apply generate_products_spec in Hp.
  split; [ | split].
  - eapply Forall_impl; [ | exact Hp]. intros p Hfacts.
    destruct (product_facts_checked Hfacts)
      as (c & _ & _ & -> & _ & Hlt & Hlo & Hhi & _).
    auto.
  - pose proof Ho as Hspec. apply generate_orders_spec in Hspec.
    destruct Hspec as (records & Hrec & _ & _ & Hitems).
    rewrite Hrec in Hp. simpl in Hp. rewrite Forall_forall in Hp.
    eapply Forall_impl; [ | exact Hitems].
    intros it (p & Hin & Hit).
    apply filter_In in Hin. destruct Hin as [Hin _].
    exact (item_of_priced (Hp p Hin) Hit).
  - eapply priced_orders_not_negative; eassumption.
Qed.

(* ================================================================== *)
(** * The further theorems at work on concrete runs *)
(* ================================================================== *)

Module FullRun.

(** Two customers, three products and two orders, from short tapes. *)
Definition start : World TapeExternals :=
  Example.world [1; 0; 4; 1; 1125899906842624; 40; 0;
                 0; 2; 6755399441055744; 12; 0;
                 6; 3; 2251799813685248; 300; 0]%N
                [3; 8; 500; 4; 9; 600; 5; 10; 700]%N [1; 0; 1; 2]%N
                (midnight 20000) [1; 1; 1]%N.

Definition dataset : Dataset :=
  Eval vm_compute in
    match fst (generate_all 2 3 2 "data" start) with
    | Ok d => d
    | Raise _ => {| customers := NoColumns; products := NoColumns;
                    categories_table := NoColumns; orders := NoColumns;
                    order_items := NoColumns |}
    end.

Lemma dataset_eq : fst (generate_all 2 3 2 "data" start) = Ok dataset.
Proof. vm_compute. reflexivity. Qed.

(** A customer whose segment is none of the four. *)
Definition stranger : DataFrame Customer :=
  Frame [Example.customer 1 "vip" 19500].

End FullRun.

Lemma generate_products_sku_width_witness :
  Forall (fun p => String.length (sku p) = 12%nat)
         (rows Example.generated_products).
Proof.
  apply (@generate_products_sku_width TapeExternals 3 Example.products_world
           Example.generated_products
           (snd (generate_products 3 Example.products_world))).
  - lia.
  - apply run_pair. exact Example.generated_products_eq.
Defined.

Lemma generate_orders_headers_witness :
  map order_id (rows Example.generated_orders) = range_1 2 /\
  Forall (order_header Example.two_customers) (rows Example.generated_orders).
Proof.
  apply (@generate_orders_headers TapeExternals 2 Example.orders_world
           (snd (generate_orders Example.two_customers
                   Example.generated_products 2 Example.orders_world))
           Example.two_customers Example.generated_products
           Example.generated_orders Example.generated_items).
  apply run_pair. exact Example.generated_orders_eq.
Defined.

Lemma generate_orders_items_numbered_witness :
  map order_item_id (rows Example.generated_items)
  = range_1 (Z.of_nat (len Example.generated_items)) /\
  rows Example.generated_items
  = flat_map (fun o => items_of (order_id o) (rows Example.generated_items))
             (rows Example.generated_orders) /\
  Forall (fun it =>
            In (item_order_id it)
               (map order_id (rows Example.generated_orders)) /\
            (1 <= quantity it <= 3)%Z)
         (rows Example.generated_items).
Proof.
  apply (@generate_orders_items_numbered TapeExternals 2 Example.orders_world
           (snd (generate_orders Example.two_customers
                   Example.generated_products 2 Example.orders_world))
           Example.two_customers Example.generated_products
           Example.generated_orders Example.generated_items).
  apply run_pair. exact Example.generated_orders_eq.
Defined.

Lemma free_shipping_on_running_sum_witness :
  Forall (fun o =>
            In (shipping o) [0; 5.99; 9.99; 14.99]%float /\
            ((50 <=? running_sum 0 (items_of (order_id o)
                                      (rows Example.generated_items)))%float
             = true -> shipping o = 0%float))
         (rows Example.generated_orders).
Proof.
  apply (@free_shipping_on_running_sum TapeExternals 2 Example.orders_world
           (snd (generate_orders Example.two_customers
                   Example.generated_products 2 Example.orders_world))
           Example.two_customers Example.generated_products
           Example.generated_orders Example.generated_items).
  apply run_pair. exact Example.generated_orders_eq.
Defined.

Lemma free_shipping_above_fifty_witness :
  Forall (fun o => (50 <? subtotal o)%float = true -> shipping o = 0%float)
         (rows Example.generated_orders).
Proof.
  apply (@free_shipping_above_fifty TapeExternals 2 Example.orders_world
           (snd (generate_orders Example.two_customers
                   Example.generated_products 2 Example.orders_world))
           Example.two_customers Example.generated_products
           Example.generated_orders Example.generated_items).
  apply run_pair. exact Example.generated_orders_eq.
Defined.

Lemma generate_orders_raises_before_drawing_witness :
  Example.morning = Example.morning /\
  (Example.four_books = NoColumns /\
   ValueError "Invalid weights: weights sum to zero" = KeyError "is_active" \/
   Example.four_books <> NoColumns /\ (1 <= 1)%Z /\
   (FullRun.stranger = NoColumns /\
    ValueError "Invalid weights: weights sum to zero" = KeyError "segment" \/
    FullRun.stranger <> NoColumns /\
    ~ Exists known_segment (rows FullRun.stranger) /\
    exists message,
      ValueError "Invalid weights: weights sum to zero"
      = ValueError message)).
Proof.
  apply (@generate_orders_raises_before_drawing TapeExternals 1
           Example.morning Example.morning FullRun.stranger
           Example.four_books).
  reflexivity.
Defined.

Lemma generate_all_keys_witness :
  let d := FullRun.dataset in
  map customer_id (rows (customers d)) = range_1 2 /\
  map product_id (rows (products d)) = range_1 3 /\
  map order_id (rows (orders d)) = range_1 2 /\
  map order_item_id (rows (order_items d))
  = range_1 (Z.of_nat (len (order_items d))) /\
  rows (categories_table d) = categories /\
  Forall (fun p => In (category_id p)
                      (map cat_id (rows (categories_table d))))
         (rows (products d)) /\
  Forall (fun o => In (order_customer_id o)
                      (map customer_id (rows (customers d))))
         (rows (orders d)) /\
  Forall (fun it =>
            In (item_order_id it) (map order_id (rows (orders d))) /\
            In (item_product_id it) (map product_id (rows (products d))))
         (rows (order_items d)).
Proof.
  apply (@generate_all_keys TapeExternals 2 3 2 "data" FullRun.start
           (snd (generate_all 2 3 2 "data" FullRun.start)) FullRun.dataset).
  apply run_pair. exact FullRun.dataset_eq.
Defined.

Lemma generate_all_rows_behind_keys_witness :
  let d := FullRun.dataset in
  Forall (fun o =>
            forall c, In c (rows (customers d)) ->
                      customer_id c = order_customer_id o ->
                      shipping_address o = address c /\
                      shipping_city o = city c /\
                      shipping_state o = state c /\
                      shipping_zip o = zip_code c)
         (rows (orders d)) /\
  Forall (fun it =>
            forall p, In p (rows (products d)) ->
                      product_id p = item_product_id it ->
                      is_active p = true /\ unit_price it = price p)
         (rows (order_items d)) /\
  Forall (fun o =>
            NoDup (map item_product_id
                       (items_of (order_id o) (rows (order_items d)))))
         (rows (orders d)).
Proof.
  apply (@generate_all_rows_behind_keys TapeExternals 2 3 2 "data"
           FullRun.start
           (snd (generate_all 2 3 2 "data" FullRun.start)) FullRun.dataset).
  apply run_pair. exact FullRun.dataset_eq.
Defined.

Lemma orders_follow_segments_witness :
  Forall (fun o =>
            exists (customer : Customer) (n_items : Z),
              In customer (rows Example.two_customers) /\
              order_customer_id o = customer_id customer /\
              In (segment customer)
                 ["premium"; "regular"; "occasional"; "new"] /\
              (if String.eqb (segment customer) "premium"
               then 2 <= n_items <= 6 else 1 <= n_items <= 4)%Z /\
              Z.of_nat (List.length
                          (items_of (order_id o)
                                    (rows Example.generated_items)))
              = Z.min n_items
                  (Z.of_nat (List.length
                               (filter is_active
                                       (rows Example.generated_products)))))
         (rows Example.generated_orders).
Proof.
  apply (@orders_follow_segments TapeExternals 2 Example.orders_world
           (snd (generate_orders Example.two_customers
                   Example.generated_products 2 Example.orders_world))
           Example.two_customers Example.generated_products
           Example.generated_orders Example.generated_items).
  apply run_pair. exact Example.generated_orders_eq.
Defined.

Lemma order_amounts_not_negative_witness :
  Forall (fun o =>
            (0 <=? subtotal o)%float = true /\
            (0 <=? shipping o)%float = true /\
            (0 <=? tax o)%float = true /\
            (0 <=? total o)%float = true)
         (rows Example.generated_orders).
Proof.
  apply (@order_amounts_not_negative TapeExternals 3 2
           Example.products_world
           (snd (generate_products 3 Example.products_world))
           Example.orders_world
           (snd (generate_orders Example.two_customers
                   Example.generated_products 2 Example.orders_world))
           Example.two_customers Example.generated_products
           Example.generated_orders Example.generated_items).
  - apply run_pair. exact Example.generated_products_eq.
  - apply run_pair. exact Example.generated_orders_eq.
Defined.

Lemma generate_all_amounts_witness :
  let d := FullRun.dataset in
  Forall (fun p =>
            (cost p <? price p)%float = true /\
            (fst (price_bounds (category_name p)) <=? price p)%float = true /\
            (price p <=? snd (price_bounds (category_name p)))%float = true)
         (rows (products d)) /\
  Forall (fun it =>
            (0 <=? discount it)%float = true /\
            (discount it <? unit_price it)%float = true /\
            (0 <? line_total it)%float = true)
         (rows (order_items d)) /\
  Forall (fun o =>
            (0 <=? subtotal o)%float = true /\
            (0 <=? shipping o)%float = true /\
            (0 <=? tax o)%float = true /\
            (0 <=? total o)%float = true)
         (rows (orders d)).
Proof.
  apply (@generate_all_amounts TapeExternals 2 3 2 "data" FullRun.start
           (snd (generate_all 2 3 2 "data" FullRun.start)) FullRun.dataset).
  apply run_pair. exact FullRun.dataset_eq.
Defined.
